(** * AShare: local daily-bar store, period aggregation, moving averages,
      hover read-out and the batch downloader.

    Shallow embedding of
      - [src/3-2-K_line-MA_line.py]   (viewer: load, resample, MA, chart, hover)
      - [src/2-1-All_K_data-akshare.py] (downloader: one fetch per code, tally)

    Conventions of the embedding.
      - A pandas [Timestamp] at midnight is the number of days since
        1970-01-01 (a Thursday), a [Z].  In the viewer every stored row has
        a date; in the downloader a date can be missing ([NaT]).
      - The price columns open, high, low, close are [float64] columns
        without missing values; a price is the exact rational value [Q] of
        its finite float.  The volume column is an [int64] column; a volume
        is a [Z], and sums of volumes wrap around as [int64] sums do.
      - NaN (pandas' missing value) is [None] of an [option Q].
      - What the code leaves to pandas and numpy and the embedding does not
        compute is a field of the record [pandas]: the order [sort_values]
        gives to rows of equal date, the float a rolling mean returns, and
        the parsing of dates.
      - A Python [str] is a [string]; its characters are the code points
        0..255.
      - A Python exception is a value of [exn]; a call that may raise
        returns a [result]. *)

From Stdlib Require Import ZArith QArith Qminmax Qabs Qround List String Ascii.
From Stdlib Require Import Bool Lia.
From Stdlib Require Import Sorted Permutation.
From stdpp Require Import base tactics option list sorting gmap strings pretty.

Local Open Scope string_scope.
Local Open Scope Z_scope.

(** ** Calendar *)

Module Calendar.

(** Proleptic Gregorian calendar on day numbers (days since 1970-01-01),
    the integer arithmetic behind [Timestamp.year/.month/.day] and behind
    the month-end offset. *)

Definition days_from_civil (y m d : Z) : Z :=
  let y' := if m <=? 2 then y - 1 else y in
  let era := y' / 400 in
  let yoe := y' - era * 400 in
  let mp := if 2 <? m then m - 3 else m + 9 in
  let doy := (153 * mp + 2) / 5 + d - 1 in
  let doe := yoe * 365 + yoe / 4 - yoe / 100 + doy in
  era * 146097 + doe - 719468.

(** 0 = Monday ... 6 = Sunday, as [Timestamp.weekday()]. *)
Definition weekday (z : Z) : Z := (z + 3) mod 7.

Definition is_friday (z : Z) : bool := weekday z =? 4.

(** Weekly bins anchored on Friday ("W-FRI", closed and labelled on the
    right): the bin of index [k] is the days [7k-5 .. 7k+1]. *)
Definition week_key (z : Z) : Z := (z + 5) / 7.
Definition week_end (k : Z) : Z := 7 * k + 1.

(** Monthly bins ("ME", closed and labelled on the right).  Months are
    numbered [k = 12*year + (month-1)]; month [k] ends on the day before
    the first day of month [k+1]. *)
Definition month_end (k : Z) : Z :=
  days_from_civil ((k + 1) / 12) ((k + 1) mod 12 + 1) 1 - 1.

(** The month of a day: 400 years are 4800 months and 146097 days, and
    January 1970 is month 23640, which places the day within one month;
    the month ends on either side decide. *)
Definition month_key (z : Z) : Z :=
  let e := (4800 * z) / 146097 + 23639 in
  if z <=? month_end e then e
  else if z <=? month_end (e + 1) then e + 1
  else e + 2.

Definition is_month_end (z : Z) : bool := month_end (month_key z) =? z.

(** Year, month and day of a day number. *)
Definition civil_from_days (z : Z) : Z * Z * Z :=
  let k := month_key z in
  (k / 12, k mod 12 + 1, z - month_end (k - 1)).

(** [strftime] pieces. *)
Definition digit (n : Z) : ascii := ascii_of_nat (48 + Z.to_nat (n mod 10)).

Definition pad2 (n : Z) : string :=
  String (digit (n / 10)) (String (digit n) "").

(** The year of a day, and the days a [datetime] can hold: the years 1 to
    9999. *)
Definition year_of (z : Z) : Z := month_key z / 12.

Definition in_calendar (z : Z) : bool :=
  (1 <=? year_of z) && (year_of z <=? 9999).

(** The text of [d.strftime("%Y%m%d")] for a day of the years 1 to 9999:
    ["%Y"] gives the year in decimal without padding (four digits from the
    year 1000 on), ["%m"] and ["%d"] two digits each. *)
Definition format_Ymd (z : Z) : string :=
  let '(y, m, d) := civil_from_days z in pretty y ++ pad2 m ++ pad2 d.

(** *** Checking a property on every month of one 400-year cycle *)

Fixpoint check_from (P : Z -> bool) (n : nat) (z : Z) : bool :=
  match n with
  | O => true
  | S n' => P z && check_from P n' (z + 1)
  end.

Definition cycle_days : Z := 146097.
Definition cycle_months : Z := 4800.

(** How far a month end lies from the straight line of 146097 days per
    4800 months: the least and the greatest value of
    [4800 * month_end k - 146097 * k]. *)
Definition drift_min : Z := -3453604389.
Definition drift_max : Z := -3453583308.

End Calendar.

Import Calendar.

(** ** Python values: exceptions, strings *)

Inductive exn : Type :=
| FileNotFoundError (symbol : string)
| KeyError (column : string)
| IndexError
| ValueError
| NotImplementedError
| OSError
| ProviderError.

Inductive result (A : Type) : Type :=
| Ok (a : A)
| Raise (e : exn).

Arguments Ok {A} a.
Arguments Raise {A} e.

Definition bind {A B : Type} (r : result A) (k : A -> result B) : result B :=
  match r with
  | Ok a => k a
  | Raise e => Raise e
  end.

Notation "'let*' x ':=' r 'in' k" := (bind r (fun x => k))
  (at level 10, x name, r at level 100, k at level 200).

(** [d.strftime("%Y%m%d")]: a [Timestamp] outside the years of [datetime]
    raises [NotImplementedError]. *)
Definition strftime_Ymd (z : Z) : result string :=
  if in_calendar z then Ok (format_Ymd z) else Raise NotImplementedError.

Module PyStr.

(** [str.isspace] on the code points below 256. *)
Definition is_space (c : ascii) : bool :=
  let n := nat_of_ascii c in
  ((9 <=? n) && (n <=? 13) || (28 <=? n) && (n <=? 32)
   || (n =? 133) || (n =? 160))%nat.

Fixpoint lstrip (s : string) : string :=
  match s with
  | EmptyString => EmptyString
  | String c s' => if is_space c then lstrip s' else s
  end.

Fixpoint rstrip (s : string) : string :=
  match s with
  | EmptyString => EmptyString
  | String c s' =>
      match rstrip s' with
      | EmptyString => if is_space c then EmptyString else String c EmptyString
      | r => String c r
      end
  end.

(** [s.strip()] *)
Definition strip (s : string) : string := rstrip (lstrip s).

Fixpoint zeros (n : nat) : string :=
  match n with
  | O => EmptyString
  | S n' => String "0" (zeros n')
  end.

Definition is_sign (c : ascii) : bool :=
  (Ascii.eqb c "+" || Ascii.eqb c "-")%char.

(** [s.zfill(width)]: zeros are put in front, but after a leading sign. *)
Definition zfill (width : nat) (s : string) : string :=
  if (width <=? String.length s)%nat then s
  else
    let pad := zeros (width - String.length s) in
    match s with
    | String c s' => if is_sign c then String c (pad ++ s') else pad ++ s
    | EmptyString => pad
    end.

(** [s.startswith(p)] *)
Definition startswith (p s : string) : bool := String.prefix p s.

(** [s.endswith(x)] *)
Definition endswith (x s : string) : bool :=
  String.prefix (String.rev x) (String.rev s).

End PyStr.

Import PyStr.

(** ** Numbers of pandas *)

(** A finite binary floating-point number, given by its value
    [mantissa * 2 ^ exponent]. *)
Record dyadic : Type := Dyadic {
  mantissa : Z;
  exponent : Z
}.

Definition dy_value (x : dyadic) : Q :=
  match exponent x with
  | Zneg p => Qmake (mantissa x) (2 ^ p)%positive
  | e => inject_Z (mantissa x * 2 ^ e)
  end.

(** [int64] arithmetic: a result is kept modulo [2^64] in the range
    [-2^63 .. 2^63 - 1]. *)
Definition wrap_int64 (z : Z) : Z := (z + 2 ^ 63) mod 2 ^ 64 - 2 ^ 63.

Definition Zsum (xs : list Z) : Z := fold_right Z.add 0 xs.

(** A cell of a table the provider returns or the downloader writes: a
    date, a missing date, a number or a string. *)
Inductive cell : Type :=
| CDate (d : Z)
| CNaT
| CNum (q : Q)
| CStr (s : string).

(** What the code takes from pandas and numpy as it is.
    - [argsort keys]: the order in which [sort_values] (numpy's quicksort,
      which is not stable) puts rows with these dates, as a list of row
      positions.
    - [roll_mean w xs]: the float [rolling(w).mean()] holds at the last
      position of [xs], a series of at least [w] finite floats.  It comes
      out of a running sum in floating point and depends on the whole of
      [xs]; it is close to the mean of the last [w] values, but need not be
      the float nearest to it.
    - [to_datetime column]: [pd.to_datetime] on a column, which raises or
      gives a date or [NaT] ([None]) for each cell. *)
Record pandas : Type := Pandas {
  argsort : list Z -> list nat;
  roll_mean : nat -> list Q -> dyadic;
  to_datetime : list cell -> result (list (option Z))
}.

(** ** Bars and data frames *)

(** One row of the canonical table [date, open, high, low, close, volume]. *)
Record bar : Type := Bar {
  date : Z;
  open : Q;
  high : Q;
  low : Q;
  close : Q;
  volume : Z
}.

(** A data frame of the viewer.  [date_col] tells whether ["date"] is a
    column ([true]) or has been moved to the index ([false]); [ma_cols] are
    the columns ["MA{w}"], in column order, keyed by [w]. *)
Record frame : Type := Frame {
  date_col : bool;
  rows : list bar;
  ma_cols : list (nat * list (option Q))
}.

(** [df[name] = col]: an existing column is replaced where it stands, a new
    one is appended. *)
Fixpoint set_col (w : nat) (col : list (option Q))
                 (cols : list (nat * list (option Q)))
  : list (nat * list (option Q)) :=
  match cols with
  | [] => [(w, col)]
  | (w', c') :: rest =>
      if (w =? w')%nat then (w, col) :: rest
      else (w', c') :: set_col w col rest
  end.

Fixpoint get_col (w : nat) (cols : list (nat * list (option Q)))
  : option (list (option Q)) :=
  match cols with
  | [] => None
  | (w', c') :: rest => if (w =? w')%nat then Some c' else get_col w rest
  end.

(** ** pandas operations used by the viewer *)

(** [s.rolling(w).mean()]: [min_periods] defaults to [w], so a position with
    fewer than [w] observations up to it holds NaN; from there on the value
    is the float the library computes from the series up to the position. *)
Definition rolling_mean (py : pandas) (w : nat) (xs : list Q)
  : list (option Q) :=
  map (fun i =>
         if ((S i <? w) || (w =? 0))%nat then None
         else Some (dy_value (roll_mean py w (firstn (S i) xs))))
      (seq 0 (length xs)).

(** [obj.take(indexer)] *)
Definition take_rows {A : Type} (indexer : list nat) (l : list A) : list A :=
  omap (fun i => l !! i) indexer.

(** [df.sort_values("date")] on rows that all have a date. *)
Definition sort_values_by_date (py : pandas) (l : list bar) : list bar :=
  take_rows (argsort py (map date l)) l.

(** Stable sort by date: the merge sort [resample] applies to an index that
    is not monotonic. *)
Fixpoint insert_by {A : Type} (k : A -> Z) (b : A) (l : list A) : list A :=
  match l with
  | [] => [b]
  | c :: l' => if k b <=? k c then b :: l else c :: insert_by k b l'
  end.

Definition sort_by {A : Type} (k : A -> Z) (l : list A) : list A :=
  fold_right (insert_by k) [] l.

Definition sort_by_date (l : list bar) : list bar := sort_by date l.

Definition qmax (x y : Q) : Q := if Qle_bool x y then y else x.
Definition qmin (x y : Q) : Q := if Qle_bool x y then x else y.

(** The reductions of [.agg({...})] over one bin; an empty bin gives NaN
    for first/max/min/last and 0 for sum.  The sum of an [int64] column is
    an [int64] sum. *)
Definition agg_first (xs : list Q) : option Q := head xs.
Definition agg_last (xs : list Q) : option Q := last xs.
Definition agg_max (xs : list Q) : option Q :=
  match xs with
  | [] => None
  | x :: r => Some (fold_left qmax r x)
  end.
Definition agg_min (xs : list Q) : option Q :=
  match xs with
  | [] => None
  | x :: r => Some (fold_left qmin r x)
  end.
Definition agg_sum (xs : list Z) : Z := wrap_int64 (Zsum xs).

(** A row of the aggregated table before [dropna]. *)
Record agg_row : Type := AggRow {
  a_date : Z;
  a_open : option Q;
  a_high : option Q;
  a_low : option Q;
  a_close : option Q;
  a_volume : Z
}.

Section Resample.

(** A resampling rule: [key d] is the index of the bin holding day [d],
    [period_end k] the right edge (and label) of bin [k]. *)
Variable key : Z -> Z.
Variable period_end : Z -> Z.

(** The bins run from the bin of the smallest date to the bin of the largest
    one, empty bins in between included. *)
Definition bin_keys (sorted : list bar) : list Z :=
  match sorted with
  | [] => []
  | b0 :: _ =>
      let lo := key (date b0) in
      let hi := key (date (List.last sorted b0)) in
      seqZ lo (hi - lo + 1)
  end.

Definition bin_rows (sorted : list bar) (k : Z) : list bar :=
  List.filter (fun b => key (date b) =? k) sorted.

Definition agg_bin (sorted : list bar) (k : Z) : agg_row :=
  let g := bin_rows sorted k in
  {| a_date := period_end k;
     a_open := agg_first (map open g);
     a_high := agg_max (map high g);
     a_low := agg_min (map low g);
     a_close := agg_last (map close g);
     a_volume := agg_sum (map volume g) |}.

(** [df.set_index("date").resample(rule).agg({...})] *)
Definition resample_agg (bars : list bar) : list agg_row :=
  let sorted := sort_by_date bars in
  map (agg_bin sorted) (bin_keys sorted).

End Resample.

(** [.dropna().reset_index()]: rows holding a NaN are dropped, the label
    becomes the [date] column again. *)
Definition dropna_row (r : agg_row) : option bar :=
  match a_open r, a_high r, a_low r, a_close r with
  | Some o, Some h, Some l, Some c => Some (Bar (a_date r) o h l c (a_volume r))
  | _, _, _, _ => None
  end.

Definition dropna (l : list agg_row) : list bar := omap dropna_row l.

(** ** The viewer: [3-2-K_line-MA_line.py] *)

Definition MA_WINDOWS : list nat := [3; 5; 8; 13; 21; 34; 55]%nat.

(** [add_ma(df, windows)]: the frame [df] holds after the call (the same
    object is returned, see [Obj.add_ma] for the aliasing). *)
Definition add_ma_step (py : pandas) (df : frame) (w : nat) : frame :=
  {| date_col := date_col df;
     rows := rows df;
     ma_cols :=
       set_col w (rolling_mean py w (map close (rows df))) (ma_cols df) |}.

Definition add_ma (py : pandas) (df : frame) (windows : list nat) : frame :=
  fold_left (add_ma_step py) windows df.

(** A file of [DATA_DIR] as lines 36 and 37 find it: [pd.read_csv],
    [df["date"]] or [pd.to_datetime] raises on it, or they give the rows of
    a canonical table. *)
Inductive csv : Type :=
| Unreadable (e : exn)
| Parsed (content : list bar).

(** The directory [DATA_DIR]: file names in [os.listdir] order. *)
Definition store : Type := list (string * csv).

Definition artifact_prefix (symbol : string) : string :=
  "Ashare_" ++ symbol ++ "_".

Definition load_local_stock_data (py : pandas) (st : store) (symbol : string)
  : result (frame * string) :=
  let files :=
    List.filter (fun f => startswith (artifact_prefix symbol) (fst f)
                          && endswith ".csv" (fst f)) st in
  match files with
  | [] => Raise (FileNotFoundError symbol)
  | (name, file) :: _ =>
      match file with
      | Unreadable e => Raise e
      | Parsed content =>
          Ok ({| date_col := true;
                 rows := sort_values_by_date py content;
                 ma_cols := [] |},
              name)
      end
  end.

Definition resample_k_data (df : frame) (period : string) : result frame :=
  if String.eqb period "daily" then Ok df
  else if negb (date_col df) then Raise (KeyError "date")
  else if String.eqb period "weekly" then
    Ok {| date_col := true;
          rows := dropna (resample_agg week_key week_end (rows df));
          ma_cols := [] |}
  else if String.eqb period "monthly" then
    Ok {| date_col := true;
          rows := dropna (resample_agg month_key month_end (rows df));
          ma_cols := [] |}
  else
    Ok {| date_col := false; rows := rows df; ma_cols := ma_cols df |}.

(** What the chart draws: the candlestick trace with the text it shows on
    hover (the formatted date and the four prices of each row), one line
    per window of [MA_WINDOWS] (named ["MA{w}"], with the hover template of
    that name) and the volume bars with their colours ([true] is red: the
    open is below the close), all indexed by row position, and the upper end
    of the volume axis.  The constants of the layout are left out.  The
    volume column is always there, so the volume bars are always drawn. *)
Record figure : Type := Figure {
  fig_symbol : string;
  fig_name : string;
  candle_x : list Z;
  candle_open : list Q;
  candle_high : list Q;
  candle_low : list Q;
  candle_close : list Q;
  candle_hovertext : list (Z * (Q * Q * Q * Q));
  ma_traces : list (nat * list (option Q));
  volume_y : list Z;
  volume_red : list bool;
  volume_axis_max : option Z
}.

(** [df["volume"].max() * 5], an [int64] product; the maximum of an empty
    column is NaN. *)
Definition volume_axis (l : list bar) : option Z :=
  match l with
  | [] => None
  | b :: rest =>
      Some (wrap_int64 (fold_left Z.max (map volume rest) (volume b) * 5))
  end.

(** The hover texts are made first: [df["date"]] raises when the date is
    not a column, and [d.strftime] on a date outside the years of
    [datetime]. *)
Definition create_kline_ma_figure (df : frame) (symbol stock_name : string)
  : result figure :=
  if negb (date_col df) then Raise (KeyError "date")
  else if negb (forallb in_calendar (map date (rows df)))
  then Raise NotImplementedError
  else
    Ok {| fig_symbol := symbol;
          fig_name := stock_name;
          candle_x := map date (rows df);
          candle_open := map open (rows df);
          candle_high := map high (rows df);
          candle_low := map low (rows df);
          candle_close := map close (rows df);
          candle_hovertext :=
            map (fun b => (date b, (open b, high b, low b, close b)))
                (rows df);
          ma_traces :=
            map (fun w =>
                   (w, match get_col w (ma_cols df) with
                       | Some y => y
                       | None => repeat None (length (rows df))
                       end))
                MA_WINDOWS;
          volume_y := map volume (rows df);
          volume_red := map (fun b => negb (Qle_bool (close b) (open b)))
                            (rows df);
          volume_axis_max := volume_axis (rows df) |}.

(** The text under the chart title. *)
Inductive chart_info : Type :=
| AskForCode
| Loaded (filename period : string) (n : nat)
| LoadFailed (e : exn).

Definition default_name : string := "😊".

(** The catalog [CODES_FILE], when it exists: rows [(code, name)]. *)
Definition lookup_name (codes_file : option (list (string * string)))
                       (symbol : string) : string :=
  match codes_file with
  | None => default_name
  | Some codes =>
      match List.filter (fun r => String.eqb (fst r) symbol) codes with
      | (_, name) :: _ => name
      | [] => default_name
      end
  end.

(** The symbol as it is looked up. *)
Definition normalize (symbol : string) : string := zfill 6 (strip symbol).

(** [update_chart(symbol, period)]; [None] is the empty [go.Figure()]. *)
Definition update_chart (py : pandas) (st : store)
                        (codes_file : option (list (string * string)))
                        (symbol period : string)
  : option figure * chart_info :=
  if String.eqb symbol "" then (None, AskForCode)
  else
    let symbol := normalize symbol in
    let stock_name := lookup_name codes_file symbol in
    match (let* loaded := load_local_stock_data py st symbol in
           let df := fst loaded in
           let filename := snd loaded in
           let* df := resample_k_data df period in
           let df := add_ma py df MA_WINDOWS in
           let* fig := create_kline_ma_figure df symbol stock_name in
           Ok (fig, Loaded filename period (length (rows df))))
    with
    | Ok (fig, info) => (Some fig, info)
    | Raise e => (None, LoadFailed e)
    end.

(** One entry of [hoverData["points"]]; [None] when the entry has no
    ["pointIndex"]. *)
Record point : Type := Point { pointIndex : option Z }.

(** [hoverData]: [None] before any pointer event; otherwise the value of
    its ["points"] key, [None] when the key is missing. *)
Definition hover_data : Type := option (option (list point)).

(** [next((p.get("pointIndex") for p in points if "pointIndex" in p), None)] *)
Fixpoint first_point_index (points : list point) : option Z :=
  match points with
  | [] => None
  | p :: rest =>
      match pointIndex p with
      | Some i => Some i
      | None => first_point_index rest
      end
  end.

(** A value of a row as [row.get] returns it: NaN, a [numpy.float64] or a
    [numpy.int64]. *)
Inductive pyval : Type :=
| PyNaN
| NpFloat (v : Q)
| NpInt (z : Z).

Definition of_float (v : option Q) : pyval :=
  match v with
  | None => PyNaN
  | Some q => NpFloat q
  end.

(** A piece of read-out text: the dash of a missing value, a float put
    through a format ([fmt.format(v)]), an integer as [str] prints it, or a
    date put through [strftime].  The text is kept as the format and the
    value. *)
Inductive text : Type :=
| Dash
| Formatted (fmt : string) (v : Q)
| Str (z : Z)
| DateText (fmt : string) (d : Z).

(** [safe(val, fmt)]: the format is applied to instances of [int] and
    [float]; a [numpy.float64] is one, a [numpy.int64] is not and goes
    through [str]. *)
Definition safe (val : pyval) (fmt : string) : text :=
  match val with
  | PyNaN => Dash
  | NpFloat v => Formatted fmt v
  | NpInt z => Str z
  end.

Record readout : Type := Readout {
  ro_date : text;
  ro_open : text;
  ro_high : text;
  ro_low : text;
  ro_close : text;
  ro_volume : text;
  ro_ma : list (nat * text)
}.

(** What [display_hover] returns. *)
Inductive hover_view : Type :=
| AwaitingHover
| NoSymbol
| CannotLoad (e : exn)
| CannotLocate
| ParseFailed (e : exn)
| Shown (r : readout).

(** [row.get("MA{w}")] on [row = df.iloc[k]] *)
Definition row_ma (df : frame) (k : nat) (w : nat) : option Q :=
  match get_col w (ma_cols df) with
  | Some col => mjoin (col !! k)
  | None => None
  end.

Definition readout_of (df : frame) (k : nat) (row : bar) : result readout :=
  if negb (date_col df) then Raise (KeyError "date")
  else if negb (in_calendar (date row)) then Raise NotImplementedError
  else
    Ok {| ro_date := DateText "%Y-%m-%d" (date row);
          ro_open := safe (NpFloat (open row)) "{:.2f}";
          ro_high := safe (NpFloat (high row)) "{:.2f}";
          ro_low := safe (NpFloat (low row)) "{:.2f}";
          ro_close := safe (NpFloat (close row)) "{:.2f}";
          ro_volume := safe (NpInt (volume row)) "{:.0f}";
          ro_ma := map (fun w => (w, safe (of_float (row_ma df k w)) "{:.2f}"))
                       MA_WINDOWS |}.

(** [display_hover(hoverData, symbol, period)] *)
Definition display_hover (py : pandas) (st : store) (hoverData : hover_data)
                         (symbol period : string) : hover_view :=
  match hoverData with
  | None | Some None => AwaitingHover
  | Some (Some points) =>
      if String.eqb symbol "" then NoSymbol
      else
        let sym := normalize symbol in
        match (let* loaded := load_local_stock_data py st sym in
               let df := fst loaded in
               let* df := resample_k_data df period in
               Ok (add_ma py df MA_WINDOWS))
        with
        | Raise e => CannotLoad e
        | Ok df =>
            match first_point_index points with
            | None => CannotLocate
            | Some point_index =>
                if (point_index <? 0)
                   || (Z.of_nat (length (rows df)) <=? point_index)
                then CannotLocate
                else
                  match rows df !! Z.to_nat point_index with
                  | None => ParseFailed IndexError
                  | Some row =>
                      match readout_of df (Z.to_nat point_index) row with
                      | Ok r => Shown r
                      | Raise e => ParseFailed e
                      end
                  end
            end
        end
  end.

(** *** The small callbacks of the page *)

(** [clear_input(n_clicks)]; [None] is a button never clicked. *)
Definition clear_input (n_clicks : option Z) : string :=
  match n_clicks with
  | Some n => if 0 <? n then "" else "000007"
  | None => "000007"
  end.

(** [s.split(".")[0]] *)
Fixpoint before_dot (s : string) : string :=
  match s with
  | EmptyString => EmptyString
  | String c s' =>
      if Ascii.eqb c "."%char then EmptyString else String c (before_dot s')
  end.

(** [select_period(daily, weekly, monthly)]; [triggered] is the list of the
    [prop_id]s of [dash.callback_context.triggered]. *)
Definition select_period (triggered : list string) : string :=
  match triggered with
  | [] => "daily"
  | prop_id :: _ =>
      let button_id := before_dot prop_id in
      if String.eqb button_id "btn-daily" then "daily"
      else if String.eqb button_id "btn-weekly" then "weekly"
      else if String.eqb button_id "btn-monthly" then "monthly"
      else "daily"
  end.

(** The two styles a period button can have. *)
Inductive button_style : Type :=
| default_style
| selected_style.

(** [update_button_style(period)]: the styles of the daily, weekly and
    monthly buttons. *)
Definition update_button_style (period : string)
  : button_style * button_style * button_style :=
  (if String.eqb period "daily" then selected_style else default_style,
   if String.eqb period "weekly" then selected_style else default_style,
   if String.eqb period "monthly" then selected_style else default_style).

(** ** Frames as Python objects *)

Module Obj.

(** A variable holds a reference to a frame; the heap maps references to
    frames.  [None] stands for a dangling reference, which Python does not
    have. *)
Definition alloc (h : gmap nat frame) (f : frame) : gmap nat frame * nat :=
  let r := fresh (dom h) in (<[r := f]> h, r).

(** [resample_k_data(df, period)]: every branch builds a new frame
    ([df.copy()], [set_index(...).copy()], [resample(...)...reset_index()])
    and leaves [df] alone. *)
Definition resample_k_data (h : gmap nat frame) (df : nat) (period : string)
  : option (gmap nat frame * result nat) :=
  match h !! df with
  | None => None
  | Some f =>
      match resample_k_data f period with
      | Ok g => let '(h', r) := alloc h g in Some (h', Ok r)
      | Raise e => Some (h, Raise e)
      end
  end.

(** [df[f"MA{w}"] = df["close"].rolling(w).mean()] *)
Definition set_ma (py : pandas) (h : gmap nat frame) (df : nat) (w : nat)
  : option (gmap nat frame) :=
  match h !! df with
  | None => None
  | Some f => Some (<[df := add_ma_step py f w]> h)
  end.

(** [add_ma(df, windows)]: the loop assigns into [df] and [df] itself is
    returned. *)
Fixpoint add_ma (py : pandas) (h : gmap nat frame) (df : nat)
                (windows : list nat)
  : option (gmap nat frame * nat) :=
  match windows with
  | [] => match h !! df with None => None | Some _ => Some (h, df) end
  | w :: rest =>
      match set_ma py h df w with
      | None => None
      | Some h' => add_ma py h' df rest
      end
  end.

End Obj.

(** ** The downloader: [2-1-All_K_data-akshare.py] *)

Module Downloader.

(** A table as the provider returns it: a header and rows of cells. *)
Record table : Type := Table {
  columns : list string;
  trows : list (list cell)
}.

Definition rename_map : list (string * string) :=
  [("日期", "date"); ("开盘", "open"); ("收盘", "close");
   ("最高", "high"); ("最低", "low"); ("成交量", "volume")].

Definition rename_column (c : string) : string :=
  match List.find (fun p => String.eqb (fst p) c) rename_map with
  | Some p => snd p
  | None => c
  end.

(** [df.rename(columns=rename_map)] *)
Definition rename (df : table) : table :=
  {| columns := map rename_column (columns df); trows := trows df |}.

Definition KLINE_COLUMNS : list string :=
  ["date"; "open"; "high"; "low"; "close"; "volume"].

(** The positions of the columns called [name]; a header can hold a name
    more than once. *)
Fixpoint positions_from (i : nat) (name : string) (cols : list string)
  : list nat :=
  match cols with
  | [] => []
  | c :: rest =>
      if String.eqb c name then i :: positions_from (S i) name rest
      else positions_from (S i) name rest
  end.

Definition positions (name : string) (cols : list string) : list nat :=
  positions_from 0 name cols.

Fixpoint collect {A B : Type} (f : A -> result B) (l : list A)
  : result (list B) :=
  match l with
  | [] => Ok []
  | a :: rest =>
      let* b := f a in
      let* bs := collect f rest in
      Ok (b :: bs)
  end.

(** [df[names]]: a missing column raises [KeyError]; for a name the header
    holds several times, every column of that name is taken. *)
Definition select (names : list string) (df : table) : result table :=
  let* groups := collect (fun n => match positions n (columns df) with
                                   | [] => Raise (KeyError n)
                                   | ps => Ok ps
                                   end) names in
  let idx := concat groups in
  Ok {| columns := map (fun i => nth i (columns df) "") idx;
        trows := map (fun r => map (fun i => nth i r (CStr "")) idx)
                     (trows df) |}.

Definition date_cell (d : option Z) : cell :=
  match d with
  | Some z => CDate z
  | None => CNaT
  end.

(** The date a row holds in column [j]; [None] for [NaT]. *)
Definition date_at (j : nat) (r : list cell) : option Z :=
  match r !! j with
  | Some (CDate d) => Some d
  | _ => None
  end.

Definition has_date (j : nat) (r : list cell) : bool :=
  match date_at j r with
  | Some _ => true
  | None => false
  end.

Section Run.

Variable py : pandas.

(** [df["date"] = pd.to_datetime(df["date"])]: with two columns called
    ["date"], [df["date"]] is a frame, which [to_datetime] cannot
    assemble. *)
Definition coerce_dates (df : table) : result table :=
  match positions "date" (columns df) with
  | [] => Raise (KeyError "date")
  | [j] =>
      let* ds := to_datetime py (map (fun r => nth j r (CStr "")) (trows df)) in
      Ok {| columns := columns df;
            trows := imap (fun k r => <[j := date_cell (mjoin (ds !! k))]> r)
                          (trows df) |}
  | _ => Raise ValueError
  end.

(** [df.sort_values("date")]: the rows that have a date in the order the
    sort gives them, then the rows without one, in the order they had. *)
Definition sort_values (df : table) : result table :=
  match positions "date" (columns df) with
  | [] => Raise (KeyError "date")
  | [j] =>
      let dated := List.filter (has_date j) (trows df) in
      let missing := List.filter (fun r => negb (has_date j r)) (trows df) in
      Ok {| columns := columns df;
            trows := take_rows (argsort py (omap (date_at j) dated)) dated
                     ++ missing |}
  | _ => Raise ValueError
  end.

(** [get_kline_data(symbol)]; [fetch] is the one request to the provider,
    [None] is Python's [None]. *)
Definition get_kline_data (fetch : string -> result table) (symbol : string)
  : option table :=
  match (let* df := fetch symbol in
         let df := rename df in
         let* df := select KLINE_COLUMNS df in
         let* df := coerce_dates df in
         sort_values df)
  with
  | Ok df => Some df
  | Raise _ => None
  end.

Inductive outcome : Type :=
| Skipped
| Failed
| Succeeded (filename : string).

Record tally : Type := Tally {
  success_count : nat;
  fail_count : nat;
  skip_count : nat
}.

(** The state of the batch loop: the counters, the directory
    [CODE_DATA_DIR] (file name and content), the symbols a request was sent
    for, the line printed for each symbol, oldest first, and the exception
    that has stopped the script, if any. *)
Record state : Type := State {
  counts : tally;
  dir : list (string * table);
  requests : list string;
  progress : list (string * outcome);
  raised : option exn
}.

Definition existing_files (d : list (string * table)) (code : string)
  : list (string * table) :=
  List.filter (fun f => startswith (artifact_prefix code) (fst f)) d.

(** Some file of the directory bears the symbol's prefix. *)
Definition has_artifact (d : list (string * table)) (code : string) : bool :=
  match existing_files d code with
  | [] => false
  | _ :: _ => true
  end.

(** [df is None or df.empty] *)
Definition fetch_failed (df : option table) : bool :=
  match df with
  | None => true
  | Some t => match trows t with [] => true | _ :: _ => false end
  end.

(** The classification of one symbol when no fetch can succeed. *)
Definition skipped_or_failed (d : list (string * table)) (code : string)
  : string * outcome :=
  (code, if has_artifact d code then Skipped else Failed).

(** [df["date"].iloc[0].strftime("%Y%m%d")]: [NaT] has no [strftime]. *)
Definition start_date (df : table) : result string :=
  match positions "date" (columns df), trows df with
  | [j], r :: _ =>
      match date_at j r with
      | Some d => strftime_Ymd d
      | None => Raise ValueError
      end
  | _, _ => Raise (KeyError "date")
  end.

Definition artifact_name (code : string) (df : table) : result string :=
  let* start_date := start_date df in
  let row_count := length (trows df) in
  Ok ("Ashare_" ++ code ++ "_" ++ pretty row_count ++ "_" ++ start_date
      ++ ".csv").

(** The body of the [for] loop for the [i]-th code.  [provider i] is the
    provider as it answers during that iteration, [disk i] the exception
    [to_csv] raises during it, if any.  The lines that build the file name
    and write the file stand outside any [try]: an exception there stops
    the script, after the request and before any line is printed or
    counted for the symbol.  A write that raises is taken to leave no
    file. *)
Definition step (provider : nat -> string -> result table)
                (disk : nat -> option exn)
                (s : state) (i : nat) (code : string) : state :=
  let c := counts s in
  match existing_files (dir s) code with
  | _ :: _ =>
      {| counts := Tally (success_count c) (fail_count c) (S (skip_count c));
         dir := dir s;
         requests := requests s;
         progress := progress s ++ [(code, Skipped)];
         raised := None |}
  | [] =>
      let df := get_kline_data (provider i) code in
      let failed :=
        {| counts := Tally (success_count c) (S (fail_count c)) (skip_count c);
           dir := dir s;
           requests := requests s ++ [code];
           progress := progress s ++ [(code, Failed)];
           raised := None |} in
      let stopped e :=
        {| counts := c;
           dir := dir s;
           requests := requests s ++ [code];
           progress := progress s;
           raised := Some e |} in
      match df with
      | None => failed
      | Some df =>
          match trows df with
          | [] => failed
          | _ :: _ =>
              match artifact_name code df with
              | Raise e => stopped e
              | Ok filename =>
                  match disk i with
                  | Some e => stopped e
                  | None =>
                      {| counts :=
                           Tally (S (success_count c)) (fail_count c)
                                 (skip_count c);
                         dir := dir s ++ [(filename, df)];
                         requests := requests s ++ [code];
                         progress := progress s ++ [(code, Succeeded filename)];
                         raised := None |}
                  end
              end
          end
      end
  end.

(** The loop goes on to the next code unless the script has stopped. *)
Fixpoint loop (provider : nat -> string -> result table)
              (disk : nat -> option exn)
              (s : state) (i : nat) (codes : list string) : state :=
  match codes with
  | [] => s
  | code :: rest =>
      let s' := step provider disk s i code in
      match raised s' with
      | Some _ => s'
      | None => loop provider disk s' (S i) rest
      end
  end.

(** The whole batch, from fresh counters; the final state is the summary
    when nothing was raised. *)
Definition run (provider : nat -> string -> result table)
               (disk : nat -> option exn)
               (d : list (string * table)) (codes : list string) : state :=
  loop provider disk (State (Tally 0 0 0) d [] [] None) 1 codes.

End Run.

(** Sample data: a provider table of two days with the provider's column
    names, and a table without them. *)
Definition provider_table : table :=
  {| columns := ["日期"; "股票代码"; "开盘"; "收盘"; "最高"; "最低"; "成交量"];
     trows := [[CDate 19874; CStr "000001"; CNum 10; CNum 11; CNum 12;
                CNum 9; CNum 5200];
               [CDate 19873; CStr "000001"; CNum 9; CNum 10; CNum 11;
                CNum 8; CNum 4100]] |}.

Definition foreign_table : table :=
  {| columns := ["day"; "price"]; trows := [[CDate 19874; CNum 10]] |}.

End Downloader.

(** ** Predicates of the statements *)

(** Dates in ascending order, as a stored series has them. *)
Fixpoint ascending_dates (l : list bar) : bool :=
  match l with
  | [] => true
  | b :: l' =>
      match l' with
      | [] => true
      | c :: _ => (date b <=? date c) && ascending_dates l'
      end
  end.

(** What [sort_values] asks of the sort: the positions of all rows, each
    once, in an order that makes the dates ascend. *)
Definition sorts (f : list Z -> list nat) : Prop :=
  forall keys,
    f keys ≡ₚ seq 0 (length keys) /\
    StronglySorted Z.le (take_rows (f keys) keys).

(** The range of an [int64]. *)
Definition int64_range (z : Z) : Prop := - 2 ^ 63 <= z < 2 ^ 63.

(** [r] carries the aggregate of the group [g]: first open, greatest high,
    least low, last close, and for the volume the [int64] that is the sum
    of the volumes modulo [2^64]. *)
Definition is_aggregate_of (g : list bar) (r : bar) : Prop :=
  open <$> head g = Some (open r) /\
  close <$> last g = Some (close r) /\
  In (high r) (map high g) /\ Forall (fun b => (high b <= high r)%Q) g /\
  In (low r) (map low g) /\ Forall (fun b => (low r <= low b)%Q) g /\
  int64_range (volume r) /\
  exists k, volume r = Zsum (map volume g) + k * 2 ^ 64.

(** Prices for which no sum of a window overflows a float. *)
Definition moderate (x : Q) : Prop := (Qabs x <= inject_Z (2 ^ 1000))%Q.

(** The file name test of [load_local_stock_data]. *)
Definition is_artifact_of (symbol name : string) : bool :=
  startswith (artifact_prefix symbol) name && endswith ".csv" name.

(** A bar whose open and close lie between its low and its high. *)
Definition well_formed_bar (b : bar) : Prop :=
  (low b <= open b)%Q /\ (open b <= high b)%Q /\
  (low b <= close b)%Q /\ (close b <= high b)%Q.

(** The period names [resample_k_data] knows. *)
Definition known_period (period : string) : Prop :=
  period = "daily" \/ period = "weekly" \/ period = "monthly".

(** The kind of line the batch loop printed for a symbol, and the file it
    names. *)
Definition is_succeeded (o : Downloader.outcome) : bool :=
  match o with Downloader.Succeeded _ => true | _ => false end.

Definition is_failed (o : Downloader.outcome) : bool :=
  match o with Downloader.Failed => true | _ => false end.

Definition is_skipped (o : Downloader.outcome) : bool :=
  match o with Downloader.Skipped => true | _ => false end.


(** A table as the batch loop writes it: one column called ["date"], the
    first one, and the five other columns of the canonical table (each at
    least once); at least one row, the first row with a date of the years 1
    to 9999; the rows that have a date first, in ascending order, then the
    rows without one. *)
Definition kline_table (t : Downloader.table) : Prop :=
  Downloader.positions "date" (Downloader.columns t) = [0%nat] /\
  Forall (fun n => In n (Downloader.columns t)) Downloader.KLINE_COLUMNS /\
  (exists r rest d,
      Downloader.trows t = r :: rest /\
      Downloader.date_at 0 r = Some d /\ in_calendar d = true) /\
  exists dated missing,
    Downloader.trows t = (dated ++ missing)%list /\
    Forall (fun r => Downloader.has_date 0 r = true) dated /\
    Forall (fun r => Downloader.has_date 0 r = false) missing /\
    StronglySorted Z.le (omap (Downloader.date_at 0) dated).

(** What one symbol's turn comes to when it is judged against the directory
    [d], its own fetch and its own write alone: a line, or the exception
    that stops the script. *)
Definition outcome_against (py : pandas)
    (d : list (string * Downloader.table))
    (fetch : string -> result Downloader.table) (write : option exn)
    (code : string)
  : result Downloader.outcome :=
  if Downloader.has_artifact d code then Ok Downloader.Skipped
  else
    match Downloader.get_kline_data py fetch code with
    | None => Ok Downloader.Failed
    | Some df =>
        match Downloader.trows df with
        | [] => Ok Downloader.Failed
        | _ :: _ =>
            let* filename := Downloader.artifact_name code df in
            match write with
            | Some e => Raise e
            | None => Ok (Downloader.Succeeded filename)
            end
        end
    end.

(** The figure [fig] under another title. *)
Definition with_name (name : string) (fig : figure) : figure :=
  {| fig_symbol := fig_symbol fig;
     fig_name := name;
     candle_x := candle_x fig;
     candle_open := candle_open fig;
     candle_high := candle_high fig;
     candle_low := candle_low fig;
     candle_close := candle_close fig;
     candle_hovertext := candle_hovertext fig;
     ma_traces := ma_traces fig;
     volume_y := volume_y fig;
     volume_red := volume_red fig;
     volume_axis_max := volume_axis_max fig |}.

(** The group [g] lies in the week that ends on the Friday [date r]. *)
Definition in_week_of (g : list bar) (r : bar) : Prop :=
  is_friday (date r) = true /\
  Forall (fun b => date r - 7 < date b <= date r) g.

(** The series both callbacks compute for a symbol as it is looked up:
    load, resample, add the moving averages. *)
Definition pipeline (py : pandas) (st : store) (sym period : string)
  : result frame :=
  let* loaded := load_local_stock_data py st sym in
  let* df := resample_k_data (fst loaded) period in
  Ok (add_ma py df MA_WINDOWS).

(** Left-padding with zeros to [width] characters, in the plain sense:
    the zeros come first. *)
Definition left_pad_zeros (width : nat) (s : string) : string :=
  zeros (width - String.length s) ++ s.


(** ** Sample data *)

(** A stand-in for the library in the examples: a stable sort, the mean of
    the window rounded down to an integer, and a [to_datetime] that takes
    dates, gives [NaT] for missing dates and empty strings and raises on
    anything else. *)
Definition stable_argsort (keys : list Z) : list nat :=
  map fst (sort_by snd (imap (fun i k => (i, k)) keys)).

Definition floor_mean (w : nat) (xs : list Q) : dyadic :=
  let win := skipn (length xs - w) xs in
  Dyadic (Qfloor (fold_right Qplus 0%Q win / inject_Z (Z.of_nat w))) 0.

Definition parse_date (c : cell) : result (option Z) :=
  match c with
  | CDate d => Ok (Some d)
  | CNaT => Ok None
  | CStr "" => Ok None
  | _ => Raise ValueError
  end.

Definition sample_py : pandas :=
  {| argsort := stable_argsort;
     roll_mean := floor_mean;
     to_datetime := Downloader.collect parse_date |}.

(** Ten trading days, Monday 2024-05-27 to Friday 2024-06-07. *)
Definition sample_day (n : Z) : bar :=
  {| date := 19870 + (if n <? 5 then n else n + 2);
     open := inject_Z (10 + n);
     high := inject_Z (12 + n);
     low := inject_Z (9 + n);
     close := inject_Z (11 + n);
     volume := 100 * (n + 1) |}.

Definition sample_bars : list bar := map sample_day (seqZ 0 10).

Definition sample_frame : frame :=
  {| date_col := true; rows := sample_bars; ma_cols := [] |}.


(** A series of one trading day, Friday 2024-05-31, the last day of May. *)
Definition month_end_day : bar :=
  {| date := 19874;
     open := (1052 # 100)%Q;
     high := (1071 # 100)%Q;
     low := (1040 # 100)%Q;
     close := (1066 # 100)%Q;
     volume := 52300 |}.

Definition one_day_frame : frame :=
  {| date_col := true; rows := [month_end_day]; ma_cols := [] |}.


Definition sample_store : store :=
  [("Ashare_000007_10_20240527.csv", Parsed sample_bars)].

Definition pointer_at (k : Z) : hover_data :=
  Some (Some [Point None; Point (Some k)]).

(** A provider that answers for symbol 000001 only, and a disk that takes
    every file. *)
Definition sample_provider (i : nat) (code : string)
  : result Downloader.table :=
  if String.eqb code "000001" then Ok Downloader.provider_table
  else Raise ProviderError.

Definition sample_disk (i : nat) : option exn := None.

(** * Properties *)

(** ** Calendar facts *)

Lemma check_from_spec P n : forall z0,
  check_from P n z0 = true ->
  forall z, z0 <= z < z0 + Z.of_nat n -> P z = true.
Proof.
  induction n as [|n IH]; intros z0 Hc z Hz; [lia|].
  cbn [check_from] in Hc. apply andb_prop in Hc as [Hz0 Hrest].
  destruct (Z.eq_dec z z0) as [->|Hne]; [exact Hz0|].
  apply (IH (z0 + 1) Hrest). lia.
Qed.

Lemma days_from_civil_shift y m d e :
  days_from_civil (y + 400 * e) m d = days_from_civil y m d + cycle_days * e.
Proof.
  unfold days_from_civil, cycle_days.
  assert (H : forall a, (a + 400 * e) / 400 = a / 400 + e).
  { intros a. rewrite (Z.mul_comm 400 e). apply Z.div_add. lia. }
  destruct (m <=? 2).
  - replace (y + 400 * e - 1) with (y - 1 + 400 * e) by lia.
    rewrite H.
    replace (y - 1 + 400 * e - (((y - 1) / 400 + e) * 400))
      with (y - 1 - (y - 1) / 400 * 400) by lia. lia.
  - rewrite H.
    replace (y + 400 * e - ((y / 400 + e) * 400))
      with (y - y / 400 * 400) by lia. lia.
Qed.

Lemma month_end_shift k e :
  month_end (k + cycle_months * e) = month_end k + cycle_days * e.
Proof.
  unfold month_end, cycle_months.
  replace (k + 4800 * e + 1) with (k + 1 + (400 * e) * 12) by lia.
  rewrite Z.div_add by lia. rewrite Z.mod_add by lia.
  rewrite days_from_civil_shift. lia.
Qed.

Lemma month_in_cycle k :
  exists e k0, k = k0 + cycle_months * e /\
               0 <= k0 < 0 + Z.of_nat (Z.to_nat 4800).
Proof.
  exists (k / cycle_months), (k mod cycle_months). unfold cycle_months.
  pose proof (Z.div_mod k 4800 ltac:(lia)).
  pose proof (Z.mod_pos_bound k 4800 ltac:(lia)). lia.
Qed.

(** Over one cycle, month ends ascend and stay within the drift. *)
Lemma month_end_cycle :
  check_from (fun k => let m := month_end k in
                       let drift := 4800 * m - 146097 * k in
                       (m <? month_end (k + 1))
                       && (drift_min <=? drift) && (drift <=? drift_max))
             (Z.to_nat 4800) 0 = true.
Proof. vm_cast_no_check (@eq_refl bool true). Qed.

Lemma month_end_facts k :
  month_end k < month_end (k + 1) /\
  drift_min <= 4800 * month_end k - 146097 * k <= drift_max.
Proof.
  destruct (month_in_cycle k) as (e & k0 & -> & Hk0).
  pose proof (check_from_spec _ _ _ month_end_cycle k0 Hk0) as H.
  cbv beta zeta in H.
  apply andb_prop in H as [H H3]. apply andb_prop in H as [H1 H2].
  apply Z.ltb_lt in H1. apply Z.leb_le in H2, H3.
  replace (k0 + cycle_months * e + 1) with (k0 + 1 + cycle_months * e) by lia.
  rewrite !month_end_shift. unfold cycle_months, cycle_days in *. lia.
Qed.

Lemma strict_monotone_of_step (f : Z -> Z) :
  (forall z, f z < f (z + 1)) -> forall a b, a < b -> f a < f b.
Proof.
  intros Hstep a b Hab.
  replace b with (a + 1 + Z.of_nat (Z.to_nat (b - a - 1))) by lia.
  induction (Z.to_nat (b - a - 1)) as [|n IH].
  - replace (a + 1 + Z.of_nat 0) with (a + 1) by lia. apply Hstep.
  - replace (a + 1 + Z.of_nat (S n)) with (a + 1 + Z.of_nat n + 1) by lia.
    specialize (Hstep (a + 1 + Z.of_nat n)). lia.
Qed.

Lemma month_end_lt a b : a < b -> month_end a < month_end b.
Proof. apply strict_monotone_of_step. intros k. apply month_end_facts. Qed.

Lemma month_key_unfold z :
  month_key z
  = let e := (4800 * z) / 146097 + 23639 in
    if z <=? month_end e then e
    else if z <=? month_end (e + 1) then e + 1
    else e + 2.
Proof.
  exact (eq_refl (let e := (4800 * z) / 146097 + 23639 in
                  if z <=? month_end e then e
                  else if z <=? month_end (e + 1) then e + 1
                  else e + 2)).
Qed.

(** A day lies after the end of the month before its own and not after
    the end of its own month. *)
Lemma month_end_bounds z :
  month_end (month_key z - 1) < z <= month_end (month_key z).
Proof.
  rewrite month_key_unfold. cbv zeta.
  set (e := 4800 * z / 146097 + 23639).
  assert (146097 * (e - 23639) <= 4800 * z < 146097 * (e - 23639 + 1)) as Hq.
  { unfold e. replace (4800 * z / 146097 + 23639 - 23639)
      with (4800 * z / 146097) by lia.
    pose proof (Z.div_mod (4800 * z) 146097 ltac:(lia)).
    pose proof (Z.mod_pos_bound (4800 * z) 146097 ltac:(lia)). lia. }
  pose proof (month_end_facts (e - 1)) as [_ Hlo].
  pose proof (month_end_facts (e + 2)) as [_ Hhi].
  unfold drift_min, drift_max in *.
  destruct (z <=? month_end e) eqn:E0.
  - apply Z.leb_le in E0. lia.
  - apply Z.leb_gt in E0. destruct (z <=? month_end (e + 1)) eqn:E1.
    + apply Z.leb_le in E1. replace (e + 1 - 1) with e by lia. lia.
    + apply Z.leb_gt in E1. replace (e + 2 - 1) with (e + 1) by lia. lia.
Qed.

Lemma month_key_mono a b : a <= b -> month_key a <= month_key b.
Proof.
  intros Hab.
  destruct (Z.le_gt_cases (month_key a) (month_key b)) as [H|H]; [exact H|].
  pose proof (month_end_bounds a) as [Ha _].
  pose proof (month_end_bounds b) as [_ Hb].
  destruct (Z.eq_dec (month_key b) (month_key a - 1)) as [E|E].
  - rewrite E in Hb. lia.
  - pose proof (month_end_lt (month_key b) (month_key a - 1) ltac:(lia)). lia.
Qed.

Lemma month_key_month_end k : month_key (month_end k) = k.
Proof.
  pose proof (month_end_bounds (month_end k)) as [Hlo Hhi].
  destruct (Z.lt_trichotomy (month_key (month_end k)) k) as [H|[H|H]].
  - pose proof (month_end_lt _ _ H). lia.
  - exact H.
  - destruct (Z.eq_dec (month_key (month_end k) - 1) k) as [E|E].
    + rewrite E in Hlo. lia.
    + pose proof (month_end_lt k (month_key (month_end k) - 1) ltac:(lia)).
      lia.
Qed.

Lemma is_month_end_unfold z :
  is_month_end z = (month_end (month_key z) =? z).
Proof. exact (eq_refl (month_end (month_key z) =? z)). Qed.

Lemma is_month_end_spec z :
  is_month_end z = true -> month_end (month_key z) = z.
Proof. rewrite is_month_end_unfold. apply Z.eqb_eq. Qed.


Lemma week_key_mono a b : a <= b -> week_key a <= week_key b.
Proof. intros H. unfold week_key. apply Z.div_le_mono; lia. Qed.

Lemma week_key_week_end k : week_key (week_end k) = k.
Proof.
  unfold week_key, week_end.
  replace (7 * k + 1 + 5) with (6 + k * 7) by lia.
  rewrite Z.div_add by lia. reflexivity.
Qed.

Lemma week_end_bounds z :
  week_end (week_key z - 1) < z <= week_end (week_key z).
Proof.
  unfold week_key, week_end.
  pose proof (Z.div_mod (z + 5) 7 ltac:(lia)).
  pose proof (Z.mod_pos_bound (z + 5) 7 ltac:(lia)). lia.
Qed.

Lemma is_friday_week_end k : is_friday (week_end k) = true.
Proof.
  unfold is_friday, weekday, week_end.
  replace (7 * k + 1 + 3) with (4 + k * 7) by lia.
  rewrite Z.mod_add by lia. reflexivity.
Qed.

(** ** Moving averages *)

Section MovingAverage.

Variable py : pandas.

Lemma set_col_get_eq w col cols : get_col w (set_col w col cols) = Some col.
Proof.
  induction cols as [|[w' c'] cols IH]; cbn.
  - by rewrite Nat.eqb_refl.
  - destruct (w =? w')%nat eqn:E; cbn; rewrite ?Nat.eqb_refl, ?E; done.
Qed.

Lemma set_col_get_ne w w' col cols :
  w <> w' -> get_col w (set_col w' col cols) = get_col w cols.
Proof.
  intros Hne. induction cols as [|[v c] cols IH]; cbn.
  - apply Nat.eqb_neq in Hne. by rewrite Hne.
  - destruct (w' =? v)%nat eqn:E; cbn.
    + apply Nat.eqb_eq in E. subst v.
      apply Nat.eqb_neq in Hne. by rewrite Hne.
    + destruct (w =? v)%nat; [done | exact IH].
Qed.

Lemma add_ma_cons df w ws :
  add_ma py df (w :: ws) = add_ma py (add_ma_step py df w) ws.
Proof. reflexivity. Qed.

Lemma add_ma_rows df ws : rows (add_ma py df ws) = rows df.
Proof.
  revert df. induction ws as [|w ws IH]; intros df; [done|].
  by rewrite add_ma_cons, IH.
Qed.

Lemma add_ma_date_col df ws : date_col (add_ma py df ws) = date_col df.
Proof.
  revert df. induction ws as [|w ws IH]; intros df; [done|].
  by rewrite add_ma_cons, IH.
Qed.

(** After [add_ma], the column of every requested window is the rolling
    mean of the closes. *)
Lemma add_ma_get_col w ws : forall df,
  In w ws \/
  get_col w (ma_cols df) = Some (rolling_mean py w (map close (rows df))) ->
  get_col w (ma_cols (add_ma py df ws))
  = Some (rolling_mean py w (map close (rows df))).
Proof.
  induction ws as [|w' ws IH]; intros df H.
  - destruct H as [[]|H]. exact H.
  - rewrite add_ma_cons.
    replace (rows df) with (rows (add_ma_step py df w')) by done.
    apply IH. cbn [add_ma_step ma_cols rows].
    destruct (Nat.eq_dec w w') as [->|Hne].
    + right. apply set_col_get_eq.
    + destruct H as [[E|Hin]|H].
      * congruence.
      * by left.
      * right. by rewrite set_col_get_ne.
Qed.

(** Columns of other windows are kept by [add_ma]. *)
Lemma add_ma_get_col_other w ws : forall df,
  ~ In w ws -> get_col w (ma_cols (add_ma py df ws)) = get_col w (ma_cols df).
Proof.
  induction ws as [|w' ws IH]; intros df H; [done|].
  rewrite add_ma_cons.
  rewrite IH by (intros Hin; apply H; by right).
  cbn. apply set_col_get_ne. intros ->. apply H. by left.
Qed.

Lemma rolling_mean_length w xs : length (rolling_mean py w xs) = length xs.
Proof. unfold rolling_mean. by rewrite length_map, length_seq. Qed.

Lemma rolling_mean_lookup w xs i :
  (i < length xs)%nat ->
  rolling_mean py w xs !! i =
  Some (if ((S i <? w) || (w =? 0))%nat then None
        else Some (dy_value (roll_mean py w (firstn (S i) xs)))).
Proof.
  intros Hi. unfold rolling_mean.
  by rewrite list_lookup_fmap, lookup_seq_lt by done.
Qed.

End MovingAverage.

(** ** Sorting *)

Section Sorting.

Context {A : Type} (k : A -> Z).

Abbreviation le_k := (fun a b : A => k a <= k b).

Lemma insert_by_head_le b l :
  Forall (fun c => k b <= k c) l -> insert_by k b l = b :: l.
Proof.
  intros H. destruct l as [|c l]; [done|].
  inversion H as [|? ? Hc _]; subst. cbn.
  destruct (k b <=? k c) eqn:E; [done|]. apply Z.leb_gt in E. lia.
Qed.

(** A stable sort leaves an ascending list as it is. *)
Lemma sort_by_ascending l : StronglySorted le_k l -> sort_by k l = l.
Proof.
  induction 1 as [|b l Hs IH Hb]; [done|].
  cbn [sort_by fold_right]. fold (sort_by k l). rewrite IH.
  by apply insert_by_head_le.
Qed.

Lemma insert_by_Permutation b l : insert_by k b l ≡ₚ b :: l.
Proof.
  induction l as [|c l IH]; [done|]. cbn.
  destruct (k b <=? k c); [done|]. rewrite IH. apply perm_swap.
Qed.

Lemma sort_by_Permutation l : sort_by k l ≡ₚ l.
Proof.
  induction l as [|b l IH]; [done|].
  cbn [sort_by fold_right]. fold (sort_by k l).
  by rewrite insert_by_Permutation, IH.
Qed.

Lemma insert_by_sorted b l :
  StronglySorted le_k l -> StronglySorted le_k (insert_by k b l).
Proof.
  induction 1 as [|c l Hs IH Hc]; cbn.
  - repeat constructor.
  - destruct (k b <=? k c) eqn:E.
    + apply Z.leb_le in E. constructor; [by constructor|].
      constructor; [done|].
      eapply Forall_impl; [exact Hc|]. cbn. intros; lia.
    + apply Z.leb_gt in E. constructor; [done|].
      rewrite insert_by_Permutation. constructor; [lia | done].
Qed.

Lemma sort_by_sorted l : StronglySorted le_k (sort_by k l).
Proof.
  induction l as [|b l IH]; [constructor|].
  cbn [sort_by fold_right]. by apply insert_by_sorted.
Qed.

Lemma sorted_le_last l d x :
  StronglySorted le_k l -> x ∈ l -> k x <= k (List.last l d).
Proof.
  induction 1 as [|b l Hs IH Hb]; intros Hx; [by apply elem_of_nil in Hx|].
  apply elem_of_cons in Hx as [->|Hx].
  - destruct l as [|c l]; [cbn; lia|].
    change (List.last (b :: c :: l) d) with (List.last (c :: l) d).
    rewrite Forall_forall in Hb.
    apply Hb.
    destruct (exists_last (l := c :: l) ltac:(done)) as (l' & y & E).
    rewrite E, last_last. apply elem_of_app. right. by apply list_elem_of_singleton.
  - destruct l as [|c l]; [by apply elem_of_nil in Hx|].
    change (List.last (b :: c :: l) d) with (List.last (c :: l) d).
    by apply IH.
Qed.

End Sorting.

Lemma ascending_dates_sorted l :
  ascending_dates l = true ->
  StronglySorted (fun a b => date a <= date b) l.
Proof.
  intros H. apply Sorted_StronglySorted.
  { intros a b c ? ?; lia. }
  induction l as [|b l IH]; [constructor|].
  destruct l as [|c l]; [by repeat constructor|].
  cbn [ascending_dates] in H. apply andb_prop in H as [H1 H2].
  apply Z.leb_le in H1. constructor; [by apply IH | by constructor].
Qed.

(** ** Reductions over a bin *)

Lemma qmax_cases x y : (qmax x y = x /\ (y <= x)%Q) \/ (qmax x y = y /\ (x <= y)%Q).
Proof.
  unfold qmax. destruct (Qle_bool x y) eqn:E.
  - right. split; [done|]. by apply Qle_bool_iff.
  - left. split; [done|]. apply Qlt_le_weak, Qnot_le_lt.
    intros H. apply Qle_bool_iff in H. congruence.
Qed.

Lemma qmin_cases x y : (qmin x y = x /\ (x <= y)%Q) \/ (qmin x y = y /\ (y <= x)%Q).
Proof.
  unfold qmin. destruct (Qle_bool x y) eqn:E.
  - left. split; [done|]. by apply Qle_bool_iff.
  - right. split; [done|]. apply Qlt_le_weak, Qnot_le_lt.
    intros H. apply Qle_bool_iff in H. congruence.
Qed.

Lemma fold_qmax_spec r : forall x,
  let m := fold_left qmax r x in
  In m (x :: r) /\ Forall (fun y => (y <= m)%Q) (x :: r).
Proof.
  induction r as [|y r IH]; intros x; cbn [fold_left].
  - split; [by left|]. constructor; [apply Qle_refl | constructor].
  - destruct (IH (qmax x y)) as [Hin Hall].
    inversion Hall as [|? ? Hm Hr]; subst.
    destruct (qmax_cases x y) as [[E Hle]|[E Hle]]; rewrite E in *.
    + split.
      * destruct Hin as [<-|Hin]; [by left | right; by right].
      * constructor; [done|]. constructor; [|done].
        eapply Qle_trans; [exact Hle | exact Hm].
    + split.
      * right. destruct Hin as [<-|Hin]; [by left | by right].
      * constructor; [|by constructor].
        eapply Qle_trans; [exact Hle | exact Hm].
Qed.

Lemma fold_qmin_spec r : forall x,
  let m := fold_left qmin r x in
  In m (x :: r) /\ Forall (fun y => (m <= y)%Q) (x :: r).
Proof.
  induction r as [|y r IH]; intros x; cbn [fold_left].
  - split; [by left|]. constructor; [apply Qle_refl | constructor].
  - destruct (IH (qmin x y)) as [Hin Hall].
    inversion Hall as [|? ? Hm Hr]; subst.
    destruct (qmin_cases x y) as [[E Hle]|[E Hle]]; rewrite E in *.
    + split.
      * destruct Hin as [<-|Hin]; [by left | right; by right].
      * constructor; [done|]. constructor; [|done].
        eapply Qle_trans; [exact Hm | exact Hle].
    + split.
      * right. destruct Hin as [<-|Hin]; [by left | by right].
      * constructor; [|by constructor].
        eapply Qle_trans; [exact Hm | exact Hle].
Qed.

(** [int64] sums: the result lies in the range, differs from the sum by a
    multiple of [2^64], and is the sum when the sum lies in the range. *)
Lemma wrap_int64_range z : int64_range (wrap_int64 z).
Proof.
  unfold int64_range, wrap_int64.
  pose proof (Z.mod_pos_bound (z + 2 ^ 63) (2 ^ 64) ltac:(lia)). lia.
Qed.

Lemma wrap_int64_congr z : exists k, wrap_int64 z = z + k * 2 ^ 64.
Proof.
  exists (- ((z + 2 ^ 63) / 2 ^ 64)). unfold wrap_int64.
  pose proof (Z.div_mod (z + 2 ^ 63) (2 ^ 64) ltac:(lia)). lia.
Qed.

Lemma wrap_int64_id z : int64_range z -> wrap_int64 z = z.
Proof.
  unfold int64_range, wrap_int64. intros H.
  rewrite Z.mod_small by lia. lia.
Qed.

Lemma int64_congr_eq a b k :
  int64_range a -> int64_range b -> a = b + k * 2 ^ 64 -> a = b.
Proof. unfold int64_range. intros Ha Hb E. nia. Qed.

Lemma Forall_map_iff {A B} (f : A -> B) (P : B -> Prop) l :
  Forall P (map f l) <-> Forall (fun a => P (f a)) l.
Proof. apply Forall_fmap. Qed.

(** What the five reductions give on a non-empty group. *)
Lemma aggregate_nonempty (g : list bar) (e : Z) :
  g <> [] ->
  exists r,
    dropna_row {| a_date := e;
                  a_open := agg_first (map open g);
                  a_high := agg_max (map high g);
                  a_low := agg_min (map low g);
                  a_close := agg_last (map close g);
                  a_volume := agg_sum (map volume g) |} = Some r /\
    date r = e /\ is_aggregate_of g r.
Proof.
  intros Hne. destruct g as [|b g]; [done|].
  destruct (fold_qmax_spec (map high g) (high b)) as [Hxi Hxa].
  destruct (fold_qmin_spec (map low g) (low b)) as [Hni Hna].
  assert (exists c, last (b :: g) = Some c) as [c Hc].
  { destruct (last_is_Some (b :: g)) as [_ H]. by apply H. }
  exists (Bar e (open b) (fold_left qmax (map high g) (high b))
              (fold_left qmin (map low g) (low b)) (close c)
              (wrap_int64 (Zsum (map volume (b :: g))))).
  split; [|split; [done|]].
  - unfold dropna_row, agg_first, agg_max, agg_min, agg_last, agg_sum.
    cbn [a_open a_high a_low a_close a_volume a_date map head].
    change (close b :: map close g) with (close <$> (b :: g)).
    by rewrite fmap_last, Hc.
  - unfold is_aggregate_of. cbn [open high low close volume head fmap option_fmap option_map].
    rewrite Hc. cbn.
    split; [done|]. split; [done|].
    change (high b :: map high g) with (map high (b :: g)) in Hxa.
    change (low b :: map low g) with (map low (b :: g)) in Hna.
    split; [exact Hxi|].
    split; [exact (proj1 (Forall_map_iff high (fun y => (y <= _)%Q) _) Hxa)|].
    split; [exact Hni|].
    split; [exact (proj1 (Forall_map_iff low (fun y => (_ <= y)%Q) _) Hna)|].
    split; [apply wrap_int64_range | apply wrap_int64_congr].
Qed.

(** The volume of an aggregate is the sum of the volumes when that sum
    fits an [int64]. *)
Lemma aggregate_volume g r :
  is_aggregate_of g r ->
  - 2 ^ 63 <= fold_right Z.add 0 (map volume g) < 2 ^ 63 ->
  volume r = fold_right Z.add 0 (map volume g).
Proof.
  intros (_ & _ & _ & _ & _ & _ & Hr & k & Hk) Hs.
  by apply (int64_congr_eq _ _ k).
Qed.

(** ** Resampling, for any rule with monotone bins *)

Section ResampleFacts.

Variable key : Z -> Z.
Variable period_end : Z -> Z.
Hypothesis key_mono : forall a b, a <= b -> key a <= key b.
Hypothesis key_end : forall k, key (period_end k) = k.

Lemma end_lt a b : a < b -> period_end a < period_end b.
Proof.
  intros Hab.
  destruct (Z.lt_ge_cases (period_end a) (period_end b)) as [H|H]; [done|].
  apply key_mono in H. rewrite !key_end in H. lia.
Qed.

Abbreviation by_date := (fun a b : bar => date a <= date b).
Abbreviation by_key := (fun a b : bar => key (date a) <= key (date b)).
Abbreviation emit bars ks :=
  (omap (fun k => dropna_row (agg_bin key period_end bars k)) ks).

Lemma dropna_map (f : Z -> agg_row) ks :
  dropna (map f ks) = omap (fun k => dropna_row (f k)) ks.
Proof.
  unfold dropna. induction ks as [|k ks IH]; [done|].
  cbn. by rewrite IH.
Qed.

Lemma bin_rows_key bars k b : b ∈ bin_rows key bars k -> key (date b) = k.
Proof.
  unfold bin_rows. rewrite list_elem_of_In, filter_In.
  intros [_ H]. by apply Z.eqb_eq.
Qed.

Lemma bin_rows_elem bars b : b ∈ bars -> b ∈ bin_rows key bars (key (date b)).
Proof.
  unfold bin_rows. rewrite !list_elem_of_In, filter_In.
  intros H. split; [done | apply Z.eqb_refl].
Qed.

Lemma emit_empty bars k :
  bin_rows key bars k = [] ->
  dropna_row (agg_bin key period_end bars k) = None.
Proof. intros H. unfold agg_bin. by rewrite H. Qed.

Lemma emit_nonempty bars k :
  bin_rows key bars k <> [] ->
  exists r, dropna_row (agg_bin key period_end bars k) = Some r /\
            date r = period_end k /\
            is_aggregate_of (bin_rows key bars k) r.
Proof. intros H. unfold agg_bin. cbv zeta. by apply aggregate_nonempty. Qed.

Lemma emit_date bars k r :
  dropna_row (agg_bin key period_end bars k) = Some r -> date r = period_end k.
Proof.
  unfold dropna_row, agg_bin. cbn [a_open a_high a_low a_close a_date].
  repeat case_match; try done. by intros [= <-].
Qed.

(** The rows emitted for the bins [ks] are the aggregates of the non-empty
    bins among them, in the order of [ks]. *)
Lemma emit_groups bars ks :
  exists gs,
    concat gs = concat (map (bin_rows key bars) ks) /\
    Forall (fun g => g <> []) gs /\
    Forall2 (fun g r => exists k, date r = period_end k /\
                                  g = bin_rows key bars k /\
                                  is_aggregate_of g r)
            gs (emit bars ks).
Proof.
  induction ks as [|k ks (gs & Hc & Hne & Hf)].
  - exists []. repeat split; constructor.
  - cbn [omap list_omap map concat].
    destruct (bin_rows key bars k) as [|b g] eqn:E.
    + rewrite emit_empty by done. exists gs. by repeat split.
    + destruct (emit_nonempty bars k) as (r & Hr & Hd & Ha); [by rewrite E|].
      rewrite Hr. exists ((b :: g) :: gs). rewrite <- E. split; [|split].
      * cbn [concat]. by rewrite Hc.
      * constructor; [by rewrite E | done].
      * constructor; [|done]. by exists k.
Qed.

Lemma emit_dates bars ks :
  Forall (fun r => exists k, k ∈ ks /\ date r = period_end k) (emit bars ks).
Proof.
  induction ks as [|k ks IH]; [constructor|].
  cbn [omap list_omap].
  assert (Forall (fun r => exists k0, k0 ∈ k :: ks /\ date r = period_end k0)
                 (emit bars ks)) as IH'.
  { eapply Forall_impl; [exact IH|]. cbn. intros r (k0 & Hk0 & Hd).
    exists k0. split; [by right | done]. }
  destruct (dropna_row (agg_bin key period_end bars k)) as [r|] eqn:E; [|done].
  constructor; [|done]. exists k. split; [by left | by eapply emit_date].
Qed.

Lemma emit_dates_sorted bars ks :
  StronglySorted Z.lt ks -> StronglySorted Z.lt (map date (emit bars ks)).
Proof.
  induction 1 as [|k ks Hs IH Hk]; [constructor|].
  cbn [omap list_omap].
  destruct (dropna_row (agg_bin key period_end bars k)) as [r|] eqn:E; [|done].
  cbn [map]. constructor; [done|].
  apply Forall_map_iff. eapply Forall_impl; [apply emit_dates|].
  cbn. intros r' (k' & Hk' & Hd'). rewrite Hd', (emit_date _ _ _ E).
  apply end_lt. rewrite Forall_forall in Hk. by apply Hk.
Qed.

Lemma filter_none {A} (f : A -> bool) l :
  Forall (fun a => f a = false) l -> List.filter f l = [].
Proof.
  induction 1 as [|a l Ha _ IH]; [done|]. cbn. by rewrite Ha.
Qed.

Lemma filter_all {A} (f : A -> bool) l :
  Forall (fun a => f a = true) l -> List.filter f l = l.
Proof.
  induction 1 as [|a l Ha _ IH]; [done|]. cbn. by rewrite Ha, IH.
Qed.

(** In a list ascending by bin, the rows of the smallest bin come first. *)
Lemma sorted_split k l :
  StronglySorted by_key l ->
  Forall (fun b => k <= key (date b)) l ->
  l = (bin_rows key l k
       ++ List.filter (fun b => negb (key (date b) =? k)) l)%list.
Proof.
  unfold bin_rows.
  induction 1 as [|b l Hs IH Hb]; intros Hk; [done|].
  inversion Hk as [|? ? Hkb Hkl]; subst. cbn [List.filter].
  destruct (key (date b) =? k) eqn:E; cbn [negb].
  - cbn. f_equal. by apply IH.
  - apply Z.eqb_neq in E.
    rewrite filter_none, filter_all; [done| |].
    + eapply Forall_impl; [exact Hb|]. cbn. intros c Hc.
      apply negb_true_iff, Z.eqb_neq. lia.
    + eapply Forall_impl; [exact Hb|]. cbn. intros c Hc.
      apply Z.eqb_neq. lia.
Qed.

Lemma filter_sorted (f : bar -> bool) l :
  StronglySorted by_key l -> StronglySorted by_key (List.filter f l).
Proof.
  induction 1 as [|b l Hs IH Hb]; [constructor|]. cbn.
  destruct (f b); [|done]. constructor; [done|].
  rewrite Forall_forall in Hb |- *. intros c Hc. apply Hb.
  apply list_elem_of_In, filter_In in Hc as [Hc _]. by apply list_elem_of_In.
Qed.

(** Cutting an ascending series at the bin boundaries and gluing the bins
    back gives the series. *)
Lemma concat_bins ks :
  StronglySorted Z.lt ks ->
  forall l, StronglySorted by_key l ->
            (forall b, b ∈ l -> key (date b) ∈ ks) ->
            concat (map (bin_rows key l) ks) = l.
Proof.
  induction 1 as [|k ks Hs IH Hk]; intros l Hl Hcov.
  - destruct l as [|b l]; [done|].
    specialize (Hcov b ltac:(by left)). by apply elem_of_nil in Hcov.
  - cbn [map concat].
    set (l' := List.filter (fun b => negb (key (date b) =? k)) l).
    rewrite Forall_forall in Hk.
    assert (l = (bin_rows key l k ++ l')%list) as Hsplit.
    { apply sorted_split; [done|]. apply Forall_forall. intros b Hb.
      apply Hcov, elem_of_cons in Hb as [->|Hb]; [lia|].
      specialize (Hk _ Hb). lia. }
    assert (map (bin_rows key l) ks = map (bin_rows key l') ks) as ->.
    { apply map_ext_in. intros k' Hk'. apply list_elem_of_In, Hk in Hk'.
      unfold bin_rows. rewrite Hsplit at 1. rewrite List.filter_app.
      rewrite filter_none; [done|].
      apply Forall_forall. intros b Hb. apply bin_rows_key in Hb.
      apply Z.eqb_neq. lia. }
    rewrite IH; [by rewrite <- Hsplit | by apply filter_sorted |].
    intros b Hb. unfold l' in Hb.
    apply list_elem_of_In, filter_In in Hb as [Hb Hne].
    apply negb_true_iff, Z.eqb_neq in Hne.
    apply list_elem_of_In, Hcov, elem_of_cons in Hb as [?|?]; done.
Qed.

Lemma seqZ_sorted m n : StronglySorted Z.lt (seqZ m n).
Proof.
  destruct (Z.le_gt_cases n 0) as [H|H]; [rewrite seqZ_nil by done; constructor|].
  replace n with (Z.of_nat (Z.to_nat n)) by lia.
  generalize (Z.to_nat n) as i. clear. intros i. revert m.
  induction i as [|i IH]; intros m; [constructor|].
  rewrite seqZ_cons by lia. constructor.
  - replace (Z.pred (Z.of_nat (S i))) with (Z.of_nat i) by lia. apply IH.
  - apply Forall_seqZ. lia.
Qed.

Lemma by_date_by_key l : StronglySorted by_date l -> StronglySorted by_key l.
Proof.
  induction 1 as [|b l Hs IH Hb]; constructor; [done|].
  eapply Forall_impl; [exact Hb|]. cbn. intros c Hc. by apply key_mono.
Qed.

Lemma bin_keys_sorted l : StronglySorted Z.lt (bin_keys key l).
Proof. destruct l; [constructor | apply seqZ_sorted]. Qed.

Lemma bin_keys_cover l b :
  StronglySorted by_date l -> b ∈ l -> key (date b) ∈ bin_keys key l.
Proof.
  intros Hl Hb. destruct l as [|b0 l]; [by apply elem_of_nil in Hb|].
  unfold bin_keys. apply elem_of_seqZ.
  pose proof (sorted_le_last date _ b0 _ Hl Hb) as Hlast.
  apply key_mono in Hlast.
  assert (date b0 <= date b) as Hfirst.
  { apply elem_of_cons in Hb as [->|Hb]; [lia|].
    inversion Hl as [|? ? _ Hall]; subst.
    rewrite Forall_forall in Hall. by apply Hall. }
  apply key_mono in Hfirst. lia.
Qed.

(** The aggregated table of an ascending series: the series cut into its
    non-empty bins, one row per bin, period ends ascending. *)
Lemma resample_groups bars :
  StronglySorted by_date bars ->
  exists gs,
    concat gs = bars /\
    Forall (fun g => g <> []) gs /\
    Forall2 (fun g r => exists k, date r = period_end k /\
                                  g = bin_rows key bars k /\
                                  is_aggregate_of g r)
            gs (dropna (resample_agg key period_end bars)) /\
    StronglySorted Z.lt (map date (dropna (resample_agg key period_end bars))).
Proof.
  intros Hs. unfold resample_agg, sort_by_date.
  rewrite (sort_by_ascending date) by done. rewrite dropna_map.
  destruct (emit_groups bars (bin_keys key bars)) as (gs & Hc & Hne & Hf).
  exists gs. split; [|split; [done|split; [done|]]].
  - rewrite Hc. apply concat_bins.
    + apply bin_keys_sorted.
    + by apply by_date_by_key.
    + intros b Hb. by apply bin_keys_cover.
  - apply emit_dates_sorted, bin_keys_sorted.
Qed.

Lemma emit_none bars ks :
  Forall (fun k => bin_rows key bars k = []) ks -> emit bars ks = [].
Proof.
  induction 1 as [|k ks Hk _ IH]; [done|].
  cbn [omap list_omap]. by rewrite emit_empty.
Qed.

Lemma emit_one bars k :
  bin_rows key bars k <> [] ->
  exists r, emit bars [k] = [r] /\ date r = period_end k /\
            is_aggregate_of (bin_rows key bars k) r.
Proof.
  intros H. destruct (emit_nonempty bars k H) as (r & Hr & Hd & Ha).
  exists r. cbn [omap list_omap]. by rewrite Hr.
Qed.

(** The last row is the aggregate of the bin of the last bar, whatever
    that bin holds. *)
Lemma resample_last init bl :
  StronglySorted by_date (init ++ [bl]) ->
  exists front r,
    dropna (resample_agg key period_end (init ++ [bl])) = (front ++ [r])%list /\
    date r = period_end (key (date bl)) /\
    is_aggregate_of (bin_rows key (init ++ [bl]) (key (date bl))) r.
Proof.
  intros Hs. unfold resample_agg, sort_by_date.
  rewrite (sort_by_ascending date) by done. rewrite dropna_map.
  set (bars := (init ++ [bl])%list) in *.
  assert (bl ∈ bars) as Hbl by (apply elem_of_app; right; by left).
  destruct bars as [|b0 rest] eqn:E; [by apply elem_of_nil in Hbl|].
  rewrite <- E in *. unfold bin_keys. rewrite E. rewrite <- E.
  assert (List.last bars b0 = bl) as -> by apply last_last.
  assert (key (date b0) <= key (date bl)) as Hle.
  { apply key_mono. rewrite E in Hbl, Hs.
    apply elem_of_cons in Hbl as [->|Hbl]; [lia|].
    inversion Hs as [|? ? _ Hall]; subst.
    rewrite Forall_forall in Hall. by apply Hall. }
  replace (key (date bl) - key (date b0) + 1)
    with ((key (date bl) - key (date b0)) + 1) by lia.
  rewrite seqZ_app by lia. rewrite omap_app.
  replace (key (date b0) + (key (date bl) - key (date b0)))
    with (key (date bl)) by lia.
  change (seqZ (key (date bl)) 1) with [key (date bl)].
  destruct (emit_one bars (key (date bl))) as (r & Hr & Hd & Ha).
  { intros Hnil. apply bin_rows_elem in Hbl. rewrite Hnil in Hbl.
    by apply elem_of_nil in Hbl. }
  rewrite Hr. eauto.
Qed.

Lemma bin_rows_uniform l k :
  Forall (fun b => key (date b) = k) l -> bin_rows key l k = l.
Proof.
  intros H. apply filter_all. eapply Forall_impl; [exact H|].
  cbn. intros b ->. apply Z.eqb_refl.
Qed.

Lemma bin_rows_other l k k' :
  Forall (fun b => key (date b) = k) l -> k' <> k -> bin_rows key l k' = [].
Proof.
  intros H Hne. apply filter_none. eapply Forall_impl; [exact H|].
  cbn. intros b ->. by apply Z.eqb_neq.
Qed.

(** A series made of two runs, each inside one bin, gives two rows. *)
Lemma resample_two w1 w2 k1 k2 :
  StronglySorted by_date (w1 ++ w2) ->
  w1 <> [] -> w2 <> [] -> k1 <> k2 ->
  Forall (fun b => key (date b) = k1) w1 ->
  Forall (fun b => key (date b) = k2) w2 ->
  exists r1 r2,
    dropna (resample_agg key period_end (w1 ++ w2)) = [r1; r2] /\
    date r1 = period_end k1 /\ is_aggregate_of w1 r1 /\
    date r2 = period_end k2 /\ is_aggregate_of w2 r2.
Proof.
  intros Hs Hn1 Hn2 Hne H1 H2. unfold resample_agg, sort_by_date.
  rewrite (sort_by_ascending date) by done. rewrite dropna_map.
  destruct w1 as [|b1 w1']; [done|].
  destruct (exists_last Hn2) as (w2' & b2 & ->).
  set (w1 := b1 :: w1') in *. set (w2 := (w2' ++ [b2])%list) in *.
  assert (key (date b1) = k1) as Hk1 by (by inversion H1).
  assert (key (date b2) = k2) as Hk2.
  { rewrite Forall_forall in H2. apply H2, elem_of_app. right. by left. }
  assert (k1 < k2) as Hlt.
  { assert (date b1 <= date b2) as Hd.
    { apply (StronglySorted_app_1_elem_of _ _ _ _ _ Hs); [by left|].
      apply elem_of_app. right. by left. }
    apply key_mono in Hd. lia. }
  assert (bin_rows key (w1 ++ w2) k1 = w1) as Hb1.
  { unfold bin_rows. rewrite List.filter_app.
    fold (bin_rows key w1 k1). fold (bin_rows key w2 k1).
    rewrite bin_rows_uniform by done.
    rewrite (bin_rows_other w2 k2) by done. apply app_nil_r. }
  assert (bin_rows key (w1 ++ w2) k2 = w2) as Hb2.
  { unfold bin_rows. rewrite List.filter_app.
    fold (bin_rows key w1 k2). fold (bin_rows key w2 k2).
    rewrite (bin_rows_uniform w2) by done.
    by rewrite (bin_rows_other w1 k1) by done. }
  unfold bin_keys. cbn [app w1].
  assert (List.last (b1 :: (w1' ++ w2)%list) b1 = b2) as ->.
  { unfold w2. rewrite app_assoc, app_comm_cons. apply last_last. }
  change (b1 :: (w1' ++ w2)%list) with (w1 ++ w2)%list.
  rewrite Hk1, Hk2.
  replace (k2 - k1 + 1) with (1 + ((k2 - k1 - 1) + 1)) by lia.
  rewrite seqZ_app by lia. rewrite (seqZ_app (k1 + 1)) by lia.
  replace (k1 + 1 + (k2 - k1 - 1)) with k2 by lia.
  change (seqZ k1 1) with [k1]. change (seqZ k2 1) with [k2].
  rewrite !omap_app.
  rewrite (emit_none (w1 ++ w2) (seqZ (k1 + 1) (k2 - k1 - 1))).
  2:{ apply Forall_seqZ. intros k Hk. unfold bin_rows.
      rewrite List.filter_app.
      fold (bin_rows key w1 k). fold (bin_rows key w2 k).
      rewrite (bin_rows_other w1 k1), (bin_rows_other w2 k2) by (done || lia).
      done. }
  destruct (emit_one (w1 ++ w2) k1) as (r1 & Hr1 & Hd1 & Ha1);
    [by rewrite Hb1|].
  destruct (emit_one (w1 ++ w2) k2) as (r2 & Hr2 & Hd2 & Ha2);
    [by rewrite Hb2|].
  rewrite Hr1, Hr2. rewrite Hb1 in Ha1. rewrite Hb2 in Ha2.
  exists r1, r2. split; [done|]. split; [done|]. split; [done|]. split; done.
Qed.

End ResampleFacts.

(** ** Weekly and monthly aggregation *)

Lemma Forall_forallb {A} (f : A -> bool) (P : A -> Prop) l :
  (forall a, f a = true -> P a) -> forallb f l = true -> Forall P l.
Proof.
  intros Hf H. apply Forall_forall. intros a Ha.
  apply Hf. rewrite forallb_forall in H. by apply H, list_elem_of_In.
Qed.

Lemma resample_daily df : resample_k_data df "daily" = Ok df.
Proof. reflexivity. Qed.

Lemma resample_weekly df :
  date_col df = true ->
  resample_k_data df "weekly"
  = Ok {| date_col := true;
          rows := dropna (resample_agg week_key week_end (rows df));
          ma_cols := [] |}.
Proof. intros H. unfold resample_k_data. by rewrite H. Qed.

Lemma resample_monthly df :
  date_col df = true ->
  resample_k_data df "monthly"
  = Ok {| date_col := true;
          rows := dropna (resample_agg month_key month_end (rows df));
          ma_cols := [] |}.
Proof. intros H. unfold resample_k_data. by rewrite H. Qed.

Lemma friday_week_end F : is_friday F = true -> week_end (week_key F) = F.
Proof.
  unfold is_friday, weekday, week_end, week_key. intros H.
  apply Z.eqb_eq in H. Z.to_euclidean_division_equations. lia.
Qed.

Lemma week_key_in_week F d :
  is_friday F = true -> F - 7 < d <= F -> week_key d = week_key F.
Proof.
  unfold is_friday, weekday, week_key. intros H Hd.
  apply Z.eqb_eq in H. Z.to_euclidean_division_equations. lia.
Qed.

Lemma bin_in_week bars k r :
  date r = week_end k -> in_week_of (bin_rows week_key bars k) r.
Proof.
  intros Hd. split; [rewrite Hd; apply is_friday_week_end|].
  apply Forall_forall. intros b Hb. apply bin_rows_key in Hb.
  pose proof (week_end_bounds (date b)) as Hw. rewrite Hb in Hw.
  rewrite Hd. unfold week_end in *. lia.
Qed.

(** C1. For an ascending daily series, weekly resampling cuts the series
    into consecutive non-empty groups, one per week ending on a Friday, and
    emits for each group one bar with the first open, the greatest high, the
    least low, the last close and the total volume, the rows in strictly
    ascending order of the week-ending date.  The volume is an [int64] sum:
    it is the sum of the group's volumes whenever that sum lies in the
    [int64] range, and differs from it by a multiple of [2^64] otherwise.
    A ten-day series made of two such weeks gives exactly two rows, the
    first one with the last close and the total volume of the first week.
    Daily resampling returns the series as it is. *)
Theorem C1_weekly_aggregation (df : frame) :
  date_col df = true ->
  rows df <> [] ->
  ascending_dates (rows df) = true ->
  (exists out gs,
      resample_k_data df "weekly" = Ok out /\
      concat gs = rows df /\
      Forall (fun g => g <> []) gs /\
      Forall2 (fun g r =>
                 is_aggregate_of g r /\ in_week_of g r /\
                 (- 2 ^ 63 <= fold_right Z.add 0 (map volume g) < 2 ^ 63 ->
                  volume r = fold_right Z.add 0 (map volume g)))
              gs (rows out) /\
      StronglySorted Z.lt (map date (rows out))) /\
  (forall w1 w2 F1 F2,
      rows df = (w1 ++ w2)%list -> length (rows df) = 10%nat ->
      w1 <> [] -> w2 <> [] ->
      is_friday F1 = true -> is_friday F2 = true -> F1 <> F2 ->
      Forall (fun b => F1 - 7 < date b <= F1) w1 ->
      Forall (fun b => F2 - 7 < date b <= F2) w2 ->
      - 2 ^ 63 <= fold_right Z.add 0 (map volume w1) < 2 ^ 63 ->
      exists out r1 r2,
        resample_k_data df "weekly" = Ok out /\
        rows out = [r1; r2] /\
        date r1 = F1 /\ date r2 = F2 /\
        close <$> last w1 = Some (close r1) /\
        volume r1 = fold_right Z.add 0 (map volume w1)) /\
  resample_k_data df "daily" = Ok df.
Proof.
  intros Hdc _ Hasc. apply ascending_dates_sorted in Hasc.
  rewrite resample_weekly by done.
  split; [|split; [|apply resample_daily]].
  - destruct (resample_groups week_key week_end week_key_mono
                week_key_week_end (rows df) Hasc) as (gs & Hc & Hne & Hf & Hs).
    eexists _, gs. split; [reflexivity|]. cbn [rows].
    split; [done|]. split; [done|]. split; [|done].
    eapply Forall2_impl; [exact Hf|]. cbn.
    intros g r (k & Hd & -> & Ha).
    split; [done|]. split; [by apply bin_in_week|].
    by apply aggregate_volume.
  - intros w1 w2 F1 F2 E _ Hn1 Hn2 HF1 HF2 Hne H1 H2 Hv1.
    rewrite E in Hasc |- *.
    destruct (resample_two week_key week_end week_key_mono
                w1 w2 (week_key F1) (week_key F2) Hasc Hn1 Hn2)
      as (r1 & r2 & Hout & Hd1 & Ha1 & Hd2 & Ha2).
    + intros Hk. apply Hne.
      by rewrite <- (friday_week_end F1), <- (friday_week_end F2), Hk.
    + eapply Forall_impl; [exact H1|]. cbn. intros b Hb.
      by apply week_key_in_week.
    + eapply Forall_impl; [exact H2|]. cbn. intros b Hb.
      by apply week_key_in_week.
    + eexists _, r1, r2. split; [reflexivity|]. cbn [rows].
      rewrite friday_week_end in Hd1, Hd2 by done.
      pose proof (aggregate_volume _ _ Ha1 Hv1) as Hv.
      destruct Ha1 as (_ & Hcl & _).
      by repeat split.
Qed.

Lemma C1_weekly_aggregation_witness :
  exists out r1 r2,
    resample_k_data sample_frame "weekly" = Ok out /\
    rows out = [r1; r2] /\
    date r1 = 19874 /\ date r2 = 19881 /\
    close <$> last (firstn 5 sample_bars) = Some (close r1) /\
    volume r1 = 100 + 200 + 300 + 400 + 500.
Proof.
  destruct (C1_weekly_aggregation sample_frame) as (_ & H & _).
  - reflexivity.
  - discriminate.
  - reflexivity.
  - apply (H (firstn 5 sample_bars) (skipn 5 sample_bars) 19874 19881).
    + reflexivity.
    + reflexivity.
    + discriminate.
    + discriminate.
    + reflexivity.
    + reflexivity.
    + lia.
    + apply (Forall_forallb (fun b => (19874 - 7 <? date b) && (date b <=? 19874)));
        [intros b Hb; lia | reflexivity].
    + apply (Forall_forallb (fun b => (19881 - 7 <? date b) && (date b <=? 19881)));
        [intros b Hb; lia | reflexivity].
    + split; by vm_compute.
Defined.

Lemma sorted_snoc_lt (l : list Z) (x : Z) :
  StronglySorted Z.lt (l ++ [x]) -> Forall (fun y => y < x) l.
Proof.
  intros H. apply Forall_forall. intros y Hy.
  apply (StronglySorted_app_1_elem_of _ _ _ _ _ H); [done | by left].
Qed.

Lemma seqZ_one m : seqZ m 1 = [m].
Proof. rewrite seqZ_cons by lia. by rewrite seqZ_nil by lia. Qed.

(** A series of one bar gives one row, with the values of that bar. *)
Lemma resample_single (key period_end : Z -> Z) (b : bar) :
  dropna (resample_agg key period_end [b])
  = [Bar (period_end (key (date b))) (open b) (high b) (low b) (close b)
         (wrap_int64 (volume b))].
Proof.
  unfold resample_agg, sort_by_date, bin_keys.
  cbn [sort_by fold_right insert_by List.last].
  replace (key (date b) - key (date b) + 1) with 1 by lia.
  rewrite seqZ_one. cbn [map]. unfold agg_bin, bin_rows. cbn [List.filter].
  rewrite Z.eqb_refl.
  unfold dropna, dropna_row, agg_first, agg_max, agg_min, agg_last, agg_sum.
  unfold Zsum.
  cbn [omap list_omap a_open a_high a_low a_close a_volume a_date
       map head last fold_left fold_right].
  by rewrite Z.add_0_r.
Qed.

(** The trailing period of any resampling rule. *)
Lemma trailing_period key period_end init bl :
  (forall a b, a <= b -> key a <= key b) ->
  (forall k, key (period_end k) = k) ->
  (forall z, z <= period_end (key z)) ->
  StronglySorted (fun a b => date a <= date b) (init ++ [bl]) ->
  exists front r,
    dropna (resample_agg key period_end (init ++ [bl])) = (front ++ [r])%list /\
    date r = period_end (key (date bl)) /\
    date bl <= date r /\
    Forall (fun r' => date r' < date r) front /\
    is_aggregate_of
      (List.filter (fun b => key (date b) =? key (date bl)) (init ++ [bl])) r.
Proof.
  intros Hmono Hend Hcov Hs.
  destruct (resample_last key period_end Hmono init bl Hs)
    as (front & r & Hout & Hd & Ha).
  destruct (resample_groups key period_end Hmono Hend _ Hs)
    as (_ & _ & _ & _ & Hsorted).
  exists front, r. split; [done|]. split; [done|].
  split; [rewrite Hd; apply Hcov|]. split; [|done].
  rewrite Hout, map_app in Hsorted. cbn [map] in Hsorted.
  apply sorted_snoc_lt in Hsorted.
  by apply (proj1 (Forall_map_iff date (fun y => y < date r) front)).
Qed.

Lemma week_end_covers z : z <= week_end (week_key z).
Proof. apply week_end_bounds. Qed.

Lemma month_end_covers z : z <= month_end (month_key z).
Proof. apply month_end_bounds. Qed.

(** C6. The last bar's period is emitted as the last row, aggregated from
    the bars of the series that fall in that period, however few, after the
    rows of the earlier periods and dated at the period end, which is not
    before the last bar; its volume is the [int64] sum of their volumes,
    which is their sum whenever that lies in the [int64] range.  Monthly
    resampling of a single day that is the last day of its month returns
    that day as the only row. *)
Theorem C6_trailing_partial_period (df : frame) (init : list bar) (bl : bar) :
  date_col df = true ->
  rows df = (init ++ [bl])%list ->
  ascending_dates (rows df) = true ->
  (exists out front r,
      resample_k_data df "weekly" = Ok out /\
      rows out = (front ++ [r])%list /\
      date r = week_end (week_key (date bl)) /\ date bl <= date r /\
      Forall (fun r' => date r' < date r) front /\
      let g := List.filter (fun b => week_key (date b) =? week_key (date bl))
                           (rows df) in
      is_aggregate_of g r /\
      (- 2 ^ 63 <= fold_right Z.add 0 (map volume g) < 2 ^ 63 ->
       volume r = fold_right Z.add 0 (map volume g))) /\
  (exists out front r,
      resample_k_data df "monthly" = Ok out /\
      rows out = (front ++ [r])%list /\
      date r = month_end (month_key (date bl)) /\ date bl <= date r /\
      Forall (fun r' => date r' < date r) front /\
      let g := List.filter (fun b => month_key (date b) =? month_key (date bl))
                           (rows df) in
      is_aggregate_of g r /\
      (- 2 ^ 63 <= fold_right Z.add 0 (map volume g) < 2 ^ 63 ->
       volume r = fold_right Z.add 0 (map volume g))) /\
  (init = [] -> is_month_end (date bl) = true ->
   - 2 ^ 63 <= volume bl < 2 ^ 63 ->
   resample_k_data df "monthly"
   = Ok {| date_col := true; rows := [bl]; ma_cols := [] |}).
Proof.
  intros Hdc E Hasc. apply ascending_dates_sorted in Hasc.
  rewrite resample_weekly, resample_monthly by done.
  rewrite E in *. split; [|split].
  - destruct (trailing_period week_key week_end init bl week_key_mono
                week_key_week_end week_end_covers Hasc)
      as (front & r & Hout & Hd & Hle & Hfront & Ha).
    exists {| date_col := true;
              rows := dropna (resample_agg week_key week_end (init ++ [bl]));
              ma_cols := [] |}, front, r.
    split; [reflexivity|]. do 4 (split; [done|]). cbn zeta.
    split; [done | by apply aggregate_volume].
  - destruct (trailing_period month_key month_end init bl month_key_mono
                month_key_month_end month_end_covers Hasc)
      as (front & r & Hout & Hd & Hle & Hfront & Ha).
    exists {| date_col := true;
              rows := dropna (resample_agg month_key month_end (init ++ [bl]));
              ma_cols := [] |}, front, r.
    split; [reflexivity|]. do 4 (split; [done|]). cbn zeta.
    split; [done | by apply aggregate_volume].
  - intros -> Hme Hv. do 2 f_equal.
    change ([] ++ [bl])%list with [bl]. rewrite resample_single.
    apply is_month_end_spec in Hme. rewrite Hme.
    rewrite wrap_int64_id by done.
    by destruct bl.
Qed.

Lemma C6_trailing_partial_period_witness :
  resample_k_data one_day_frame "monthly" = Ok one_day_frame.
Proof.
  destruct (C6_trailing_partial_period one_day_frame [] month_end_day)
    as (_ & _ & H).
  - reflexivity.
  - reflexivity.
  - reflexivity.
  - apply H; [reflexivity | reflexivity | split; by vm_compute].
Defined.

(** ** The moving-average columns *)






(** ** Symbol normalization *)

Lemma zfill_no_sign width c t :
  is_sign c = false ->
  zfill width (String c t) = left_pad_zeros width (String c t).
Proof.
  intros Hc. unfold zfill, left_pad_zeros.
  destruct (width <=? String.length (String c t))%nat eqn:E.
  - apply Nat.leb_le in E.
    by replace (width - String.length (String c t))%nat with 0%nat by lia.
  - by rewrite Hc.
Qed.

Lemma append_empty (s : string) : s ++ "" = s.
Proof.
  induction s as [|c s IH]; [done|].
  change (String c (s ++ "") = String c s). by rewrite IH.
Qed.

Lemma zfill_empty width : zfill width "" = left_pad_zeros width "".
Proof.
  unfold zfill, left_pad_zeros. cbn [String.length]. rewrite append_empty.
  destruct (width <=? 0)%nat eqn:E; [|done].
  apply Nat.leb_le in E. by replace (width - 0)%nat with 0%nat by lia.
Qed.

Lemma update_chart_normalized py st cf s1 s2 period :
  s1 <> "" -> s2 <> "" -> normalize s1 = normalize s2 ->
  update_chart py st cf s1 period = update_chart py st cf s2 period.
Proof.
  intros H1 H2 E. unfold update_chart.
  apply String.eqb_neq in H1, H2. by rewrite H1, H2, E.
Qed.

Lemma display_hover_normalized py st hd s1 s2 period :
  s1 <> "" -> s2 <> "" -> normalize s1 = normalize s2 ->
  display_hover py st hd s1 period = display_hover py st hd s2 period.
Proof.
  intros H1 H2 E. unfold display_hover.
  apply String.eqb_neq in H1, H2. by rewrite H1, H2, E.
Qed.

(** C10, as the code has it.  A non-empty symbol is looked up as
    [zfill 6 (strip symbol)]: stripped of surrounding white space and filled
    with zeros to six characters, the zeros in front of the stripped string
    but after a leading sign.  Both callbacks depend on the symbol through
    that value only, and "7", " 7 " and "000007" are all looked up as
    "000007". *)
Theorem C10_symbol_normalization (symbol : string) :
  symbol <> "" ->
  (forall c t, strip symbol = String c t -> is_sign c = true ->
               (String.length (strip symbol) < 6)%nat ->
               normalize symbol
               = String c (zeros (6 - String.length (strip symbol)) ++ t)) /\
  ((forall c t, strip symbol = String c t -> is_sign c = false) ->
   normalize symbol = left_pad_zeros 6 (strip symbol)) /\
  (forall symbol' py st cf hd period,
      symbol' <> "" -> normalize symbol' = normalize symbol ->
      update_chart py st cf symbol' period
      = update_chart py st cf symbol period /\
      display_hover py st hd symbol' period
      = display_hover py st hd symbol period) /\
  normalize "7" = "000007" /\
  normalize " 7 " = "000007" /\
  normalize "000007" = "000007".
Proof.
  intros Hne. split; [|split; [|split]].
  - intros c t E Hc Hlen. unfold normalize, zfill. rewrite E in *.
    assert ((6 <=? String.length (String c t))%nat = false) as ->
      by (apply Nat.leb_gt; lia).
    by rewrite Hc.
  - intros H. unfold normalize. destruct (strip symbol) as [|c t] eqn:E.
    + apply zfill_empty.
    + apply zfill_no_sign. by eapply H.
  - intros symbol' py st cf hd period Hne' E. split.
    + by apply update_chart_normalized.
    + by apply display_hover_normalized.
  - by repeat split.
Qed.

Lemma C10_symbol_normalization_witness :
  normalize " 7 " = left_pad_zeros 6 (strip " 7 ") /\
  update_chart sample_py sample_store None "7" "daily"
  = update_chart sample_py sample_store None " 7 " "daily".
Proof.
  destruct (C10_symbol_normalization " 7 ") as (_ & H2 & H3 & _).
  - discriminate.
  - split.
    + apply H2. intros c t E. vm_compute in E. by injection E as <- <-.
    + apply (H3 "7" sample_py sample_store None None "daily");
        [discriminate | reflexivity].
Defined.

(** C10, as stated, fails on a symbol with a sign: the zeros go after the
    sign, not in front of the string. *)
Lemma C10_counterexample :
  normalize "-7" = "-00007" /\
  left_pad_zeros 6 (strip "-7") = "0000-7" /\
  normalize "-7" <> left_pad_zeros 6 (strip "-7").
Proof. split; [reflexivity|]. split; [reflexivity|]. discriminate. Qed.

(** ** Chart and hover read-out *)

Lemma forallb_forall_calendar (l : list bar) :
  forallb in_calendar (map date l) = true ->
  Forall (fun b => in_calendar (date b) = true) l.
Proof.
  induction l as [|b l IH]; cbn; [by constructor|].
  intros [Hb Hl]%andb_true_iff. constructor; [done | by apply IH].
Qed.

Lemma figure_of_frame df symbol name fig :
  create_kline_ma_figure df symbol name = Ok fig ->
  date_col df = true /\
  Forall (fun b => in_calendar (date b) = true) (rows df) /\
  candle_x fig = map date (rows df) /\
  candle_open fig = map open (rows df) /\
  candle_high fig = map high (rows df) /\
  candle_low fig = map low (rows df) /\
  candle_close fig = map close (rows df) /\
  volume_y fig = map volume (rows df) /\
  candle_hovertext fig
  = map (fun b => (date b, (open b, high b, low b, close b))) (rows df) /\
  ma_traces fig
  = map (fun w => (w, match get_col w (ma_cols df) with
                      | Some y => y
                      | None => repeat None (length (rows df))
                      end)) MA_WINDOWS.
Proof.
  unfold create_kline_ma_figure. destruct (date_col df); [|discriminate].
  cbn [negb]. destruct (forallb in_calendar (map date (rows df))) eqn:Hc;
    [|discriminate].
  cbn [negb]. intros [= <-]. apply forallb_forall_calendar in Hc.
  by repeat split.
Qed.

Lemma update_chart_ok py st cf symbol period fig info :
  update_chart py st cf symbol period = (Some fig, info) ->
  symbol <> "" /\
  exists df,
    pipeline py st (normalize symbol) period = Ok df /\
    create_kline_ma_figure df (normalize symbol)
      (lookup_name cf (normalize symbol)) = Ok fig.
Proof.
  unfold update_chart, pipeline.
  destruct (String.eqb symbol "") eqn:E; [discriminate|].
  apply String.eqb_neq in E. intros H. split; [done|].
  destruct (load_local_stock_data py st (normalize symbol)) as [[df0 fname]|e];
    cbn [bind fst snd] in *; [|discriminate].
  destruct (resample_k_data df0 period) as [df|e];
    cbn [bind] in *; [|discriminate].
  destruct (create_kline_ma_figure (add_ma py df MA_WINDOWS) (normalize symbol)
              (lookup_name cf (normalize symbol))) as [fig'|e] eqn:F;
    cbn [bind] in *; [|discriminate].
  injection H as <- _. by exists (add_ma py df MA_WINDOWS).
Qed.

Lemma display_hover_pipeline py st points symbol period :
  symbol <> "" ->
  display_hover py st (Some (Some points)) symbol period
  = match pipeline py st (normalize symbol) period with
    | Raise e => CannotLoad e
    | Ok df =>
        match first_point_index points with
        | None => CannotLocate
        | Some point_index =>
            if (point_index <? 0)
               || (Z.of_nat (length (rows df)) <=? point_index)
            then CannotLocate
            else
              match rows df !! Z.to_nat point_index with
              | None => ParseFailed IndexError
              | Some row =>
                  match readout_of df (Z.to_nat point_index) row with
                  | Ok r => Shown r
                  | Raise e => ParseFailed e
                  end
              end
        end
    end.
Proof.
  intros H. apply String.eqb_neq in H. unfold display_hover. by rewrite H.
Qed.

Lemma display_hover_shown py st points symbol period r :
  display_hover py st (Some (Some points)) symbol period = Shown r ->
  exists df k row,
    pipeline py st (normalize symbol) period = Ok df /\
    first_point_index points = Some k /\
    rows df !! Z.to_nat k = Some row /\
    readout_of df (Z.to_nat k) row = Ok r.
Proof.
  destruct (String.eqb symbol "") eqn:E.
  { unfold display_hover. by rewrite E. }
  apply String.eqb_neq in E. rewrite display_hover_pipeline by done.
  destruct (pipeline py st (normalize symbol) period) as [df|e]; [|discriminate].
  destruct (first_point_index points) as [k|]; [|discriminate].
  destruct ((k <? 0) || (Z.of_nat (length (rows df)) <=? k)); [discriminate|].
  destruct (rows df !! Z.to_nat k) as [row|] eqn:Hrow; [|discriminate].
  destruct (readout_of df (Z.to_nat k) row) as [r'|e] eqn:Hr; [|discriminate].
  intros [= <-]. by exists df, k, row.
Qed.



(** The rows of a resampled series carry period ends as dates. *)
Lemma resampled_dates key period_end bars :
  Forall (fun r => exists k, date r = period_end k)
         (dropna (resample_agg key period_end bars)).
Proof.
  unfold resample_agg. rewrite dropna_map.
  eapply Forall_impl; [apply emit_dates|].
  cbn. intros r (k & _ & Hd). by exists k.
Qed.




(** C8. Without a pointer event, or with an event that carries no points,
    the hover callback returns the "awaiting" placeholder.  When the series
    has been computed and the pointer gives no row index, or one outside the
    series, it returns the "cannot locate" placeholder.  In every case the
    callback returns a view: the exceptions of the calls it makes are turned
    into placeholders. *)
Theorem C8_hover_placeholders
    (py : pandas) (st : store) (symbol period : string) :
  display_hover py st None symbol period = AwaitingHover /\
  display_hover py st (Some None) symbol period = AwaitingHover /\
  (forall points df,
      symbol <> "" ->
      pipeline py st (normalize symbol) period = Ok df ->
      (first_point_index points = None \/
       exists i, first_point_index points = Some i /\
                 (i < 0 \/ Z.of_nat (length (rows df)) <= i)) ->
      display_hover py st (Some (Some points)) symbol period = CannotLocate) /\
  (forall hoverData,
      exists view : hover_view,
        display_hover py st hoverData symbol period = view).
Proof.
  split; [done|]. split; [done|]. split; [|by eauto].
  intros points df Hne Hp Hk. rewrite display_hover_pipeline, Hp by done.
  destruct Hk as [->|(i & -> & Hi)]; [done|].
  assert ((i <? 0) || (Z.of_nat (length (rows df)) <=? i) = true) as ->; [|done].
  apply orb_true_iff. destruct Hi as [Hi|Hi]; [left; lia | right; lia].
Qed.

Lemma C8_hover_placeholders_witness :
  display_hover sample_py sample_store (pointer_at 5) "000007" "weekly"
  = CannotLocate.
Proof.
  assert (exists df,
             pipeline sample_py sample_store (normalize "000007") "weekly"
             = Ok df /\
             length (rows df) = 2%nat) as (df & E & Hlen).
  { eexists. split; [vm_compute; reflexivity | reflexivity]. }
  destruct (C8_hover_placeholders sample_py sample_store "000007" "weekly")
    as (_ & _ & H & _).
  apply (H [Point None; Point (Some 5)] df).
  - discriminate.
  - exact E.
  - right. exists 5. split; [reflexivity|]. right. rewrite Hlen. lia.
Defined.




(** ** Effects on the caller's frame *)

Lemma obj_add_ma py ws : forall (h : gmap nat frame) (df : nat) (f : frame),
  h !! df = Some f ->
  Obj.add_ma py h df ws = Some (<[df := add_ma py f ws]> h, df).
Proof.
  induction ws as [|w ws IH]; intros h df f Hf; cbn [Obj.add_ma].
  - rewrite Hf. cbn [add_ma fold_left]. by rewrite insert_id.
  - unfold Obj.set_ma. rewrite Hf.
    rewrite (IH _ _ (add_ma_step py f w)) by apply lookup_insert_eq.
    by rewrite insert_insert_eq, add_ma_cons.
Qed.

Lemma obj_resample_ok (h : gmap nat frame) (df : nat) (f g : frame) period :
  h !! df = Some f ->
  resample_k_data f period = Ok g ->
  exists r, Obj.resample_k_data h df period = Some (<[r := g]> h, Ok r) /\
            h !! r = None.
Proof.
  intros Hf Hg. unfold Obj.resample_k_data, Obj.alloc. rewrite Hf, Hg.
  exists (fresh (dom h)). split; [done|].
  apply not_elem_of_dom, is_fresh.
Qed.

(** C9, as the code has it.  Both computations are functions of the
    contents of the frame they are given.  [resample_k_data] leaves every
    frame of the heap as it was, the caller's included, and returns a new
    frame.  [add_ma] writes into the caller's frame and returns that same
    frame: rows and the date column stay, every requested column ["MA{w}"]
    is added or replaced by the rolling mean, the other MA columns and the
    other frames stay. *)
Theorem C9_frame_effects
    (py : pandas) (h : gmap nat frame) (df : nat) (f : frame)
    (period : string) (windows : list nat) :
  h !! df = Some f ->
  (exists h1 res,
      Obj.resample_k_data h df period = Some (h1, res) /\
      (forall r g, h !! r = Some g -> h1 !! r = Some g) /\
      match res with
      | Ok r => h !! r = None /\
                exists g, resample_k_data f period = Ok g /\ h1 !! r = Some g
      | Raise e => h1 = h /\ resample_k_data f period = Raise e
      end) /\
  (exists h2,
      Obj.add_ma py h df windows = Some (h2, df) /\
      h2 !! df = Some (add_ma py f windows) /\
      (forall r, r <> df -> h2 !! r = h !! r) /\
      rows (add_ma py f windows) = rows f /\
      date_col (add_ma py f windows) = date_col f /\
      (forall w, In w windows ->
                 get_col w (ma_cols (add_ma py f windows))
                 = Some (rolling_mean py w (map close (rows f)))) /\
      (forall w, ~ In w windows ->
                 get_col w (ma_cols (add_ma py f windows))
                 = get_col w (ma_cols f))).
Proof.
  intros Hf. split.
  - destruct (resample_k_data f period) as [g|e] eqn:Hg.
    + destruct (obj_resample_ok h df f g period Hf Hg) as (r & Hr & Hfresh).
      exists (<[r := g]> h), (Ok r). split; [done|]. split.
      * intros r' g' Hr'. rewrite lookup_insert_ne; [done|]. congruence.
      * split; [done|]. exists g. split; [done|]. apply lookup_insert_eq.
    + exists h, (Raise e). unfold Obj.resample_k_data. rewrite Hf, Hg.
      by repeat split.
  - exists (<[df := add_ma py f windows]> h).
    split; [by apply obj_add_ma|]. split; [apply lookup_insert_eq|].
    split; [intros r Hr; by apply lookup_insert_ne|].
    split; [apply add_ma_rows|]. split; [apply add_ma_date_col|].
    split.
    + intros w Hw. apply add_ma_get_col. by left.
    + intros w Hw. by apply add_ma_get_col_other.
Qed.

Lemma C9_frame_effects_witness :
  exists h2,
    Obj.add_ma sample_py {[ 0%nat := one_day_frame ]} 0 [3%nat]
    = Some (h2, 0%nat) /\
    h2 !! 0%nat = Some (add_ma sample_py one_day_frame [3%nat]).
Proof.
  destruct (C9_frame_effects sample_py {[ 0%nat := one_day_frame ]} 0
              one_day_frame "weekly" [3%nat]) as (_ & h2 & H1 & H2 & _).
  - apply lookup_singleton_eq.
  - by exists h2.
Defined.

(** C9, as stated, fails for [add_ma]: the caller's frame has new columns
    after the call. *)
Lemma C9_counterexample :
  exists h2,
    Obj.add_ma sample_py {[ 0%nat := one_day_frame ]} 0 MA_WINDOWS
    = Some (h2, 0%nat) /\
    h2 !! 0%nat <> Some one_day_frame /\
    (ma_cols <$> h2 !! 0%nat)
    = Some [(3, [None]); (5, [None]); (8, [None]); (13, [None]);
            (21, [None]); (34, [None]); (55, [None])]%nat.
Proof.
  eexists. split.
  - apply obj_add_ma, lookup_singleton_eq.
  - rewrite lookup_insert_eq. split; [discriminate | reflexivity].
Qed.

(** ** The batch download loop *)

(** *** Lists taken by position *)

Lemma omap_lookup_seq {A} (l : list A) k :
  omap (fun i => l !! (i - k)%nat) (seq k (length l)) = l.
Proof.
  revert k. induction l as [|a l IH]; intros k; [done|].
  cbn [length seq omap list_omap]. rewrite Nat.sub_diag. cbn [lookup list_lookup].
  f_equal.
  rewrite <- (IH (S k)) at 2. apply list_omap_ext, Forall2_same_length_lookup.
  split; [done|]. intros i x y Hx Hy. rewrite Hx in Hy. injection Hy as <-.
  apply lookup_seq in Hx as [-> _].
  by replace (S k + i - k)%nat with (S (S k + i - S k)) by lia.
Qed.

Lemma take_rows_Permutation {A} (idx : list nat) (l : list A) :
  idx ≡ₚ seq 0 (length l) -> take_rows idx l ≡ₚ l.
Proof.
  intros H. unfold take_rows. rewrite H.
  assert (omap (fun i => l !! i) (seq 0 (length l)) = l) as ->; [|done].
  etrans; [|apply (omap_lookup_seq l 0)].
  apply list_omap_ext, Forall2_same_length_lookup.
  split; [done|]. intros i x y Hx Hy. rewrite Hx in Hy. injection Hy as <-.
  by rewrite Nat.sub_0_r.
Qed.

Lemma take_rows_fmap {A B} (f : A -> B) (idx : list nat) (l : list A) :
  take_rows idx (map f l) = map f (take_rows idx l).
Proof.
  unfold take_rows. change (map f l) with (f <$> l).
  induction idx as [|i idx IH]; [done|]. cbn [omap list_omap].
  rewrite list_lookup_fmap. destruct (l !! i); cbn; by rewrite <- IH.
Qed.

Lemma omap_all {A B} (f : A -> option B) (g : A -> B) (l : list A) :
  Forall (fun a => f a = Some (g a)) l -> omap f l = map g l.
Proof.
  induction 1 as [|a l Ha _ IH]; [done|]. cbn. by rewrite Ha, IH.
Qed.

Lemma take_rows_pairs {A} (l : list (nat * A)) (keys : list A) :
  Forall (fun p => keys !! fst p = Some (snd p)) l ->
  take_rows (map fst l) keys = map snd l.
Proof.
  unfold take_rows. induction 1 as [|p l Hp _ IH]; [done|].
  cbn [map omap list_omap]. by rewrite Hp, IH.
Qed.

Lemma sorted_map_snd (l : list (nat * Z)) :
  StronglySorted (fun a b => snd a <= snd b) l ->
  StronglySorted Z.le (map snd l).
Proof.
  induction 1 as [|p l _ IH Hp]; [constructor|]. cbn [map].
  constructor; [done|]. by apply Forall_map_iff.
Qed.

(** The stable sort of the examples is a sort. *)
Lemma stable_argsort_sorts : sorts stable_argsort.
Proof.
  intros keys. unfold stable_argsort.
  set (l := imap (fun i k => (i, k)) keys).
  pose proof (sort_by_Permutation snd l) as Hp.
  pose proof (sort_by_sorted snd l) as Hs.
  assert (Forall (fun p => keys !! fst p = Some (snd p)) (sort_by snd l))
    as Hl.
  { rewrite Hp. apply Forall_forall. intros [i k] Hin.
    apply elem_of_lookup_imap in Hin as (i' & k' & [= -> ->] & H). done. }
  split.
  - change (map fst ?x) with (fst <$> x). rewrite Hp. subst l.
    assert (fst <$> imap (fun i k => (i, k)) keys = seq 0 (length keys))
      as ->; [|done].
    apply list_eq. intros i.
    rewrite list_lookup_fmap, list_lookup_imap.
    destruct (keys !! i) as [k|] eqn:E; cbn.
    + symmetry. apply lookup_seq. split; [done|]. by eapply lookup_lt_Some.
    + symmetry. apply lookup_ge_None. rewrite length_seq.
      by apply lookup_ge_None.
  - rewrite take_rows_pairs by done. by apply sorted_map_snd.
Qed.

Section DownloaderFacts.

Import Downloader.

Variable py : pandas.
Variable disk : nat -> option exn.

Abbreviation kline fetch code := (get_kline_data py fetch code).

(** *** The positions of a column name *)

Lemma positions_from_shift i name cols :
  positions_from (S i) name cols = map S (positions_from i name cols).
Proof.
  revert i. induction cols as [|c cols IH]; intros i; cbn; [done|].
  destruct (String.eqb c name); cbn; by rewrite IH.
Qed.

Lemma positions_nth name cols p :
  In p (positions name cols) -> nth p cols "" = name.
Proof.
  unfold positions. revert p.
  induction cols as [|c cols IH]; intros p; cbn; [done|].
  rewrite positions_from_shift. destruct (String.eqb c name) eqn:E.
  - intros [<-|Hp]; [by apply String.eqb_eq|].
    apply in_map_iff in Hp as (q & <- & Hq). by apply IH.
  - intros Hp. apply in_map_iff in Hp as (q & <- & Hq). by apply IH.
Qed.

Lemma positions_In name cols :
  In name cols <-> positions name cols <> [].
Proof.
  unfold positions. generalize 0%nat.
  induction cols as [|c cols IH]; intros i; cbn; [by split|].
  destruct (String.eqb c name) eqn:E.
  - apply String.eqb_eq in E. split; [done | by left].
  - apply String.eqb_neq in E. rewrite <- IH. split; [by intros [?|?] | by right].
Qed.

Lemma positions_from_repeat name k l i :
  positions_from i name (repeat name k ++ l)%list
  = (seq i k ++ positions_from (i + k) name l)%list.
Proof.
  revert i. induction k as [|k IH]; intros i; cbn.
  - by rewrite Nat.add_0_r.
  - by rewrite String.eqb_refl, IH, Nat.add_succ_r.
Qed.

Lemma positions_from_other name l i :
  ~ In name l -> positions_from i name l = [].
Proof.
  revert i. induction l as [|c l IH]; intros i Hn; [done|]. cbn.
  destruct (String.eqb c name) eqn:E.
  - apply String.eqb_eq in E. destruct Hn. by left.
  - apply IH. intros H. apply Hn. by right.
Qed.

Lemma in_flat_repeat name names (m : string -> nat) :
  In name (flat_map (fun n => repeat n (m n)) names) -> In name names.
Proof.
  induction names as [|n names IH]; cbn; [done|].
  intros [H|H]%in_app_or; [|right; by apply IH].
  left. by apply repeat_spec in H.
Qed.

(** *** Selecting the six columns *)

Lemma collect_ok {A B} (f : A -> result B) (g : A -> B) l :
  Forall (fun a => f a = Ok (g a)) l -> collect f l = Ok (map g l).
Proof.
  induction 1 as [|a l Ha _ IH]; [done|]. cbn [collect map].
  by rewrite Ha, IH.
Qed.


Lemma map_nth_positions name cols :
  map (fun i => nth i cols "") (positions name cols)
  = repeat name (length (positions name cols)).
Proof.
  pose proof (positions_nth name cols) as H.
  induction (positions name cols) as [|p ps IH]; [done|]. cbn.
  rewrite (H p) by (by left). f_equal. apply IH. intros q Hq. apply H.
  by right.
Qed.

(** [df[names]] when every name is a column: every column of each name, in
    the order of [names]. *)
Lemma select_eq names df :
  Forall (fun n => In n (columns df)) names ->
  select names df
  = Ok {| columns :=
            flat_map (fun n => repeat n (length (positions n (columns df))))
                     names;
          trows :=
            map (fun r =>
                   map (fun i => nth i r (CStr ""))
                       (flat_map (fun n => positions n (columns df)) names))
                (trows df) |}.
Proof.
  intros H. unfold select.
  rewrite (collect_ok _ (fun n => positions n (columns df))).
  - cbn [bind]. rewrite <- flat_map_concat_map. do 2 f_equal.
    clear H. induction names as [|n names IH]; [done|]. cbn [flat_map].
    by rewrite map_app, IH, map_nth_positions.
  - eapply Forall_impl; [exact H|]. cbn. intros n Hn.
    apply positions_In in Hn. by destruct (positions n (columns df)).
Qed.


(** *** The table a fetch gives *)

Abbreviation other_columns := (tl KLINE_COLUMNS).

Lemma header_positions cols :
  positions "date"
    (flat_map (fun n => repeat n (length (positions n cols))) KLINE_COLUMNS)
  = seq 0 (length (positions "date" cols)).
Proof.
  set (m := fun n => length (positions n cols)).
  change (length (positions "date" cols)) with (m "date").
  unfold positions. change KLINE_COLUMNS with ("date" :: other_columns).
  cbn [flat_map]. rewrite positions_from_repeat.
  rewrite (positions_from_other "date" (flat_map _ other_columns)).
  - apply app_nil_r.
  - intros H. apply in_flat_repeat in H. cbn in H.
    destruct H as [H|[H|[H|[H|[H|[]]]]]]; discriminate.
Qed.

Lemma header_names cols names :
  Forall (fun n => In n cols) names ->
  Forall (fun n =>
            In n (flat_map (fun n => repeat n (length (positions n cols)))
                           names))
         names.
Proof.
  rewrite !List.Forall_forall. intros H n Hn. apply in_flat_map. exists n.
  split; [done|]. apply H, positions_In in Hn.
  destruct (positions n cols); [done | by left].
Qed.

Lemma filter_complement {A} (f : A -> bool) (l : list A) :
  (List.filter f l ++ List.filter (fun a => negb (f a)) l)%list ≡ₚ l.
Proof.
  induction l as [|a l IH]; [done|]. cbn. destruct (f a); cbn.
  - by rewrite IH.
  - by rewrite <- Permutation_middle, IH.
Qed.

Lemma Forall_filter {A} (f : A -> bool) (l : list A) :
  Forall (fun a => f a = true) (List.filter f l).
Proof.
  induction l as [|a l IH]; [constructor|]. cbn.
  destruct (f a) eqn:E; [by constructor | done].
Qed.

Lemma has_date_default j r :
  has_date j r = true -> date_at j r = Some (default 0 (date_at j r)).
Proof. unfold has_date. by destruct (date_at j r). Qed.

(** The columns of the renamed provider table that are kept besides the
    date, by position. *)
Abbreviation kept raw :=
  (flat_map (fun n => positions n (columns (rename raw))) other_columns).

(** The rows after selection and coercion of the dates. *)
Abbreviation coerced raw ds :=
  (imap (fun k r => date_cell (mjoin (ds !! k))
                    :: map (fun c => nth c r (CStr "")) (kept raw))
        (trows raw)).

(** The rows after [sort_values]. *)
Abbreviation sorted_rows crows :=
  (take_rows (argsort py (omap (date_at 0) (List.filter (has_date 0) crows)))
             (List.filter (has_date 0) crows)
   ++ List.filter (fun r => negb (has_date 0 r)) crows)%list.

(** [get_kline_data] returns a table exactly when the provider answers
    with a table that, renamed, holds each of the six columns and the date
    once, and the dates coerce. *)
Lemma get_kline_data_eq fetch code raw j ds :
  fetch code = Ok raw ->
  Forall (fun n => In n (columns (rename raw))) KLINE_COLUMNS ->
  positions "date" (columns (rename raw)) = [j] ->
  to_datetime py (map (fun r => nth j r (CStr "")) (trows raw)) = Ok ds ->
  kline fetch code
  = Some {| columns :=
              "date"
              :: flat_map
                   (fun n =>
                      repeat n (length (positions n (columns (rename raw)))))
                   other_columns;
            trows := sorted_rows (coerced raw ds) |}.
Proof.
  intros Hf Hc Hj Hd. unfold get_kline_data. rewrite Hf. cbn [bind].
  rewrite select_eq by done. cbn [bind].
  pose proof (header_positions (columns (rename raw))) as Hp.
  rewrite Hj in Hp. cbn [length seq] in Hp.
  unfold coerce_dates. cbn [columns trows]. rewrite Hp.
  assert (flat_map (fun n => positions n (columns (rename raw))) KLINE_COLUMNS
          = j :: kept raw) as ->.
  { unfold KLINE_COLUMNS. cbn [flat_map tl]. by rewrite Hj. }
  change (trows (rename raw)) with (trows raw).
  rewrite map_map. cbn [map nth]. rewrite Hd. cbn [bind].
  unfold sort_values. cbn [columns trows]. rewrite Hp.
  do 2 f_equal.
  - unfold KLINE_COLUMNS. cbn [flat_map tl]. by rewrite Hj.
  - change (map ?f (trows raw)) with (f <$> trows raw).
    by rewrite imap_fmap.
Qed.


(** *** Sorting by date *)

Lemma sorted_rows_shape (crows : list (list cell)) :
  sorts (argsort py) ->
  exists dated,
    sorted_rows crows
    = (dated ++ List.filter (fun r => negb (has_date 0 r)) crows)%list /\
    dated ≡ₚ List.filter (has_date 0) crows /\
    Forall (fun r => has_date 0 r = true) dated /\
    StronglySorted Z.le (omap (date_at 0) dated) /\
    sorted_rows crows ≡ₚ crows.
Proof.
  intros Hs.
  set (dated := List.filter (has_date 0) crows).
  set (g := fun r : list cell => default 0 (date_at 0 r)).
  assert (Forall (fun r => has_date 0 r = true) dated) as Hd
    by apply Forall_filter.
  assert (omap (date_at 0) dated = map g dated) as Hk.
  { apply omap_all. eapply Forall_impl; [exact Hd|]. cbn.
    apply has_date_default. }
  destruct (Hs (omap (date_at 0) dated)) as (Hperm & Hsorted).
  assert (take_rows (argsort py (omap (date_at 0) dated)) dated ≡ₚ dated)
    as Hp.
  { apply take_rows_Permutation. by rewrite Hperm, Hk, length_map. }
  exists (take_rows (argsort py (omap (date_at 0) dated)) dated).
  split; [done|]. split; [done|]. split; [by rewrite Hp|]. split.
  - rewrite (omap_all _ g).
    + rewrite <- take_rows_fmap. by rewrite <- Hk.
    + rewrite Hp. eapply Forall_impl; [exact Hd|]. cbn.
      apply has_date_default.
  - rewrite Hp. apply filter_complement.
Qed.

(** The first row after sorting holds the earliest date. *)
Lemma sorted_rows_head (crows : list (list cell)) d0 :
  sorts (argsort py) ->
  In (Some d0) (map (date_at 0) crows) ->
  Forall (fun o => forall d, o = Some d -> d0 <= d) (map (date_at 0) crows) ->
  exists r rest,
    sorted_rows crows = r :: rest /\ date_at 0 r = Some d0.
Proof.
  intros Hs Hin Hmin.
  destruct (sorted_rows_shape crows Hs) as (dated & -> & Hp & Hd & Hsorted & _).
  apply in_map_iff in Hin as (r0 & Hr0 & Hin).
  assert (r0 ∈ dated) as Hr0d.
  { rewrite Hp. apply list_elem_of_In, filter_In. split; [done|].
    unfold has_date. by rewrite Hr0. }
  assert (forall r d, r ∈ dated -> date_at 0 r = Some d -> d0 <= d) as Hle.
  { intros r d Hr Hrd. rewrite Hp in Hr.
    apply list_elem_of_In, filter_In in Hr as [Hr _].
    rewrite Forall_forall in Hmin. apply (Hmin (Some d)); [|done].
    apply list_elem_of_In, in_map_iff. by exists r. }
  destruct dated as [|r rest]; [by apply elem_of_nil in Hr0d|].
  exists r, (rest ++ List.filter (fun r => negb (has_date 0 r)) crows)%list.
  split; [done|].
  inversion Hd as [|? ? Hr _]; subst.
  destruct (date_at 0 r) as [d|] eqn:Hrd;
    [|unfold has_date in Hr; by rewrite Hrd in Hr].
  f_equal. apply Z.le_antisymm.
  - cbn [omap list_omap] in Hsorted. rewrite Hrd in Hsorted.
    apply StronglySorted_inv in Hsorted as [_ Hall].
    apply elem_of_cons in Hr0d as [->|Hr0d];
      [assert (d = d0) by congruence; lia|].
    rewrite Forall_forall in Hall. apply Hall.
    apply list_elem_of_omap. by exists r0.
  - apply (Hle r); [by left | done].
Qed.

Lemma coerced_dates raw ds :
  length ds = length (trows raw) ->
  map (date_at 0) (coerced raw ds) = ds.
Proof.
  intros Hlen. change (map ?f ?l) with (f <$> l). apply list_eq. intros k.
  rewrite list_lookup_fmap, list_lookup_imap.
  destruct (trows raw !! k) as [r|] eqn:Hr; cbn.
  - destruct (lookup_lt_is_Some_2 ds k) as [o Ho].
    { rewrite Hlen. by eapply lookup_lt_Some. }
    rewrite Ho. cbn. by destruct o.
  - symmetry. apply lookup_ge_None. rewrite Hlen. by apply lookup_ge_None.
Qed.

(** *** One turn of the loop *)

Lemma step_skip provider s i code :
  has_artifact (dir s) code = true ->
  step py provider disk s i code
  = {| counts := Tally (success_count (counts s)) (fail_count (counts s))
                       (S (skip_count (counts s)));
       dir := dir s;
       requests := requests s;
       progress := (progress s ++ [(code, Skipped)])%list;
       raised := None |}.
Proof.
  unfold has_artifact, step. by destruct (existing_files (dir s) code).
Qed.

Lemma step_fail provider s i code :
  has_artifact (dir s) code = false ->
  fetch_failed (kline (provider i) code) = true ->
  step py provider disk s i code
  = {| counts := Tally (success_count (counts s)) (S (fail_count (counts s)))
                       (skip_count (counts s));
       dir := dir s;
       requests := (requests s ++ [code])%list;
       progress := (progress s ++ [(code, Failed)])%list;
       raised := None |}.
Proof.
  unfold has_artifact, step, fetch_failed.
  destruct (existing_files (dir s) code); [|discriminate]. intros _.
  destruct (kline (provider i) code) as [t|]; [|done].
  by destruct (trows t).
Qed.

Lemma step_success provider s i code df filename :
  has_artifact (dir s) code = false ->
  kline (provider i) code = Some df ->
  trows df <> [] ->
  artifact_name code df = Ok filename ->
  disk i = None ->
  step py provider disk s i code
  = {| counts := Tally (S (success_count (counts s))) (fail_count (counts s))
                       (skip_count (counts s));
       dir := (dir s ++ [(filename, df)])%list;
       requests := (requests s ++ [code])%list;
       progress := (progress s ++ [(code, Succeeded filename)])%list;
       raised := None |}.
Proof.
  unfold has_artifact, step.
  destruct (existing_files (dir s) code); [|discriminate].
  intros _ -> Hne -> ->. by destruct (trows df).
Qed.

Lemma string_app_assoc (a b c : string) : (a ++ b) ++ c = a ++ (b ++ c).
Proof.
  induction a as [|x a IH]; [done|].
  change (String x ((a ++ b) ++ c) = String x (a ++ (b ++ c))). by rewrite IH.
Qed.

Lemma prefix_app (p s : string) : String.prefix p (p ++ s) = true.
Proof.
  induction p as [|x p IH]; [by destruct s|].
  change (String.prefix (String x p) (String x (p ++ s)) = true).
  cbn [String.prefix]. by destruct (ascii_dec x x).
Qed.




(** The name the loop composes: the symbol, the number of rows and the
    date of the first row. *)
Lemma artifact_name_eq code df r rest d :
  positions "date" (columns df) = [0%nat] ->
  trows df = r :: rest ->
  date_at 0 r = Some d ->
  in_calendar d = true ->
  artifact_name code df
  = Ok ("Ashare_" ++ code ++ "_" ++ pretty (length (trows df)) ++ "_"
        ++ format_Ymd d ++ ".csv").
Proof.
  intros Hp Hr Hd Hc. unfold artifact_name, start_date, strftime_Ymd.
  by rewrite Hp, Hr, Hd, Hc.
Qed.

Lemma artifact_name_inv code df filename :
  artifact_name code df = Ok filename ->
  exists start,
    start_date df = Ok start /\
    filename = "Ashare_" ++ code ++ "_" ++ pretty (length (trows df)) ++ "_"
               ++ start ++ ".csv".
Proof.
  unfold artifact_name. destruct (start_date df) as [start|e]; [|done].
  cbn [bind]. intros [= <-]. by exists start.
Qed.

Lemma artifact_name_prefix code df filename :
  artifact_name code df = Ok filename ->
  startswith (artifact_prefix code) filename = true.
Proof.
  intros (start & _ & ->)%artifact_name_inv.
  unfold startswith, artifact_prefix.
  set (rest := pretty (length (trows df)) ++ "_" ++ start ++ ".csv").
  replace ("Ashare_" ++ code ++ "_" ++ rest)
    with (("Ashare_" ++ code ++ "_") ++ rest).
  - apply prefix_app.
  - by rewrite !string_app_assoc.
Qed.


Lemma has_artifact_app d x code :
  has_artifact d code = true -> has_artifact (d ++ x) code = true.
Proof.
  unfold has_artifact, existing_files. rewrite List.filter_app.
  by destruct (List.filter _ d).
Qed.

Lemma has_artifact_new d code df filename :
  artifact_name code df = Ok filename ->
  has_artifact (d ++ [(filename, df)]) code = true.
Proof.
  intros H. unfold has_artifact, existing_files. rewrite List.filter_app.
  cbn [List.filter fst]. rewrite (artifact_name_prefix _ _ _ H).
  by destruct (List.filter _ d).
Qed.

Lemma filter_nil_Forall {A} (f : A -> bool) l :
  List.filter f l = [] <-> Forall (fun a => f a = false) l.
Proof.
  split; [|apply filter_none].
  induction l as [|a l IH]; [constructor|]. cbn.
  destruct (f a) eqn:E; [discriminate|]. intros H. constructor; auto.
Qed.

(** One turn of the loop, by the line it prints or the exception that
    stops it. *)
Lemma step_trace provider s i code :
  let s' := step py provider disk s i code in
  match outcome_against py (dir s) (provider i) (disk i) code with
  | Ok o =>
      raised s' = None /\
      progress s' = (progress s ++ [(code, o)])%list /\
      success_count (counts s')
      = (if is_succeeded o then S (success_count (counts s))
         else success_count (counts s)) /\
      fail_count (counts s')
      = (if is_failed o then S (fail_count (counts s))
         else fail_count (counts s)) /\
      skip_count (counts s')
      = (if is_skipped o then S (skip_count (counts s))
         else skip_count (counts s)) /\
      requests s'
      = (if is_skipped o then requests s else (requests s ++ [code])%list) /\
      match o with
      | Skipped => dir s' = dir s /\ has_artifact (dir s) code = true
      | Failed => dir s' = dir s /\ has_artifact (dir s) code = false
      | Succeeded f =>
          exists df,
            dir s' = (dir s ++ [(f, df)])%list /\
            kline (provider i) code = Some df /\
            artifact_name code df = Ok f /\
            (f ∉ map fst (dir s)) /\ has_artifact (dir s) code = false
      end
  | Raise e =>
      raised s' = Some e /\
      progress s' = progress s /\
      counts s' = counts s /\
      dir s' = dir s /\
      requests s' = (requests s ++ [code])%list /\
      has_artifact (dir s) code = false
  end.
Proof.
  unfold step, outcome_against, has_artifact.
  destruct (existing_files (dir s) code) as [|x xs] eqn:Hex; cbn zeta;
    [|by repeat split].
  destruct (get_kline_data py (provider i) code) as [df|] eqn:Hk;
    [|by repeat split].
  destruct (trows df) as [|r rs] eqn:Hrows; [by repeat split|].
  destruct (artifact_name code df) as [f|e] eqn:Hn; cbn [bind];
    [|by repeat split].
  destruct (disk i) as [e|]; [by repeat split|].
  cbn. do 6 (split; [done|]).
  exists df. split; [done|]. split; [done|]. split; [done|]. split; [|done].
  intros Hin. apply list_elem_of_fmap in Hin as ([name t] & Hname & Hin).
  cbn [fst] in Hname.
  apply filter_nil_Forall in Hex. rewrite Forall_forall in Hex.
  specialize (Hex _ Hin). cbn [fst] in Hex.
  rewrite <- Hname, (artifact_name_prefix _ _ _ Hn) in Hex. discriminate.
Qed.

(** A turn takes back no file and no line. *)
Lemma step_keeps provider s i code :
  (forall c, has_artifact (dir s) c = true ->
             has_artifact (dir (step py provider disk s i code)) c = true) /\
  (forall p, In p (progress s) ->
             In p (progress (step py provider disk s i code))).
Proof.
  pose proof (step_trace provider s i code) as H. cbn zeta in H.
  destruct (outcome_against py (dir s) (provider i) (disk i) code) as [o|e].
  - destruct H as (_ & -> & _ & _ & _ & _ & H). split.
    + destruct o as [| |f]; [by destruct H as [-> _]..|].
      destruct H as (df & -> & _). intros c. apply has_artifact_app.
    + intros p Hp. apply in_or_app. by left.
  - by destruct H as (_ & -> & _ & -> & _).
Qed.

(** *** The loop *)

(** A property of the codes tried so far and the state, kept by every
    turn, holds when the loop ends; when no exception stopped it, every
    code was tried. *)
Lemma loop_invariant (P : list string -> state -> Prop) provider codes :
  (forall past s i c,
      raised s = None -> P past s ->
      P (past ++ [c])%list (step py provider disk s i c)) ->
  forall past s i,
    raised s = None -> P past s ->
    exists tried rest,
      codes = (tried ++ rest)%list /\
      P (past ++ tried)%list (loop py provider disk s i codes) /\
      (raised (loop py provider disk s i codes) = None -> rest = []).
Proof.
  intros Hstep. induction codes as [|c codes IH]; intros past s i Hr HP.
  - exists [], []. cbn [loop]. by rewrite !app_nil_r.
  - cbn [loop].
    destruct (raised (step py provider disk s i c)) as [e|] eqn:E.
    + exists [c], codes. rewrite E. split; [done|]. split; [|done].
      by apply Hstep.
    + destruct (IH (past ++ [c])%list (step py provider disk s i c) (S i) E)
        as (tried & rest & -> & H1 & H2); [by apply Hstep|].
      exists (c :: tried), rest. split; [done|].
      by rewrite <- app_assoc in H1.
Qed.

(** The loop when every symbol without a file fails its fetch: the
    directory stays, each symbol is counted as skipped or failed. *)
Lemma loop_all_fail provider d codes : forall s i,
  dir s = d ->
  raised s = None ->
  (forall j code, In code codes -> has_artifact d code = false ->
                  fetch_failed (kline (provider j) code) = true) ->
  loop py provider disk s i codes
  = {| counts :=
         Tally (success_count (counts s))
               (fail_count (counts s)
                + length (List.filter (fun c => negb (has_artifact d c)) codes))
               (skip_count (counts s)
                + length (List.filter (has_artifact d) codes));
       dir := d;
       requests :=
         (requests s
          ++ List.filter (fun c => negb (has_artifact d c)) codes)%list;
       progress := (progress s ++ map (skipped_or_failed d) codes)%list;
       raised := None |}.
Proof.
  induction codes as [|code codes IH]; intros s i Hd Hr Hfail.
  - cbn. rewrite !Nat.add_0_r, !app_nil_r, <- Hd, <- Hr. by destruct s as [[]].
  - cbn [loop]. destruct (has_artifact d code) eqn:E.
    + rewrite step_skip by (by rewrite Hd). cbn [raised]. rewrite IH.
      * cbn [counts dir requests progress success_count fail_count skip_count
             List.filter map]. unfold skipped_or_failed at 2.
        rewrite E. cbn [negb length]. rewrite <- !app_assoc.
        by rewrite Nat.add_succ_comm.
      * done.
      * done.
      * intros j c Hc. apply Hfail. by right.
    + rewrite step_fail.
      * cbn [raised]. rewrite IH.
        -- cbn [counts dir requests progress success_count fail_count
                skip_count List.filter map]. unfold skipped_or_failed at 2.
           rewrite E. cbn [negb length]. rewrite <- !app_assoc.
           by rewrite Nat.add_succ_comm.
        -- done.
        -- done.
        -- intros j c Hc. apply Hfail. by right.
      * by rewrite Hd.
      * apply Hfail; [by left | done].
Qed.

Lemma filter_split_length {A} (f : A -> bool) (l : list A) :
  (length (List.filter (fun a => negb (f a)) l)
   = length l - length (List.filter f l))%nat.
Proof.
  induction l as [|a l IH]; [done|]. cbn.
  pose proof (filter_length_le f l).
  destruct (f a); cbn [negb length]; lia.
Qed.

(** After a run that no exception stopped, every symbol of the list has a
    file or was counted as failed. *)
Lemma run_covers provider d codes :
  raised (run py provider disk d codes) = None ->
  forall c, In c codes ->
    has_artifact (dir (run py provider disk d codes)) c = true \/
    In (c, Failed) (progress (run py provider disk d codes)).
Proof.
  unfold run.
  destruct (loop_invariant
              (fun past st =>
                 raised st = None ->
                 forall c, In c past ->
                   has_artifact (dir st) c = true \/
                   In (c, Failed) (progress st))
              provider codes) with
    (past := @nil string) (s := State (Tally 0 0 0) d [] [] None) (i := 1%nat)
    as (tried & rest & E & H & Hrest); [|done|by intros _ c []|].
  - intros past st i c Hst I Hr c' Hc'.
    pose proof (step_trace provider st i c) as H.
    pose proof (step_keeps provider st i c) as (K1 & K2).
    cbn zeta in H.
    apply in_app_or in Hc' as [Hc'|[<-|[]]].
    + destruct (I Hst c' Hc') as [H'|H']; [left; by apply K1|right; by apply K2].
    + destruct (outcome_against py (dir st) (provider i) (disk i) c)
        as [o|e]; [|destruct H as (H & _); congruence].
      destruct H as (_ & Hp & _ & _ & _ & _ & Hd).
      destruct o as [| |f].
      * left. destruct Hd as [-> Hd]. done.
      * right. rewrite Hp. apply in_or_app. right. by left.
      * left. destruct Hd as (df & -> & _ & Hn & _).
        by eapply has_artifact_new.
  - intros Hr c Hc. apply H; [done|].
    by rewrite E, (Hrest Hr), app_nil_r in Hc.
Qed.

End DownloaderFacts.

Import Downloader.

(** C4. When every symbol without a stored file fails its fetch (an
    exception or an empty table), the run over [N] symbols of which [M] have
    a file ends with the tally succeeded 0, failed [N - M], skipped [M]; the
    directory is unchanged, one line is printed per symbol, in order, and
    one request was sent per failed symbol.  A failure only moves the loop
    to the next symbol; no exception stops the run, and its final state is
    the summary. *)
Theorem C4_failure_accounting
    (py : pandas)
    (provider : nat -> string -> result table)
    (disk : nat -> option exn)
    (d : list (string * table)) (codes : list string) :
  (forall i code, In code codes -> has_artifact d code = false ->
     fetch_failed (get_kline_data py (provider i) code) = true) ->
  let s := run py provider disk d codes in
  let M := length (List.filter (has_artifact d) codes) in
  counts s = Tally 0 (length codes - M) M /\
  dir s = d /\
  progress s = map (skipped_or_failed d) codes /\
  requests s = List.filter (fun c => negb (has_artifact d c)) codes /\
  raised s = None /\
  (forall s0 i code rest,
      has_artifact (dir s0) code = false ->
      fetch_failed (get_kline_data py (provider i) code) = true ->
      loop py provider disk s0 i (code :: rest)
      = loop py provider disk
          {| counts := Tally (success_count (counts s0))
                             (S (fail_count (counts s0)))
                             (skip_count (counts s0));
             dir := dir s0;
             requests := (requests s0 ++ [code])%list;
             progress := (progress s0 ++ [(code, Failed)])%list;
             raised := None |}
          (S i) rest).
Proof.
  intros Hfail s M. unfold s, run.
  rewrite (loop_all_fail py disk provider d codes) by done.
  cbn [counts dir requests progress raised success_count fail_count
       skip_count app].
  rewrite filter_split_length. fold M.
  do 5 (split; [done|]).
  intros s0 i code rest E F. cbn [loop]. by rewrite step_fail.
Qed.

Lemma C4_failure_accounting_witness :
  counts (run sample_py (fun _ _ => Raise ProviderError) sample_disk
              [("Ashare_000001_2_20240530.csv", provider_table)]
              ["000001"; "000002"; "600000"])
  = Tally 0 2 1.
Proof.
  destruct (C4_failure_accounting sample_py (fun _ _ => Raise ProviderError)
              sample_disk
              [("Ashare_000001_2_20240530.csv", provider_table)]
              ["000001"; "000002"; "600000"]) as (H & _).
  - intros i code _ _. reflexivity.
  - exact H.
Defined.

(** C5, as the code has it.  A symbol for which some file bears its prefix
    is counted as skipped and no request is sent for it.  In a second run
    over the same list and the directory the first run left, no request is
    sent for a symbol that has a file and every line printed for it says
    "skipped"; it gets that line unless the run is stopped before its turn
    by an exception raised while another symbol's file is named or written.
    No symbol succeeds in the second run provided the first run was not
    stopped and the symbols that failed in it and still have no file fail
    again (they are fetched again): the second run is then not stopped
    either and leaves the directory as it was. *)
Theorem C5_skip_and_rerun
    (py : pandas)
    (provider1 provider2 : nat -> string -> result table)
    (disk1 disk2 : nat -> option exn)
    (d : list (string * table)) (codes : list string) :
  let s1 := run py provider1 disk1 d codes in
  let s2 := run py provider2 disk2 (dir s1) codes in
  (forall s i code,
      has_artifact (dir s) code = true ->
      step py provider1 disk1 s i code
      = {| counts := Tally (success_count (counts s)) (fail_count (counts s))
                           (S (skip_count (counts s)));
           dir := dir s;
           requests := requests s;
           progress := (progress s ++ [(code, Skipped)])%list;
           raised := None |}) /\
  (forall code,
      has_artifact (dir s1) code = true ->
      ~ In code (requests s2) /\
      (forall o, In (code, o) (progress s2) -> o = Skipped) /\
      (In code codes -> raised s2 = None ->
       In (code, Skipped) (progress s2))) /\
  (raised s1 = None ->
   (forall i code,
       In (code, Failed) (progress s1) ->
       has_artifact (dir s1) code = false ->
       fetch_failed (get_kline_data py (provider2 i) code) = true) ->
   raised s2 = None /\
   success_count (counts s2) = 0%nat /\
   dir s2 = dir s1 /\
   progress s2 = map (skipped_or_failed (dir s1)) codes).
Proof.
  intros s1 s2. split; [|split].
  - intros s i code. apply step_skip.
  - intros code Hart. unfold s2, run.
    destruct (loop_invariant py disk2
                (fun past st =>
                   has_artifact (dir st) code = true /\
                   ~ In code (requests st) /\
                   (forall o, In (code, o) (progress st) -> o = Skipped) /\
                   (In code past -> raised st = None ->
                    In (code, Skipped) (progress st)))
                provider2 codes) with
      (past := @nil string) (s := State (Tally 0 0 0) (dir s1) [] [] None)
      (i := 1%nat) as (tried & rest & E & (_ & H1 & H2 & H3) & Hrest);
      [|done|cbn; by repeat split; try intros ? []; try intros []|].
    + intros past st i c Hst (I0 & I1 & I2 & I3).
      pose proof (step_trace py disk2 provider2 st i c) as H.
      pose proof (step_keeps py disk2 provider2 st i c) as (K1 & K2).
      cbn zeta in H.
      split; [by apply K1|].
      destruct (outcome_against py (dir st) (provider2 i) (disk2 i) c)
        as [o|e].
      * destruct H as (Hr & Hp & _ & _ & _ & Hq & Hd).
        assert (c = code -> o = Skipped) as Hsk.
        { intros ->. destruct o as [| |f]; [done|..].
          - destruct Hd as [_ Hd]. congruence.
          - destruct Hd as (df & _ & _ & _ & _ & Hd). congruence. }
        split; [|split].
        -- rewrite Hq. destruct (is_skipped o) eqn:Eo; [done|].
           intros [Hin|[->|[]]]%in_app_or; [done|].
           rewrite Hsk in Eo by done. done.
        -- rewrite Hp. intros o' [Hin|[[= -> <-]|[]]]%in_app_or;
             [by apply I2 | by apply Hsk].
        -- rewrite Hp. intros [Hin|[->|[]]]%in_app_or _.
           ++ apply in_or_app. left. by apply I3.
           ++ apply in_or_app. right. left. by rewrite Hsk.
      * destruct H as (Hr & Hp & _ & _ & Hq & Hd).
        split; [|split].
        -- rewrite Hq. intros [Hin|[->|[]]]%in_app_or; [done|congruence].
        -- by rewrite Hp.
        -- intros _. by rewrite Hr.
    + rewrite app_nil_l in H3. split; [done|]. split; [done|].
      intros Hin Hr. apply H3; [|done].
      rewrite E, (Hrest Hr), app_nil_r in Hin. done.
  - intros Hr1 Hagain.
    assert (forall i code, In code codes ->
              has_artifact (dir s1) code = false ->
              fetch_failed (get_kline_data py (provider2 i) code)
              = true) as Hfail.
    { intros i code Hin Hart. apply Hagain; [|done].
      destruct (run_covers py disk1 provider1 d codes Hr1 code Hin)
        as [H'|H']; [|exact H'].
      fold s1 in H'. congruence. }
    unfold s2, run.
    rewrite (loop_all_fail py disk2 provider2 (dir s1) codes) by done.
    by cbn [counts dir progress raised success_count app].
Qed.

Lemma C5_skip_and_rerun_witness :
  let s1 := run sample_py sample_provider sample_disk []
                ["000001"; "000002"] in
  let s2 := run sample_py sample_provider sample_disk (dir s1)
                ["000001"; "000002"] in
  counts s1 = Tally 1 1 0 /\
  success_count (counts s2) = 0%nat /\
  progress s2 = [("000001", Skipped); ("000002", Failed)].
Proof.
  intros s1 s2.
  destruct (C5_skip_and_rerun sample_py sample_provider sample_provider
              sample_disk sample_disk [] ["000001"; "000002"])
    as (_ & _ & H).
  split; [vm_compute; reflexivity|].
  destruct H as (_ & H1 & _ & H3).
  - vm_compute. reflexivity.
  - intros i code Hin _. vm_compute in Hin.
    destruct Hin as [Hin|[Hin|[]]]; [discriminate|].
    by injection Hin as <-.
  - split; [exact H1|]. unfold s2, s1. rewrite H3. vm_compute. reflexivity.
Defined.

(** C5, as stated, fails when a symbol that failed in the first run is
    answered in the second: it has no file, is fetched again and succeeds. *)
Lemma C5_counterexample :
  let s1 := run sample_py (fun _ _ => Raise ProviderError) sample_disk []
                ["000001"] in
  let s2 := run sample_py (fun _ _ => Ok provider_table) sample_disk (dir s1)
                ["000001"] in
  progress s1 = [("000001", Failed)] /\
  raised s1 = None /\
  raised s2 = None /\
  success_count (counts s2) = 1%nat /\
  success_count (counts s2) <> 0%nat.
Proof.
  split; [reflexivity|]. split; [reflexivity|].
  split; [vm_compute; reflexivity|].
  split; [vm_compute; reflexivity | by vm_compute].
Qed.


(** C7, as the code has it.  Take a symbol without a stored file whose one
    fetch returns a table that, once the provider's column names are
    renamed, holds the six columns date, open, high, low, close, volume,
    the date once, and whose dates coerce, the earliest of them [d0] lying
    in the years 1 to 9999; let the library sort and the write go through.
    Then [get_kline_data] returns the table of those columns in that order
    (for the provider's header: date, then the provider's open, high, low,
    close and volume columns), with the dates coerced and the rows a
    rearrangement of the fetched ones: the rows with a date in ascending
    order of date, then the rows without one.  The loop writes this table
    under the name made of the symbol, the number of rows and the earliest
    date, and counts the symbol as succeeded. *)
Theorem C7_success_path
    (py : pandas) (provider : nat -> string -> result table)
    (disk : nat -> option exn)
    (s : state) (i : nat) (code : string) (raw : table)
    (j : nat) (ds : list (option Z)) (d0 : Z) :
  sorts (argsort py) ->
  has_artifact (dir s) code = false ->
  provider i code = Ok raw ->
  Forall (fun n => In n (columns (rename raw))) KLINE_COLUMNS ->
  positions "date" (columns (rename raw)) = [j] ->
  to_datetime py (map (fun r => nth j r (CStr "")) (trows raw)) = Ok ds ->
  length ds = length (trows raw) ->
  In (Some d0) ds ->
  Forall (fun o => forall d, o = Some d -> d0 <= d) ds ->
  in_calendar d0 = true ->
  disk i = None ->
  let kept :=
    flat_map (fun n => positions n (columns (rename raw)))
             ["open"; "high"; "low"; "close"; "volume"] in
  let coerced :=
    imap (fun k r => date_cell (mjoin (ds !! k))
                     :: map (fun c => nth c r (CStr "")) kept)
         (trows raw) in
  let filename :=
    "Ashare_" ++ code ++ "_" ++ pretty (length (trows raw)) ++ "_"
    ++ format_Ymd d0 ++ ".csv" in
  exists df,
    get_kline_data py (provider i) code = Some df /\
    columns df
    = flat_map (fun n => repeat n (length (positions n (columns (rename raw)))))
               KLINE_COLUMNS /\
    (Forall (fun n => length (positions n (columns (rename raw))) = 1%nat)
            KLINE_COLUMNS ->
     columns df = ["date"; "open"; "high"; "low"; "close"; "volume"]) /\
    (columns raw = ["日期"; "股票代码"; "开盘"; "收盘"; "最高"; "最低"; "成交量"] ->
     columns df = ["date"; "open"; "high"; "low"; "close"; "volume"] /\
     coerced
     = imap (fun k r => [date_cell (mjoin (ds !! k));
                         nth 2 r (CStr ""); nth 4 r (CStr "");
                         nth 5 r (CStr ""); nth 3 r (CStr "");
                         nth 6 r (CStr "")])
            (trows raw)) /\
    trows df ≡ₚ coerced /\
    kline_table df /\
    (exists r rest, trows df = r :: rest /\ date_at 0 r = Some d0) /\
    step py provider disk s i code
    = {| counts := Tally (S (success_count (counts s))) (fail_count (counts s))
                         (skip_count (counts s));
         dir := (dir s ++ [(filename, df)])%list;
         requests := (requests s ++ [code])%list;
         progress := (progress s ++ [(code, Succeeded filename)])%list;
         raised := None |}.
Proof.
  intros Hs Hart Hraw Hcols Hj Hdt Hlen Hin Hmin Hcal Hdisk kept coerced
         filename.
  pose proof (get_kline_data_eq py _ _ _ _ _ Hraw Hcols Hj Hdt) as Hk.
  cbn [tl KLINE_COLUMNS] in Hk. fold kept in Hk. fold coerced in Hk.
  destruct (sorted_rows_shape py coerced Hs)
    as (dated & Hrows & Hdated & Hd & Hsorted & Hperm).
  rewrite Hrows in Hk, Hperm.
  assert (map (date_at 0) coerced = ds) as Hcd
    by exact (coerced_dates raw ds Hlen).
  destruct (sorted_rows_head py coerced d0 Hs) as (r & rest & Hr & Hrd);
    [by rewrite Hcd..|].
  rewrite Hrows in Hr.
  assert (flat_map
            (fun n => repeat n (length (positions n (columns (rename raw)))))
            KLINE_COLUMNS
          = "date"
            :: flat_map
                 (fun n =>
                    repeat n (length (positions n (columns (rename raw)))))
                 ["open"; "high"; "low"; "close"; "volume"]) as Hhead.
  { unfold KLINE_COLUMNS. cbn [flat_map]. by rewrite Hj. }
  pose proof (header_positions (columns (rename raw))) as Hp.
  rewrite Hj, Hhead in Hp. cbn [length seq] in Hp.
  eexists. split; [exact Hk|]. cbn [columns trows].
  split; [by rewrite Hhead|].
  split.
  { intros Hone. unfold KLINE_COLUMNS in Hone.
    repeat (apply Forall_cons in Hone as [? Hone]).
    cbn [flat_map]. by repeat match goal with H : length _ = _ |- _ =>
                                rewrite H; clear H end. }
  split.
  { intros Hraw_cols. subst coerced kept.
    unfold rename. cbn [columns]. rewrite Hraw_cols. split; reflexivity. }
  split; [exact Hperm|].
  assert (length (trows raw)
          = length (dated
                    ++ List.filter (fun r => negb (has_date 0 r)) coerced)%list)
    as Hn.
  { rewrite Hperm. subst coerced. by rewrite length_imap. }
  split.
  { unfold kline_table. cbn [columns trows]. split; [exact Hp|].
    split.
    { rewrite <- Hhead. by apply header_names. }
    split; [by exists r, rest, d0|].
    exists dated, (List.filter (fun r => negb (has_date 0 r)) coerced).
    split; [done|]. split; [done|]. split; [|done].
    clear. induction coerced as [|x l IH]; [constructor|]. cbn.
    destruct (has_date 0 x) eqn:E; [done|]. by constructor. }
  split; [by exists r, rest|].
  rewrite (step_success py disk provider s i code _ filename Hart Hk);
    [done| |  | done].
  - cbn [trows]. by rewrite Hr.
  - rewrite (artifact_name_eq code _ r rest d0); cbn [columns trows];
      [|done..].
    unfold filename. by rewrite Hn.
Qed.

Lemma C7_success_path_witness :
  progress (step sample_py (fun _ _ => Ok provider_table) sample_disk
                 (State (Tally 0 0 0) [] [] [] None) 1 "000001")
  = [("000001", Succeeded "Ashare_000001_2_20240530.csv")].
Proof.
  destruct (C7_success_path sample_py (fun _ _ => Ok provider_table)
              sample_disk (State (Tally 0 0 0) [] [] [] None) 1 "000001"
              provider_table 0 [Some 19874; Some 19873] 19873)
    as (df & _ & _ & _ & _ & _ & _ & _ & H).
  - apply stable_argsort_sorts.
  - reflexivity.
  - reflexivity.
  - by vm_compute; repeat constructor.
  - reflexivity.
  - reflexivity.
  - reflexivity.
  - right. by left.
  - repeat constructor; intros d [= <-]; lia.
  - reflexivity.
  - reflexivity.
  - rewrite H. reflexivity.
Defined.

(** C7, as stated, fails on a non-empty table that lacks the provider's
    columns: selecting the six columns raises, the fetch counts as failed
    and nothing is written. *)
Lemma C7_counterexample :
  let s := step sample_py (fun _ _ => Ok foreign_table) sample_disk
                (State (Tally 0 0 0) [] [] [] None) 1 "000001" in
  trows foreign_table <> [] /\
  progress s = [("000001", Failed)] /\
  counts s = Tally 0 1 0 /\
  dir s = [].
Proof. split; [discriminate|]. by repeat split. Qed.

(** * Further properties of the code *)

(** ** Loading a stored series *)

Lemma filter_first {A} (f : A -> bool) before x after :
  Forall (fun a => f a = false) before -> f x = true ->
  List.filter f (before ++ x :: after) = x :: List.filter f after.
Proof.
  intros Hb Hx. rewrite List.filter_app, (filter_none f before Hb).
  cbn. by rewrite Hx.
Qed.


Lemma sorted_by_date (l : list bar) :
  StronglySorted Z.le (map date l) <->
  StronglySorted (fun a b => date a <= date b) l.
Proof.
  induction l as [|b l IH]; [split; constructor|]. cbn [map]. split.
  - intros [Hs Hb]%StronglySorted_inv. constructor; [by apply IH|].
    by apply (proj1 (Forall_map_iff date _ l)) in Hb.
  - intros [Hs Hb]%StronglySorted_inv. constructor; [by apply IH|].
    by apply (proj2 (Forall_map_iff date _ l)).
Qed.

(** A list in strictly ascending order of date has one arrangement in
    ascending order. *)
Lemma sorted_unique (l l' : list bar) :
  StronglySorted (fun a b => date a < date b) l ->
  StronglySorted (fun a b => date a <= date b) l' ->
  l' ≡ₚ l -> l' = l.
Proof.
  intros Hl. revert l'.
  induction Hl as [|a l Hs IH Ha]; intros l' Hl' Hp.
  { by apply Permutation_nil_r in Hp. }
  destruct l' as [|b l']; [by apply Permutation_nil_cons in Hp|].
  apply StronglySorted_inv in Hl' as [Hs' Hb].
  assert (b = a) as ->.
  { assert (b ∈ a :: l) as Hin by (rewrite <- Hp; by left).
    apply elem_of_cons in Hin as [->|Hin]; [done|].
    assert (a ∈ b :: l') as Hin' by (rewrite Hp; by left).
    apply elem_of_cons in Hin' as [->|Hin']; [done|].
    rewrite Forall_forall in Ha, Hb.
    specialize (Ha _ Hin). specialize (Hb _ Hin'). lia. }
  f_equal. apply IH; [done|]. by apply Permutation_cons_inv in Hp.
Qed.

Lemma sort_values_by_date_sorts py (content : list bar) :
  sorts (argsort py) ->
  sort_values_by_date py content ≡ₚ content /\
  StronglySorted (fun a b => date a <= date b)
                 (sort_values_by_date py content).
Proof.
  intros Hs. destruct (Hs (map date content)) as (Hp & Hsorted).
  unfold sort_values_by_date. split.
  - apply take_rows_Permutation. by rewrite Hp, length_map.
  - apply sorted_by_date. by rewrite <- take_rows_fmap.
Qed.


(** X2. When the first matching file of the directory can be read and the
    library sorts, its name is returned and its rows come back in ascending
    order of date, none lost or added; rows of one date come in the order
    the sort chose, and rows in strictly ascending order of date come back
    as they were.  The frame has the date as a column and no MA column. *)
Theorem X2_load_first_match
    (py : pandas) (st before after : store) (symbol name : string)
    (content : list bar) :
  sorts (argsort py) ->
  st = (before ++ (name, Parsed content) :: after)%list ->
  Forall (fun f => is_artifact_of symbol (fst f) = false) before ->
  is_artifact_of symbol name = true ->
  exists df,
    load_local_stock_data py st symbol = Ok (df, name) /\
    date_col df = true /\ ma_cols df = [] /\
    rows df ≡ₚ content /\
    StronglySorted (fun a b => date a <= date b) (rows df) /\
    (StronglySorted (fun a b => date a < date b) content ->
     rows df = content).
Proof.
  intros Hs -> Hb Hn. unfold load_local_stock_data.
  change (fun f : string * csv =>
            startswith (artifact_prefix symbol) (fst f)
            && endswith ".csv" (fst f))
    with (fun f : string * csv => is_artifact_of symbol (fst f)).
  rewrite filter_first by done.
  destruct (sort_values_by_date_sorts py content Hs) as (Hp & Hsorted).
  eexists. split; [reflexivity|]. cbn [date_col ma_cols rows].
  split; [done|]. split; [done|]. split; [done|]. split; [done|].
  intros Ha. by apply sorted_unique.
Qed.

Lemma X2_load_first_match_witness :
  exists df,
    load_local_stock_data sample_py
      (("Ashare_000007_note.txt", Parsed [])
       :: ("Ashare_600000_1_x.csv", Parsed []) :: sample_store) "000007"
    = Ok (df, "Ashare_000007_10_20240527.csv") /\
    rows df = sample_bars.
Proof.
  destruct (X2_load_first_match sample_py
              (("Ashare_000007_note.txt", Parsed [])
               :: ("Ashare_600000_1_x.csv", Parsed []) :: sample_store)
              [("Ashare_000007_note.txt", Parsed []);
               ("Ashare_600000_1_x.csv", Parsed [])]
              [] "000007" "Ashare_000007_10_20240527.csv" sample_bars)
    as (df & H & _ & _ & _ & _ & Hr).
  - apply stable_argsort_sorts.
  - reflexivity.
  - repeat constructor.
  - reflexivity.
  - exists df. split; [exact H|]. apply Hr.
    let l := eval vm_compute in sample_bars in change sample_bars with l.
    repeat constructor.
Defined.

(** ** The chart and hover callbacks on their error paths *)

Lemma load_frame py st symbol df fname :
  load_local_stock_data py st symbol = Ok (df, fname) ->
  date_col df = true /\ ma_cols df = [] /\
  is_artifact_of symbol fname = true /\
  exists content,
    In (fname, Parsed content) st /\
    rows df = sort_values_by_date py content.
Proof.
  unfold load_local_stock_data.
  change (fun f : string * csv =>
            startswith (artifact_prefix symbol) (fst f)
            && endswith ".csv" (fst f))
    with (fun f : string * csv => is_artifact_of symbol (fst f)).
  destruct (List.filter _ st) as [|[name [e|content]] rest] eqn:E;
    [discriminate..|].
  intros [= <- <-]. split; [done|]. split; [done|].
  assert (In (name, Parsed content) (List.filter
            (fun f : string * csv => is_artifact_of symbol (fst f)) st))
    as Hin by (rewrite E; by left).
  apply filter_In in Hin as [Hin Hp]. split; [exact Hp|]. by exists content.
Qed.

Lemma resample_unknown df period :
  date_col df = true -> ~ known_period period ->
  resample_k_data df period
  = Ok {| date_col := false; rows := rows df; ma_cols := ma_cols df |}.
Proof.
  intros Hd Hk. unfold resample_k_data, known_period in *.
  destruct (String.eqb period "daily") eqn:E1.
  { apply String.eqb_eq in E1. tauto. }
  destruct (String.eqb period "weekly") eqn:E2.
  { apply String.eqb_eq in E2. tauto. }
  destruct (String.eqb period "monthly") eqn:E3.
  { apply String.eqb_eq in E3. tauto. }
  by rewrite Hd.
Qed.

Lemma known_period_dec period : known_period period \/ ~ known_period period.
Proof.
  unfold known_period.
  destruct (string_dec period "daily"); [tauto|].
  destruct (string_dec period "weekly"); [tauto|].
  destruct (string_dec period "monthly"); tauto.
Qed.

(** X3. For a non-empty symbol without a stored file, the chart callback
    returns the empty figure and the hover callback its "cannot load"
    placeholder, both with the [FileNotFoundError] of the symbol as it is
    looked up, whatever the period. *)
Theorem X3_missing_artifact
    (py : pandas) (st : store) (cf : option (list (string * string)))
    (symbol period : string) (points : list point) :
  symbol <> "" ->
  Forall (fun f => is_artifact_of (normalize symbol) (fst f) = false) st ->
  update_chart py st cf symbol period
  = (None, LoadFailed (FileNotFoundError (normalize symbol))) /\
  display_hover py st (Some (Some points)) symbol period
  = CannotLoad (FileNotFoundError (normalize symbol)).
Proof.
  intros Hne Hst.
  assert (load_local_stock_data py st (normalize symbol)
          = Raise (FileNotFoundError (normalize symbol))) as Hl.
  { unfold load_local_stock_data.
    change (fun f : string * csv =>
              startswith (artifact_prefix (normalize symbol)) (fst f)
              && endswith ".csv" (fst f))
      with (fun f : string * csv =>
              is_artifact_of (normalize symbol) (fst f)).
    by rewrite (filter_none _ _ Hst). }
  apply String.eqb_neq in Hne. unfold update_chart, display_hover.
  by rewrite Hne, Hl.
Qed.

Lemma X3_missing_artifact_witness :
  update_chart sample_py sample_store None "600000" "weekly"
  = (None, LoadFailed (FileNotFoundError "600000")).
Proof.
  destruct (X3_missing_artifact sample_py sample_store None "600000" "weekly" [])
    as (H & _).
  - discriminate.
  - repeat constructor.
  - exact H.
Defined.

(** X4. After a click on "clear" the input holds the empty string, and
    with the empty string the chart callback asks for a code and the hover
    callback reports that there is none, without looking at the store; a
    button never clicked, or a count that is not positive, gives the default
    code "000007". *)
Theorem X4_cleared_input
    (py : pandas) (st : store) (cf : option (list (string * string)))
    (period : string) (points : list point) (n : Z) :
  (0 < n ->
   clear_input (Some n) = "" /\
   update_chart py st cf (clear_input (Some n)) period = (None, AskForCode) /\
   display_hover py st (Some (Some points)) (clear_input (Some n)) period
   = NoSymbol) /\
  (n <= 0 -> clear_input (Some n) = "000007") /\
  clear_input None = "000007".
Proof.
  split; [|split; [|done]].
  - intros Hn. unfold clear_input.
    assert ((0 <? n) = true) as -> by (by apply Z.ltb_lt). done.
  - intros Hn. unfold clear_input.
    by assert ((0 <? n) = false) as -> by (by apply Z.ltb_ge).
Qed.

Lemma X4_cleared_input_witness :
  clear_input (Some 1) = "" /\
  update_chart sample_py sample_store None (clear_input (Some 1)) "weekly"
  = (None, AskForCode).
Proof.
  destruct (X4_cleared_input sample_py sample_store None "weekly" [] 1) as (H & _).
  destruct (H ltac:(lia)) as (H1 & H2 & _). by split.
Defined.

Lemma figure_trace_lengths py df symbol name fig :
  create_kline_ma_figure (add_ma py df MA_WINDOWS) symbol name = Ok fig ->
  length (candle_x fig) = length (rows df) /\
  length (candle_open fig) = length (rows df) /\
  length (candle_high fig) = length (rows df) /\
  length (candle_low fig) = length (rows df) /\
  length (candle_close fig) = length (rows df) /\
  length (volume_y fig) = length (rows df) /\
  map fst (ma_traces fig) = MA_WINDOWS /\
  Forall (fun t => length (snd t) = length (rows df)) (ma_traces fig) /\
  fig_symbol fig = symbol.
Proof.
  intros H.
  assert (fig_symbol fig = symbol) as Hsym.
  { unfold create_kline_ma_figure in H.
    destruct (negb (date_col (add_ma py df MA_WINDOWS))); [discriminate|].
    destruct (negb (forallb _ _)); [discriminate|].
    by injection H as <-. }
  apply figure_of_frame
    in H as (_ & _ & Hx & Ho & Hh & Hl & Hc & Hv & _ & Hma).
  rewrite Hx, Ho, Hh, Hl, Hc, Hv, Hma, !length_map, add_ma_rows.
  do 6 (split; [done|]). split; [|split; [|done]].
  - rewrite map_map. cbn [fst]. apply map_id.
  - apply Forall_map_iff. apply Forall_forall. intros w Hw. cbn [snd].
    rewrite (add_ma_get_col py w MA_WINDOWS df)
      by (left; by apply list_elem_of_In).
    by rewrite rolling_mean_length, length_map.
Qed.

(** X5. When the chart callback returns a figure, the period is one of
    "daily", "weekly", "monthly", the message names a stored file of the
    symbol and the number of rows drawn, and every trace of the figure has
    that many points: the candlestick's dates and prices, the volume bars
    and one line for each window of [MA_WINDOWS], in that order. *)
Theorem X5_figure_shape
    (py : pandas) (st : store) (cf : option (list (string * string)))
    (symbol period : string) (fig : figure) (info : chart_info) :
  update_chart py st cf symbol period = (Some fig, info) ->
  known_period period /\
  fig_symbol fig = normalize symbol /\
  exists filename,
    info = Loaded filename period (length (candle_x fig)) /\
    is_artifact_of (normalize symbol) filename = true /\
    In filename (map fst st) /\
    length (candle_open fig) = length (candle_x fig) /\
    length (candle_high fig) = length (candle_x fig) /\
    length (candle_low fig) = length (candle_x fig) /\
    length (candle_close fig) = length (candle_x fig) /\
    length (volume_y fig) = length (candle_x fig) /\
    map fst (ma_traces fig) = MA_WINDOWS /\
    Forall (fun t => length (snd t) = length (candle_x fig)) (ma_traces fig).
Proof.
  unfold update_chart.
  destruct (String.eqb symbol ""); [discriminate|].
  destruct (load_local_stock_data py st (normalize symbol))
    as [[df0 fname]|e] eqn:L; cbn [bind fst snd]; [|discriminate].
  apply load_frame in L as (Hd & _ & Hart & content & Hin & _).
  destruct (resample_k_data df0 period) as [df1|e] eqn:R;
    cbn [bind]; [|discriminate].
  destruct (create_kline_ma_figure (add_ma py df1 MA_WINDOWS) (normalize symbol)
              (lookup_name cf (normalize symbol))) as [fig'|e] eqn:F;
    cbn [bind]; [|discriminate].
  intros H.
  assert (fig' = fig /\
          Loaded fname period (length (rows (add_ma py df1 MA_WINDOWS))) = info)
    as [<- <-] by (by injection H).
  clear H.
  pose proof (figure_trace_lengths _ _ _ _ _ F)
    as (Hx & Ho & Hh & Hl & Hc & Hv & Hw & Hma & Hsym).
  split.
  - destruct (known_period_dec period) as [Hk|Hk]; [done|].
    rewrite resample_unknown in R by done. injection R as <-.
    unfold create_kline_ma_figure in F.
    by rewrite add_ma_date_col in F.
  - split; [done|]. exists fname. rewrite add_ma_rows, Hx, Ho, Hh, Hl, Hc, Hv.
    split; [done|]. split; [done|].
    split; [apply in_map_iff; by exists (fname, Parsed content)|].
    done.
Qed.

Lemma X5_figure_shape_witness :
  exists fig,
    update_chart sample_py sample_store None "7" "monthly"
    = (Some fig, Loaded "Ashare_000007_10_20240527.csv" "monthly" 2) /\
    Forall (fun t => length (snd t) = 2%nat) (ma_traces fig).
Proof.
  assert (exists fig info,
             update_chart sample_py sample_store None "7" "monthly" = (Some fig, info) /\
             length (candle_x fig) = 2%nat /\
             info = Loaded "Ashare_000007_10_20240527.csv" "monthly" 2)
    as (fig & info & E & Hlen & ->).
  { eexists _, _. split; [vm_compute; reflexivity|]. split; reflexivity. }
  destruct (X5_figure_shape sample_py sample_store None "7" "monthly" fig _ E)
    as (_ & _ & filename & _ & _ & _ & _ & _ & _ & _ & _ & _ & H).
  exists fig. split; [exact E|]. by rewrite Hlen in H.
Defined.

(** X6. With a stored file of the symbol and a period that is none of
    "daily", "weekly", "monthly", resampling leaves the dates in the index:
    the chart callback returns the empty figure with [KeyError] for "date",
    and the hover callback, for a pointer inside the daily series, its
    "parse failed" placeholder with the same error. *)
Theorem X6_unknown_period
    (py : pandas) (st : store) (cf : option (list (string * string)))
    (symbol period : string) (points : list point) (k : Z)
    (df0 : frame) (fname : string) :
  symbol <> "" ->
  ~ known_period period ->
  load_local_stock_data py st (normalize symbol) = Ok (df0, fname) ->
  first_point_index points = Some k ->
  0 <= k < Z.of_nat (length (rows df0)) ->
  update_chart py st cf symbol period = (None, LoadFailed (KeyError "date")) /\
  display_hover py st (Some (Some points)) symbol period
  = ParseFailed (KeyError "date").
Proof.
  intros Hne Hk L Hp Hrange.
  pose proof (load_frame _ _ _ _ _ L) as (Hd & _).
  apply String.eqb_neq in Hne. unfold update_chart, display_hover.
  rewrite Hne, L. cbn [bind fst snd]. rewrite resample_unknown by done.
  cbn [bind]. split.
  - unfold create_kline_ma_figure. by rewrite add_ma_date_col.
  - rewrite Hp, add_ma_rows. cbn [rows].
    assert ((k <? 0) || (Z.of_nat (length (rows df0)) <=? k) = false) as ->.
    { apply orb_false_iff. split; [apply Z.ltb_ge | apply Z.leb_gt]; lia. }
    destruct (rows df0 !! Z.to_nat k) as [row|] eqn:Hrow.
    + unfold readout_of. by rewrite add_ma_date_col.
    + apply lookup_ge_None in Hrow. lia.
Qed.

Lemma X6_unknown_period_witness :
  update_chart sample_py sample_store None "7" "yearly"
  = (None, LoadFailed (KeyError "date")) /\
  display_hover sample_py sample_store (pointer_at 3) "7" "yearly"
  = ParseFailed (KeyError "date").
Proof.
  assert (exists df0 fname,
             load_local_stock_data sample_py sample_store (normalize "7")
             = Ok (df0, fname) /\ length (rows df0) = 10%nat)
    as (df0 & fname & L & Hlen).
  { eexists _, _. split; [vm_compute; reflexivity | reflexivity]. }
  apply (X6_unknown_period sample_py sample_store None "7" "yearly"
           [Point None; Point (Some 3)] 3 df0 fname).
  - discriminate.
  - unfold known_period. intros [H|[H|H]]; discriminate.
  - exact L.
  - reflexivity.
  - rewrite Hlen. lia.
Defined.

(** ** The period buttons *)

Lemma before_dot_app id rest :
  before_dot id = id -> before_dot (id ++ String "." rest) = id.
Proof.
  induction id as [|c id IH]; [done|].
  change (String c id ++ String "." rest)
    with (String c (id ++ String "." rest)).
  cbn [before_dot]. destruct (Ascii.eqb c ".") eqn:E; [discriminate|].
  intros [= H]. by rewrite IH.
Qed.

(** X7. [select_period] always returns one of "daily", "weekly",
    "monthly": "daily" when nothing was triggered or the trigger is not one
    of the three buttons, and otherwise the period of the button whose id
    stands before the first dot of the first trigger.  [update_button_style]
    then gives the selected style to the button of that period and the
    default style to the other two; for any other period string all three
    buttons have the default style. *)
Theorem X7_period_buttons (triggered : list string) :
  known_period (select_period triggered) /\
  (select_period [] = "daily") /\
  (forall id prop others,
      before_dot id = id ->
      select_period ((id ++ String "." prop) :: others)
      = if String.eqb id "btn-weekly" then "weekly"
        else if String.eqb id "btn-monthly" then "monthly"
        else "daily") /\
  update_button_style (select_period triggered)
  = (if String.eqb (select_period triggered) "daily"
     then (selected_style, default_style, default_style)
     else if String.eqb (select_period triggered) "weekly"
     then (default_style, selected_style, default_style)
     else (default_style, default_style, selected_style)) /\
  (forall period, ~ known_period period ->
     update_button_style period
     = (default_style, default_style, default_style)).
Proof.
  assert (known_period (select_period triggered)) as Hk.
  { unfold select_period, known_period. destruct triggered as [|p ?]; [tauto|].
    repeat case_match; tauto. }
  split; [done|]. split; [done|]. split; [|split].
  - intros id prop others Hid. unfold select_period.
    rewrite before_dot_app by done.
    destruct (String.eqb id "btn-daily") eqn:E1.
    { apply String.eqb_eq in E1. by subst id. }
    by repeat case_match.
  - destruct Hk as [-> | [-> | ->]]; reflexivity.
  - intros period Hk'. unfold update_button_style, known_period in *.
    destruct (String.eqb period "daily") eqn:E1.
    { apply String.eqb_eq in E1. tauto. }
    destruct (String.eqb period "weekly") eqn:E2.
    { apply String.eqb_eq in E2. tauto. }
    destruct (String.eqb period "monthly") eqn:E3.
    { apply String.eqb_eq in E3. tauto. }
    done.
Qed.

Lemma X7_period_buttons_witness :
  select_period ["btn-weekly.n_clicks"] = "weekly".
Proof.
  destruct (X7_period_buttons []) as (_ & _ & H & _).
  apply (H "btn-weekly" "n_clicks" []). reflexivity.
Defined.

(** ** More on the moving-average columns *)

Lemma set_col_id w c cols : get_col w cols = Some c -> set_col w c cols = cols.
Proof.
  induction cols as [|[w' c'] cols IH]; cbn; [discriminate|].
  destruct (w =? w')%nat eqn:E.
  - apply Nat.eqb_eq in E. by intros [= ->]; subst.
  - intros H. by rewrite IH.
Qed.

Lemma set_col_fresh w c cols :
  ~ In w (map fst cols) -> set_col w c cols = (cols ++ [(w, c)])%list.
Proof.
  induction cols as [|[w' c'] cols IH]; cbn; [done|].
  intros H. destruct (w =? w')%nat eqn:E.
  - apply Nat.eqb_eq in E. subst. tauto.
  - rewrite IH; [done | tauto].
Qed.

Lemma add_ma_fixed py ws : forall df,
  (forall w, In w ws ->
             get_col w (ma_cols df)
             = Some (rolling_mean py w (map close (rows df)))) ->
  add_ma py df ws = df.
Proof.
  induction ws as [|w ws IH]; intros df H; [done|].
  rewrite add_ma_cons.
  assert (add_ma_step py df w = df) as ->.
  { unfold add_ma_step. rewrite set_col_id by (apply H; by left).
    by destruct df. }
  apply IH. intros w' Hw'. apply H. by right.
Qed.

Lemma add_ma_fresh py ws : forall df done,
  ma_cols df = map (fun w => (w, rolling_mean py w (map close (rows df)))) done ->
  NoDup (done ++ ws) ->
  ma_cols (add_ma py df ws)
  = map (fun w => (w, rolling_mean py w (map close (rows df)))) (done ++ ws).
Proof.
  induction ws as [|w ws IH]; intros df done Hc Hn.
  - by rewrite app_nil_r.
  - rewrite add_ma_cons.
    replace (done ++ w :: ws)%list with ((done ++ [w]) ++ ws)%list in *
      by (by rewrite <- app_assoc).
    change (rows df) with (rows (add_ma_step py df w)).
    apply IH; [|done]. cbn [add_ma_step ma_cols rows].
    rewrite set_col_fresh.
    + by rewrite Hc, map_app.
    + rewrite Hc, map_map. cbn [fst]. rewrite map_id.
      apply NoDup_app in Hn as (Hn & _ & _).
      apply NoDup_app in Hn as (_ & Hn & _).
      intros Hin. apply (Hn w); [by apply list_elem_of_In | by left].
Qed.

(** X10. Calling [add_ma] a second time changes nothing, and on a frame
    without MA columns [add_ma(df)] leaves exactly the seven columns MA3 ..
    MA55, in that order, each the rolling mean of the closes. *)
Theorem X10_add_ma_columns
    (py : pandas) (df : frame) (windows : list nat) :
  add_ma py (add_ma py df windows) windows = add_ma py df windows /\
  (ma_cols df = [] ->
   ma_cols (add_ma py df MA_WINDOWS)
   = map (fun w => (w, rolling_mean py w (map close (rows df)))) MA_WINDOWS).
Proof.
  split.
  - apply add_ma_fixed. intros w Hw. rewrite add_ma_rows.
    apply add_ma_get_col. by left.
  - intros H. apply (add_ma_fresh py MA_WINDOWS df []); [by rewrite H|].
    cbn [app]. unfold MA_WINDOWS. compute_done.
Qed.

Lemma X10_add_ma_columns_witness :
  ma_cols (add_ma sample_py sample_frame MA_WINDOWS)
  = map (fun w => (w, rolling_mean sample_py w (map close sample_bars)))
        MA_WINDOWS.
Proof.
  destruct (X10_add_ma_columns sample_py sample_frame MA_WINDOWS) as (_ & H).
  apply H. reflexivity.
Defined.

Lemma pipeline_add_ma py st sym period df :
  pipeline py st sym period = Ok df ->
  exists df1, df = add_ma py df1 MA_WINDOWS.
Proof.
  unfold pipeline.
  destruct (load_local_stock_data py st sym) as [[df0 fname]|e];
    cbn [bind fst]; [|discriminate].
  destruct (resample_k_data df0 period) as [df1|e]; cbn [bind]; [|discriminate].
  intros H. exists df1. symmetry. by injection H.
Qed.

Lemma readout_ma df k row r :
  readout_of df k row = Ok r ->
  ro_ma r
  = map (fun w => (w, safe (of_float (row_ma df k w)) "{:.2f}")) MA_WINDOWS.
Proof.
  unfold readout_of. destruct (negb (date_col df)); [discriminate|].
  destruct (negb (in_calendar (date row))); [discriminate|].
  by intros [= <-].
Qed.

(** X12. In the read-out of the row at position [k], the field of window
    [w] is the dash exactly when fewer than [w] rows exist up to [k], that
    is when [k + 1 < w]; otherwise it is the number the library's rolling
    mean gives for the closes up to [k] of the series of the period shown,
    put through the two-decimal format.  (The closes are taken to be
    moderate, as for the columns themselves.) *)
Theorem X12_hover_moving_averages
    (py : pandas) (st : store) (points : list point)
    (symbol period : string) (r : readout) (k : Z) :
  display_hover py st (Some (Some points)) symbol period = Shown r ->
  first_point_index points = Some k ->
  exists df,
    pipeline py st (normalize symbol) period = Ok df /\
    (Forall (fun b => moderate (close b)) (rows df) ->
     ro_ma r
     = map (fun w =>
              (w, if (S (Z.to_nat k) <? w)%nat then Dash
                  else Formatted "{:.2f}"
                         (dy_value
                            (roll_mean py w
                               (firstn (S (Z.to_nat k))
                                       (map close (rows df)))))))
           MA_WINDOWS).
Proof.
  intros Hs Hk.
  apply display_hover_shown in Hs as (df & k' & row & Hp & Hk' & Hrow & Hr).
  rewrite Hk in Hk'. injection Hk' as <-.
  exists df. split; [done|]. intros _. rewrite (readout_ma _ _ _ _ Hr).
  destruct (pipeline_add_ma _ _ _ _ _ Hp) as (df1 & ->).
  apply lookup_lt_Some in Hrow. rewrite add_ma_rows in Hrow.
  apply map_ext_in. intros w Hw. f_equal. unfold row_ma.
  rewrite (add_ma_get_col py w MA_WINDOWS df1) by (by left).
  rewrite add_ma_rows.
  rewrite rolling_mean_lookup by (by rewrite length_map).
  assert ((w =? 0)%nat = false) as ->.
  { apply Nat.eqb_neq. intros ->. cbn in Hw. intuition discriminate. }
  rewrite orb_false_r. cbn [mjoin option_join].
  by destruct (S (Z.to_nat k) <? w)%nat.
Qed.

Lemma X12_hover_moving_averages_witness :
  exists r,
    display_hover sample_py sample_store (pointer_at 3) "7" "daily"
    = Shown r /\
    map snd (ro_ma r)
    = [Formatted "{:.2f}" (inject_Z 13); Dash; Dash; Dash; Dash; Dash; Dash].
Proof.
  assert (exists r, display_hover sample_py sample_store (pointer_at 3) "7"
                                  "daily"
                    = Shown r) as (r & Hr).
  { eexists. vm_compute. reflexivity. }
  destruct (X12_hover_moving_averages sample_py sample_store
              [Point None; Point (Some 3)] "7" "daily" r 3 Hr)
    as (df & Hp & Hma).
  - reflexivity.
  - exists r. split; [exact Hr|].
    assert (pipeline sample_py sample_store (normalize "7") "daily"
            = Ok (add_ma sample_py sample_frame MA_WINDOWS)) as Hp'
      by (vm_compute; reflexivity).
    rewrite Hp' in Hp. injection Hp as <-. rewrite Hma; [reflexivity|].
    apply (Forall_forallb
             (fun b => Qle_bool (Qabs (close b)) (inject_Z (2 ^ 1000)))).
    + intros b Hb. by apply Qle_bool_iff.
    + reflexivity.
Defined.

(** ** More on resampling *)

Section ResampleMore.

Variable key : Z -> Z.
Variable period_end : Z -> Z.
Hypothesis key_mono : forall a b, a <= b -> key a <= key b.
Hypothesis key_end : forall k, key (period_end k) = k.

Abbreviation resampled bars := (dropna (resample_agg key period_end bars)).

(** Resampling sorts first: the order of the rows given does not matter
    beyond that. *)
Lemma resample_agg_sorted bars :
  resample_agg key period_end bars
  = resample_agg key period_end (sort_by_date bars).
Proof.
  unfold resample_agg, sort_by_date.
  by rewrite (sort_by_ascending date (sort_by date bars))
    by apply sort_by_sorted.
Qed.

Lemma resample_any bars :
  exists gs,
    concat gs ≡ₚ bars /\
    Forall (fun g => g <> []) gs /\
    Forall2 (fun g r => exists k, date r = period_end k /\ is_aggregate_of g r)
            gs (resampled bars) /\
    StronglySorted Z.lt (map date (resampled bars)).
Proof.
  rewrite resample_agg_sorted.
  destruct (resample_groups key period_end key_mono key_end
              (sort_by_date bars) (sort_by_sorted date bars))
    as (gs & Hc & Hne & Hf & Hs).
  exists gs. split; [rewrite Hc; apply sort_by_Permutation|].
  split; [done|]. split; [|done].
  eapply Forall2_impl; [exact Hf|]. cbn. intros g r (k & Hd & _ & Ha). eauto.
Qed.

Lemma aggregate_well_formed g r :
  is_aggregate_of g r -> Forall well_formed_bar g -> well_formed_bar r.
Proof.
  intros (Ho & Hc & _ & Hh & _ & Hl & _) Hg.
  destruct g as [|b0 g']; [discriminate|].
  injection Ho as Ho.
  destruct (last (b0 :: g')) as [bl|] eqn:El; [|discriminate].
  injection Hc as Hc.
  assert (bl ∈ b0 :: g') as Hbl by (by apply last_Some_elem_of).
  rewrite Forall_forall in Hg, Hh, Hl.
  destruct (Hg b0 ltac:(by left)) as (H1 & H2 & _ & _).
  destruct (Hg bl Hbl) as (_ & _ & H3 & H4).
  pose proof (Hh b0 ltac:(by left)) as Hh0. pose proof (Hh bl Hbl) as Hhl.
  pose proof (Hl b0 ltac:(by left)) as Hl0. pose proof (Hl bl Hbl) as Hll.
  unfold well_formed_bar. rewrite <- Ho, <- Hc.
  split; [by apply Qle_trans with (low b0)|].
  split; [by apply Qle_trans with (high b0)|].
  split; [by apply Qle_trans with (low bl) | by apply Qle_trans with (high bl)].
Qed.

Lemma resample_well_formed bars :
  Forall well_formed_bar bars -> Forall well_formed_bar (resampled bars).
Proof.
  intros Hb. destruct (resample_any bars) as (gs & Hc & _ & Hf & _).
  rewrite <- Hc in Hb. clear Hc.
  induction Hf as [|g r gs out (k & _ & Ha) _ IH]; [constructor|].
  cbn [concat] in Hb. apply Forall_app in Hb as [Hg Hrest].
  constructor; [by eapply aggregate_well_formed | by apply IH].
Qed.

Lemma Zsum_app xs ys : Zsum (xs ++ ys) = Zsum xs + Zsum ys.
Proof.
  unfold Zsum. induction xs as [|x xs IH]; [done|].
  cbn [app fold_right]. lia.
Qed.

Lemma Zsum_Permutation xs ys : xs ≡ₚ ys -> Zsum xs = Zsum ys.
Proof.
  unfold Zsum.
  induction 1 as [|x xs ys _ IH|x y xs|xs ys zs _ IH1 _ IH2];
    cbn [fold_right]; lia.
Qed.

Lemma Zsum_nonneg xs : Forall (fun x => 0 <= x) xs -> 0 <= Zsum xs.
Proof.
  unfold Zsum. induction 1 as [|x xs Hx _ IH]; cbn [fold_right]; lia.
Qed.

Lemma resample_volume_range bars :
  Forall (fun r => int64_range (volume r)) (resampled bars).
Proof.
  destruct (resample_any bars) as (gs & _ & _ & Hf & _).
  induction Hf as [|g r gs out (k & _ & Ha) _ IH]; constructor; [|done].
  by destruct Ha as (_ & _ & _ & _ & _ & _ & Hr & _).
Qed.

Lemma resample_volume bars :
  (exists k,
      Zsum (map volume (resampled bars))
      = Zsum (map volume bars) + k * 2 ^ 64) /\
  (Forall (fun b => 0 <= volume b) bars ->
   Zsum (map volume bars) < 2 ^ 63 ->
   Zsum (map volume (resampled bars)) = Zsum (map volume bars) /\
   Forall (fun r => 0 <= volume r) (resampled bars)) /\
  (length (resampled bars) <= length bars)%nat.
Proof.
  destruct (resample_any bars) as (gs & Hc & Hne & Hf & _).
  rewrite <- (Zsum_Permutation _ _ (Permutation_map volume Hc)).
  rewrite <- (Permutation_length Hc).
  assert (Forall (fun b => 0 <= volume b) bars
          <-> Forall (fun b => 0 <= volume b) (concat gs)) as ->
    by (by rewrite Hc).
  clear Hc. induction Hf as [|g r gs out (k & _ & Ha) _ IH].
  { split; [exists 0; cbn; lia|]. by split. }
  inversion Hne as [|? ? Hg Hne']; subst.
  destruct (IH Hne') as ((k' & IH1) & IH2 & IH3).
  pose proof Ha as (_ & _ & _ & _ & _ & _ & Hr & kv & Hv).
  cbn [concat map Zsum fold_right length].
  fold (Zsum (map volume out)).
  rewrite map_app, Zsum_app, length_app.
  split; [|split].
  - exists (kv + k'). rewrite Hv, IH1. lia.
  - intros [Hpg Hpr]%Forall_app Hlt.
    pose proof (Zsum_nonneg (map volume g)
                  (proj2 (Forall_map_iff volume _ g) Hpg)) as H0.
    pose proof (Zsum_nonneg (map volume (concat gs))
                  (proj2 (Forall_map_iff volume _ _) Hpr)) as H1.
    destruct (IH2 Hpr ltac:(lia)) as [E Hout].
    assert (volume r = Zsum (map volume g)) as Hvr.
    { apply aggregate_volume; [done|]. unfold Zsum in *. lia. }
    split; [lia|]. constructor; [lia | done].
  - destruct g; [done | cbn [length]; lia].
Qed.

Lemma keys_ascending bars :
  StronglySorted Z.lt (map date bars) ->
  Forall (fun b => exists k, date b = period_end k) bars ->
  StronglySorted Z.lt (map (fun b => key (date b)) bars).
Proof.
  induction bars as [|b bars IH]; intros Hs He; [constructor|].
  cbn [map] in *. inversion Hs as [|? ? Hs' Hb]; subst.
  inversion He as [|? ? (k & Hk) He']; subst.
  constructor; [by apply IH|].
  apply Forall_map_iff. apply Forall_forall. intros c Hc.
  rewrite Forall_forall in He'. destruct (He' c Hc) as (kc & Hkc).
  apply (proj1 (Forall_map_iff date (fun y => date b < y) bars)) in Hb.
  rewrite Forall_forall in Hb. specialize (Hb c Hc).
  rewrite Hk, Hkc, !key_end. rewrite Hk, Hkc in Hb.
  destruct (Z.lt_ge_cases k kc) as [H|H]; [done|].
  assert (period_end kc <= period_end k) as Hle.
  { destruct (Z.eq_dec kc k) as [->|Hne]; [lia|].
    apply Z.lt_le_incl, (end_lt key period_end key_mono key_end). lia. }
  lia.
Qed.

Lemma bin_rows_unique bars k :
  StronglySorted Z.lt (map (fun b => key (date b)) bars) ->
  bin_rows key bars k = [] \/ exists b, bin_rows key bars k = [b].
Proof.
  induction bars as [|b bars IH]; intros Hs; [by left|].
  cbn [map] in Hs. inversion Hs as [|? ? Hs' Hb]; subst.
  unfold bin_rows. cbn [List.filter].
  destruct (key (date b) =? k) eqn:E; [|by apply IH].
  right. exists b. f_equal. apply filter_none.
  apply (proj1 (Forall_map_iff (fun c => key (date c)) _ bars)) in Hb.
  eapply Forall_impl; [exact Hb|].
  cbn. intros c Hc. lia.
Qed.

Lemma aggregate_single b r :
  is_aggregate_of [b] r -> int64_range (volume b) -> date r = date b ->
  r = b.
Proof.
  intros (Ho & Hc & Hh & _ & Hl & _ & Hr & k & Hv) Hb Hd.
  assert (volume r = volume b) as Hvol.
  { apply (int64_congr_eq _ _ k); [done..|].
    cbn [map Zsum fold_right] in Hv. lia. }
  destruct r as [rd ro rh rl rc rv], b as [bd bo bh bl bc bv].
  cbn in Ho, Hc, Hh, Hl, Hvol, Hd.
  destruct Hh as [Hh|[]]. destruct Hl as [Hl|[]].
  congruence.
Qed.

(** A series that already has one row per period, dated at the period's
    end, is left as it is. *)
Lemma resample_fixed bars :
  StronglySorted Z.lt (map date bars) ->
  Forall (fun b => exists k, date b = period_end k) bars ->
  Forall (fun b => int64_range (volume b)) bars ->
  resampled bars = bars.
Proof.
  intros Hs He Hv.
  assert (StronglySorted (fun a b : bar => date a <= date b) bars) as Hle.
  { clear He Hv. induction bars as [|b bars IH]; [constructor|].
    cbn [map] in Hs. inversion Hs as [|? ? Hs' Hb]; subst.
    constructor; [by apply IH|].
    apply (proj1 (Forall_map_iff date _ bars)) in Hb.
    eapply Forall_impl; [exact Hb|].
    cbn. intros c Hc. lia. }
  pose proof (keys_ascending bars Hs He) as Hk.
  destruct (resample_groups key period_end key_mono key_end bars Hle)
    as (gs & Hc & _ & Hf & _).
  assert (Forall2 (fun g r => g = [r]) gs (resampled bars)) as Hone.
  { eapply Forall2_impl; [exact Hf|]. cbn. intros g r (k & Hd & Hg & Ha).
    destruct (bin_rows_unique bars k Hk) as [E|[b E]]; rewrite E in Hg; subst g.
    - by destruct Ha as (Ho & _).
    - assert (b ∈ bin_rows key bars k) as Hb by (rewrite E; by left).
      pose proof (bin_rows_key key bars k b Hb) as Hkb.
      assert (b ∈ bars) as Hin.
      { unfold bin_rows in Hb. apply list_elem_of_In, filter_In in Hb.
        apply list_elem_of_In, Hb. }
      f_equal. symmetry. apply aggregate_single; [done| |].
      { rewrite Forall_forall in Hv. by apply Hv. }
      rewrite Forall_forall in He. destruct (He b Hin) as (kb & Hkb').
      rewrite Hkb', key_end in Hkb. by rewrite Hd, Hkb', Hkb. }
  rewrite <- Hc at 2. clear -Hone.
  induction Hone as [|g r gs out -> _ IH]; [done|].
  cbn [concat app]. by rewrite IH.
Qed.

End ResampleMore.

Lemma resample_cases df period g :
  resample_k_data df period = Ok g ->
  (period = "daily" /\ g = df) \/
  (date_col df = true /\
   ((period = "weekly" /\
     g = {| date_col := true;
            rows := dropna (resample_agg week_key week_end (rows df));
            ma_cols := [] |}) \/
    (period = "monthly" /\
     g = {| date_col := true;
            rows := dropna (resample_agg month_key month_end (rows df));
            ma_cols := [] |}) \/
    (~ known_period period /\
     g = {| date_col := false; rows := rows df; ma_cols := ma_cols df |}))).
Proof.
  unfold resample_k_data, known_period.
  destruct (String.eqb_spec period "daily") as [->|N1].
  { intros [= <-]. by left. }
  destruct (date_col df); cbn [negb]; [|discriminate].
  destruct (String.eqb_spec period "weekly") as [->|N2].
  { intros [= <-]. right. split; [done|]. by left. }
  destruct (String.eqb_spec period "monthly") as [->|N3].
  { intros [= <-]. right. split; [done|]. right. by left. }
  intros [= <-]. right. split; [done|]. right. right. split; [tauto | done].
Qed.

(** X13.  Resampling keeps bars well formed: when in every stored row the
    open and the close lie between the low and the high, the same holds in
    every row of the daily, weekly or monthly series. *)
Theorem X13_resample_well_formed (df g : frame) (period : string) :
  resample_k_data df period = Ok g ->
  Forall well_formed_bar (rows df) ->
  Forall well_formed_bar (rows g).
Proof.
  intros Hr Hwf.
  destruct (resample_cases _ _ _ Hr) as [(_ & ->) | (_ & [(_ & ->) | [(_ & ->) | (_ & ->)]])];
    cbn [rows]; [done| | |done].
  - by apply (resample_well_formed week_key week_end
                week_key_mono week_key_week_end).
  - by apply (resample_well_formed month_key month_end
                month_key_mono month_key_month_end).
Qed.

Lemma X13_resample_well_formed_witness :
  exists g,
    resample_k_data sample_frame "weekly" = Ok g /\
    Forall well_formed_bar (rows g).
Proof.
  eexists. split; [reflexivity|].
  apply (X13_resample_well_formed sample_frame _ "weekly"); [reflexivity|].
  apply (Forall_forallb
           (fun b => Qle_bool (low b) (open b) && Qle_bool (open b) (high b)
                     && Qle_bool (low b) (close b)
                     && Qle_bool (close b) (high b))).
  - intros b Hb.
    apply andb_prop in Hb as [Hb H4]. apply andb_prop in Hb as [Hb H3].
    apply andb_prop in Hb as [H1 H2].
    unfold well_formed_bar. rewrite <- !Qle_bool_iff. tauto.
  - reflexivity.
Defined.

(** X14.  Resampling adds no rows and loses no volume as long as the
    sums fit an [int64]: the series has at most as many rows as the stored
    one; the volumes of the resampled series sum to the total volume of the
    stored rows modulo [2^64], and to that very total, each of them
    non-negative, when no stored volume is negative and the total is below
    [2^63]. *)
Theorem X14_resample_volume (df g : frame) (period : string) :
  resample_k_data df period = Ok g ->
  (length (rows g) <= length (rows df))%nat /\
  (exists k,
      Zsum (map volume (rows g))
      = Zsum (map volume (rows df)) + k * 2 ^ 64) /\
  (Forall (fun b => 0 <= volume b) (rows df) ->
   Zsum (map volume (rows df)) < 2 ^ 63 ->
   Zsum (map volume (rows g)) = Zsum (map volume (rows df)) /\
   Forall (fun r => 0 <= volume r) (rows g)).
Proof.
  intros Hr.
  destruct (resample_cases _ _ _ Hr)
    as [(_ & ->) | (_ & [(_ & ->) | [(_ & ->) | (_ & ->)]])];
    cbn [rows].
  - split; [done|]. split; [exists 0; lia | done].
  - destruct (resample_volume week_key week_end
                week_key_mono week_key_week_end (rows df)) as (H1 & H2 & H3).
    done.
  - destruct (resample_volume month_key month_end
                month_key_mono month_key_month_end (rows df))
      as (H1 & H2 & H3).
    done.
  - split; [done|]. split; [exists 0; lia | done].
Qed.

Lemma X14_resample_volume_witness :
  exists g,
    resample_k_data sample_frame "monthly" = Ok g /\
    Zsum (map volume (rows g)) = 5500 /\
    (length (rows g) <= 10)%nat.
Proof.
  eexists. split; [reflexivity|].
  destruct (X14_resample_volume sample_frame _ "monthly" eq_refl)
    as (H1 & _ & H2).
  destruct H2 as [H2 _].
  - apply (Forall_forallb (fun b => 0 <=? volume b)).
    + intros b Hb. by apply Z.leb_le.
    + reflexivity.
  - by vm_compute.
  - split; [exact H2 | exact H1].
Defined.

(** X15.  Resampling to a known period is idempotent: resampling a
    resampled series to the same period gives that series again.  With any
    other period name the result has lost its date column, and resampling it
    again raises [KeyError]. *)
Theorem X15_resample_idempotent (df g : frame) (period : string) :
  resample_k_data df period = Ok g ->
  (known_period period -> resample_k_data g period = Ok g) /\
  (~ known_period period ->
   resample_k_data g period = Raise (KeyError "date")).
Proof.
  intros Hr.
  destruct (resample_cases _ _ _ Hr)
    as [(-> & ->) | (_ & [(-> & ->) | [(-> & ->) | (Hn & ->)]])].
  - split; [done|]. unfold known_period. tauto.
  - split; [|unfold known_period; tauto]. intros _.
    rewrite resample_weekly by reflexivity. cbn [rows]. do 2 f_equal.
    destruct (resample_any week_key week_end week_key_mono week_key_week_end
                (rows df)) as (_ & _ & _ & _ & Hs).
    apply (resample_fixed week_key week_end week_key_mono week_key_week_end);
      [done | apply resampled_dates|].
    apply (resample_volume_range week_key week_end
             week_key_mono week_key_week_end).
  - split; [|unfold known_period; tauto]. intros _.
    rewrite resample_monthly by reflexivity. cbn [rows]. do 2 f_equal.
    destruct (resample_any month_key month_end
                month_key_mono month_key_month_end (rows df))
      as (_ & _ & _ & _ & Hs).
    apply (resample_fixed month_key month_end
             month_key_mono month_key_month_end);
      [done | apply resampled_dates|].
    apply (resample_volume_range month_key month_end
             month_key_mono month_key_month_end).
  - split; [done|]. intros _. unfold resample_k_data.
    destruct (String.eqb_spec period "daily") as [->|_]; [|done].
    unfold known_period in Hn. tauto.
Qed.

Lemma X15_resample_idempotent_witness :
  exists g,
    resample_k_data sample_frame "weekly" = Ok g /\
    resample_k_data g "weekly" = Ok g.
Proof.
  eexists. split; [reflexivity|].
  apply (X15_resample_idempotent sample_frame); [reflexivity|].
  unfold known_period. tauto.
Defined.

(** ** More on the batch loop *)

Section DownloaderMore.

Import Downloader.

Variable py : pandas.
Variable disk : nat -> option exn.


Lemma filter_snoc {A} (f : A -> bool) l x :
  List.filter f (l ++ [x]) = (List.filter f l ++ if f x then [x] else [])%list.
Proof. rewrite List.filter_app. cbn. by destruct (f x). Qed.

Lemma prefix_same_length (a b x y : string) :
  String.length a = String.length b ->
  String.prefix (a ++ x) (b ++ y) = true -> a = b.
Proof.
  revert b. induction a as [|c a IH]; intros [|c' b] Hlen Hp;
    try discriminate; [done|].
  cbn in Hlen.
  change (match ascii_dec c c' with
          | left _ => String.prefix (a ++ x) (b ++ y)
          | right _ => false
          end = true) in Hp.
  destruct (ascii_dec c c') as [->|_]; [|discriminate Hp].
  f_equal. apply IH; [lia | done].
Qed.

Lemma prefix_cons c (a b : string) :
  String.prefix (String c a) (String c b) = String.prefix a b.
Proof. cbn. by destruct (ascii_dec c c). Qed.

Lemma prefix_app_cancel (p a b : string) :
  String.prefix (p ++ a) (p ++ b) = String.prefix a b.
Proof.
  induction p as [|c p IH]; [done|].
  change (String.prefix (String c (p ++ a)) (String c (p ++ b))
          = String.prefix a b).
  by rewrite prefix_cons.
Qed.

(** A file written for one symbol is none of another symbol of the same
    length. *)
Lemma has_artifact_other d c c' df filename :
  String.length c = String.length c' -> c <> c' ->
  artifact_name c' df = Ok filename ->
  has_artifact (d ++ [(filename, df)]) c = has_artifact d c.
Proof.
  intros Hlen Hne (start & _ & ->)%artifact_name_inv.
  unfold has_artifact, existing_files.
  rewrite filter_snoc. cbn [fst].
  destruct (startswith (artifact_prefix c) _) eqn:E; [|by rewrite app_nil_r].
  exfalso. apply Hne. unfold startswith, artifact_prefix in E.
  rewrite prefix_app_cancel in E. by apply prefix_same_length in E.
Qed.

Lemma outcome_against_ext d1 d2 fetch write c :
  has_artifact d1 c = has_artifact d2 c ->
  outcome_against py d1 fetch write c = outcome_against py d2 fetch write c.
Proof. intros H. unfold outcome_against. by rewrite H. Qed.

(** The lines of a loop over distinct symbols of one length are the
    outcomes of the symbols against the directory the loop started with,
    up to the first exception. *)
Lemma loop_independent provider d codes n :
  NoDup codes -> Forall (fun c => String.length c = n) codes ->
  forall s i,
    raised s = None ->
    (forall c, c ∈ codes -> has_artifact (dir s) c = has_artifact d c) ->
    let s' := loop py provider disk s i codes in
    let outs :=
      imap (fun j c =>
              (c, outcome_against py d (provider (i + j)%nat)
                                  (disk (i + j)%nat) c))
           codes in
    exists lines rest,
      progress s' = (progress s ++ lines)%list /\
      outs = (map (fun p => (fst p, Ok (snd p))) lines ++ rest)%list /\
      match raised s' with
      | None => rest = []
      | Some e => exists c rest', rest = (c, Raise e) :: rest'
      end.
Proof.
  induction codes as [|c codes IH]; intros Hnd Hlen s i Hr Hd.
  { exists [], []. cbn. by rewrite app_nil_r, Hr. }
  apply NoDup_cons in Hnd as [Hc Hnd].
  inversion Hlen as [|? ? Hn Hlen']; subst.
  cbn [loop]. cbn zeta. rewrite imap_cons, Nat.add_0_r.
  pose proof (step_trace py disk provider s i c) as H. cbn zeta in H.
  rewrite (outcome_against_ext (dir s) d) in H by (apply Hd; by left).
  destruct (outcome_against py d (provider i) (disk i) c) as [o|e].
  - destruct H as (Hr' & Hp & _ & _ & _ & _ & Hdir). rewrite Hr'.
    destruct (IH Hnd Hlen' (step py provider disk s i c) (S i) Hr')
      as (lines & rest & Hl & Ho & Hm).
    { intros c' Hc'.
      assert (has_artifact (dir (step py provider disk s i c)) c'
              = has_artifact (dir s) c') as ->; [|apply Hd; by right].
      destruct o as [| |f]; [by destruct Hdir as [-> _]..|].
      destruct Hdir as (df & -> & _ & Hname & _).
      eapply has_artifact_other; [| |exact Hname].
      - rewrite Forall_forall in Hlen'. by apply Hlen'.
      - intros E. apply Hc. by rewrite <- E. }
    cbn zeta in Hl, Ho, Hm.
    exists ((c, o) :: lines), rest. split; [|split; [|done]].
    + by rewrite Hl, Hp, <- app_assoc.
    + cbn [map app fst snd]. f_equal. rewrite <- Ho.
      apply imap_ext. intros j c' _. cbn. by rewrite Nat.add_succ_r.
  - destruct H as (Hr' & Hp & _). rewrite Hr'. cbv iota. rewrite Hr'.
    exists [], ((c, Raise e)
                :: imap (fun j c' =>
                           (c', outcome_against py d (provider (i + S j)%nat)
                                                (disk (i + S j)%nat) c'))
                        codes).
    split; [by rewrite app_nil_r|]. split; [done|]. by eexists _, _.
Qed.

Lemma outcome_partition (l : list (string * outcome)) :
  (length (List.filter (fun p => is_succeeded (snd p)) l)
   + length (List.filter (fun p => is_failed (snd p)) l)
   + length (List.filter (fun p => is_skipped (snd p)) l)
   = length l)%nat.
Proof.
  induction l as [|[c o] l IH]; [done|].
  cbn [List.filter snd]. destruct o; cbn; lia.
Qed.

End DownloaderMore.

Import Downloader.

(** X16.  The summary of a batch run adds up.  The loop prints one line
    per symbol, in the order of the list, for all of the list or, when an
    exception stopped it, for the symbols before the one it stopped at.  The
    three counters are the numbers of lines of each kind, so they sum to the
    number of lines, which is the number of symbols when nothing stopped the
    run.  The provider was asked exactly once for each symbol whose line is
    not "skipped", in order, and once more for the symbol the run stopped
    at; it was never asked for a skipped one. *)
Theorem X16_batch_tally
    (py : pandas)
    (provider : nat -> string -> result table)
    (disk : nat -> option exn)
    (d : list (string * table)) (codes : list string) :
  let s := run py provider disk d codes in
  let lines kind := List.filter (fun p => kind (snd p)) (progress s) in
  let asked := map fst (lines (fun o => negb (is_skipped o))) in
  (exists rest,
      codes = (map fst (progress s) ++ rest)%list /\
      match raised s with
      | None => rest = [] /\ requests s = asked
      | Some _ =>
          exists c rest',
            rest = c :: rest' /\ requests s = (asked ++ [c])%list
      end) /\
  success_count (counts s) = length (lines is_succeeded) /\
  fail_count (counts s) = length (lines is_failed) /\
  skip_count (counts s) = length (lines is_skipped) /\
  (success_count (counts s) + fail_count (counts s) + skip_count (counts s)
   = length (progress s))%nat /\
  (raised s = None ->
   map fst (progress s) = codes /\
   (success_count (counts s) + fail_count (counts s) + skip_count (counts s)
    = length codes)%nat /\
   (length (requests s)
    = success_count (counts s) + fail_count (counts s))%nat).
Proof.
  intros s lines asked. subst asked lines s. cbn beta. unfold run.
  set (s := loop py provider disk (State (Tally 0 0 0) d [] [] None) 1 codes).
  set (lines kind := List.filter (fun p : string * outcome => kind (snd p))
                                 (progress s)).
  destruct (loop_invariant py disk
              (fun past st =>
                 success_count (counts st)
                 = length (List.filter (fun p => is_succeeded (snd p))
                                       (progress st)) /\
                 fail_count (counts st)
                 = length (List.filter (fun p => is_failed (snd p))
                                       (progress st)) /\
                 skip_count (counts st)
                 = length (List.filter (fun p => is_skipped (snd p))
                                       (progress st)) /\
                 match raised st with
                 | None =>
                     map fst (progress st) = past /\
                     requests st
                     = map fst (List.filter
                                  (fun p => negb (is_skipped (snd p)))
                                  (progress st))
                 | Some _ =>
                     exists c,
                       past = (map fst (progress st) ++ [c])%list /\
                       requests st
                       = (map fst (List.filter
                                     (fun p => negb (is_skipped (snd p)))
                                     (progress st)) ++ [c])%list
                 end)
              provider codes) with
    (past := @nil string) (s := State (Tally 0 0 0) d [] [] None) (i := 1%nat)
    as (tried & rest & E & (Hs & Hf & Hk & Hm) & Hrest); [|done|by cbn|].
  { intros past st i c Hst (Is & If & Ik & Im). rewrite Hst in Im.
    destruct Im as [Ip Ir].
    pose proof (step_trace py disk provider st i c) as H. cbn zeta in H.
    destruct (outcome_against py (dir st) (provider i) (disk i) c) as [o|e].
    - destruct H as (-> & Hp & Hs & Hf & Hk & Hr & _).
      rewrite Hp, Hs, Hf, Hk, Hr, !filter_snoc, !map_app, !length_app, Ip, Ir.
      cbn [snd].
      destruct o; cbn; rewrite ?app_nil_r, ?Nat.add_0_r; repeat split;
        try done; lia.
    - destruct H as (-> & -> & -> & _ & -> & _).
      do 3 (split; [done|]). exists c. by rewrite Ip, Ir. }
  change (loop py provider disk _ 1 codes) with s in Hs, Hf, Hk, Hm, Hrest.
  clearbody s.
  cbn [app] in Hm.
  pose proof (outcome_partition (progress s)) as Hsum.
  pose proof (filter_split_length (fun p => is_skipped (snd p)) (progress s))
    as Hns.
  subst lines. cbn beta in *.
  split; [|split; [done|]; split; [done|]; split; [done|]; split; [lia|]].
  - destruct (raised s) as [e|] eqn:Hr.
    + destruct Hm as (c & -> & Hq). exists (c :: rest).
      split; [by rewrite E, <- app_assoc|]. by exists c, rest.
    + destruct Hm as [<- Hq]. exists rest. split; [done|].
      split; [by apply Hrest | done].
  - intros Hr. rewrite Hr in Hm. destruct Hm as [<- Hq].
    rewrite (Hrest Hr), app_nil_r in E. subst codes.
    split; [done|]. rewrite length_map. split; [lia|].
    rewrite Hq, length_map. lia.
Qed.



(** X18.  Symbols of one length do not interfere.  When the symbols of the
    list are distinct and all of the same length (as the six-digit codes
    are), what happens at a symbol's turn depends on nothing but the
    directory the run started with, the symbol's own fetch and its own
    write: skipped when it had a file, failed when its fetch gave no rows,
    saved when the rows could be named and written, and otherwise the
    exception that stops the run.  The lines printed are these outcomes, in
    order, up to the first exception; no file written during the run makes
    a later symbol skip. *)
Theorem X18_independent_symbols
    (py : pandas)
    (provider : nat -> string -> result table)
    (disk : nat -> option exn)
    (d : list (string * table)) (codes : list string) (n : nat) :
  NoDup codes ->
  Forall (fun c => String.length c = n) codes ->
  let s := run py provider disk d codes in
  let outs :=
    imap (fun j c =>
            (c, outcome_against py d (provider (S j)) (disk (S j)) c))
         codes in
  exists rest,
    outs = (map (fun p => (fst p, Ok (snd p))) (progress s) ++ rest)%list /\
    match raised s with
    | None => rest = []
    | Some e => exists c rest', rest = (c, Raise e) :: rest'
    end.
Proof.
  intros Hnd Hlen s outs. subst s outs. unfold run.
  destruct (loop_independent py disk provider d codes n Hnd Hlen
              (State (Tally 0 0 0) d [] [] None) 1%nat)
    as (lines & rest & Hp & Ho & Hm); [done..|].
  cbn zeta in Hp, Ho, Hm. cbn [progress app] in Hp. rewrite Hp.
  exists rest. split; [exact Ho | exact Hm].
Qed.

Lemma X18_independent_symbols_witness :
  map (fun p => (fst p, Ok (snd p)))
      (progress (run sample_py sample_provider sample_disk []
                     ["000001"; "000002"]))
  = [("000001",
      outcome_against sample_py [] (sample_provider 1) (sample_disk 1)
                      "000001");
     ("000002",
      outcome_against sample_py [] (sample_provider 2) (sample_disk 2)
                      "000002")].
Proof.
  destruct (X18_independent_symbols sample_py sample_provider sample_disk []
              ["000001"; "000002"] 6) as (rest & Ho & Hm).
  - compute_done.
  - by repeat constructor.
  - assert (raised (run sample_py sample_provider sample_disk []
                        ["000001"; "000002"]) = None) as Hr
      by (vm_compute; reflexivity).
    rewrite Hr in Hm. subst rest. rewrite app_nil_r in Ho.
    symmetry. exact Ho.
Defined.

(** ** More on symbol normalization *)

Lemma length_app_string (a b : string) :
  String.length (a ++ b) = (String.length a + String.length b)%nat.
Proof.
  induction a as [|c a IH]; [done|].
  change (S (String.length (a ++ b))
          = S (String.length a + String.length b)). by rewrite IH.
Qed.

Lemma length_zeros n : String.length (zeros n) = n.
Proof. induction n as [|n IH]; [done|]. cbn. by rewrite IH. Qed.

Lemma length_zfill width s :
  String.length (zfill width s) = Nat.max width (String.length s).
Proof.
  unfold zfill. destruct (width <=? String.length s)%nat eqn:E.
  - apply Nat.leb_le in E. lia.
  - apply Nat.leb_gt in E. destruct s as [|c s].
    + rewrite length_zeros. cbn in *. lia.
    + destruct (is_sign c); cbn [String.length] in *;
        rewrite length_app_string, length_zeros; cbn [String.length]; lia.
Qed.

Lemma zfill_long width s :
  (width <= String.length s)%nat -> zfill width s = s.
Proof. intros H. unfold zfill. apply Nat.leb_le in H. by rewrite H. Qed.

Lemma rstrip_cons c u :
  rstrip u = u -> u <> "" -> rstrip (String c u) = String c u.
Proof. intros Hu Hne. cbn [rstrip]. rewrite Hu. by destruct u. Qed.

Lemma rstrip_app a b :
  rstrip b = b -> b <> "" -> rstrip (a ++ b) = a ++ b.
Proof.
  intros Hb Hne. induction a as [|c a IH]; [done|].
  change (rstrip (String c (a ++ b)) = String c (a ++ b)).
  apply rstrip_cons; [done|]. by destruct a.
Qed.

Lemma rstrip_zeros n : rstrip (zeros n) = zeros n.
Proof.
  induction n as [|n IH]; [done|].
  destruct n as [|n]; [done|].
  change (rstrip (String "0" (zeros (S n))) = String "0" (zeros (S n))).
  by apply rstrip_cons.
Qed.

Lemma rstrip_tail c u :
  rstrip (String c u) = String c u -> u <> "" -> rstrip u = u.
Proof.
  cbn [rstrip]. intros H Hne. destruct (rstrip u) as [|c' r].
  - destruct (is_space c); [discriminate|]. injection H as <-. done.
  - by injection H.
Qed.

Lemma rstrip_idempotent s : rstrip (rstrip s) = rstrip s.
Proof.
  induction s as [|c s IH]; [done|]. cbn [rstrip].
  destruct (rstrip s) as [|c' r] eqn:E.
  - destruct (is_space c) eqn:Ec; [done|]. cbn. by rewrite Ec.
  - by apply rstrip_cons.
Qed.

Lemma lstrip_head c u : is_space c = false -> lstrip (String c u) = String c u.
Proof. intros H. cbn. by rewrite H. Qed.

Lemma lstrip_trimmed s : lstrip s = "" \/ exists c u,
  lstrip s = String c u /\ is_space c = false.
Proof.
  induction s as [|c s IH]; [by left|]. cbn [lstrip].
  destruct (is_space c) eqn:E; [done|]. right. by exists c, s.
Qed.

Lemma rstrip_head c u :
  is_space c = false -> exists r, rstrip (String c u) = String c r.
Proof.
  intros H. cbn [rstrip]. destruct (rstrip u) as [|c' r].
  - rewrite H. by eexists.
  - by eexists.
Qed.

(** A stripped string is empty, or begins and ends with a character that is
    no white space. *)
Lemma strip_trimmed s :
  rstrip (strip s) = strip s /\
  (strip s = "" \/ exists c u, strip s = String c u /\ is_space c = false).
Proof.
  unfold strip. split; [apply rstrip_idempotent|].
  destruct (lstrip_trimmed s) as [->|(c & u & -> & Hc)]; [by left|].
  right. destruct (rstrip_head c u Hc) as (r & ->). by exists c, r.
Qed.

Lemma strip_zfill width t :
  rstrip t = t ->
  (t = "" \/ exists c u, t = String c u /\ is_space c = false) ->
  strip (zfill width t) = zfill width t.
Proof.
  intros Hr Hl. unfold zfill.
  destruct (width <=? String.length t)%nat eqn:E.
  { unfold strip. destruct Hl as [->|(c & u & -> & Hc)]; [done|].
    by rewrite lstrip_head. }
  apply Nat.leb_gt in E.
  destruct (width - String.length t)%nat as [|k] eqn:Ek; [lia|].
  unfold strip. destruct Hl as [->|(c & u & -> & Hc)].
  - change (zeros (S k)) with (String "0" (zeros k)).
    rewrite lstrip_head by done. apply (rstrip_zeros (S k)).
  - destruct (is_sign c) eqn:Es.
    + rewrite lstrip_head by done.
      destruct u as [|c' u'].
      * rewrite append_empty. apply rstrip_cons; [apply rstrip_zeros | done].
      * apply rstrip_cons; [|done].
        apply rstrip_app; [|done]. by apply (rstrip_tail c).
    + change (zeros (S k) ++ String c u)
        with (String "0" (zeros k ++ String c u)).
      rewrite lstrip_head by done.
      change (String "0" (zeros k ++ String c u))
        with (zeros (S k) ++ String c u).
      by apply rstrip_app.
Qed.

Lemma normalize_fixed s : normalize (normalize s) = normalize s.
Proof.
  unfold normalize. destruct (strip_trimmed s) as [Hr Hl].
  rewrite (strip_zfill 6 (strip s) Hr Hl).
  apply zfill_long. rewrite length_zfill. lia.
Qed.

Lemma normalize_nonempty s : normalize s <> "".
Proof.
  intros H. pose proof (length_zfill 6 (strip s)) as Hl.
  fold (normalize s) in Hl. rewrite H in Hl. cbn in Hl. lia.
Qed.

(** X19.  Normalizing a symbol is idempotent.  The symbol as it is looked
    up has at least six characters (six, unless the stripped input is
    longer), and normalizing it again changes nothing; so entering the
    normalized symbol gives the same chart and the same hover readout as
    entering the symbol. A symbol of six or more characters without white
    space around it is looked up as it is. *)
Theorem X19_normalize_idempotent (symbol : string) :
  normalize (normalize symbol) = normalize symbol /\
  String.length (normalize symbol)
  = Nat.max 6 (String.length (strip symbol)) /\
  (forall py st cf hd period,
      symbol <> "" ->
      update_chart py st cf (normalize symbol) period
      = update_chart py st cf symbol period /\
      display_hover py st hd (normalize symbol) period
      = display_hover py st hd symbol period) /\
  (strip symbol = symbol -> (6 <= String.length symbol)%nat ->
   normalize symbol = symbol).
Proof.
  split; [apply normalize_fixed|]. split; [apply length_zfill|]. split.
  - intros py st cf hd period Hne.
    pose proof (normalize_nonempty symbol) as Hn.
    pose proof (normalize_fixed symbol) as Hf. split.
    + by apply update_chart_normalized.
    + by apply display_hover_normalized.
  - intros Hs Hl. unfold normalize. rewrite Hs. by apply zfill_long.
Qed.

Lemma X19_normalize_idempotent_witness : normalize "000007" = "000007".
Proof.
  destruct (X19_normalize_idempotent "000007") as (_ & _ & _ & H).
  apply H; [reflexivity | cbn; lia].
Defined.

(** ** The catalog *)

Lemma lookup_name_missing codes symbol :
  Forall (fun r => fst r <> symbol) codes ->
  lookup_name (Some codes) symbol = default_name.
Proof.
  intros H. unfold lookup_name. rewrite filter_none; [done|].
  eapply Forall_impl; [exact H|]. cbn. intros r Hr. by apply String.eqb_neq.
Qed.

Lemma lookup_name_first before name after symbol :
  Forall (fun r => fst r <> symbol) before ->
  lookup_name (Some (before ++ (symbol, name) :: after)%list) symbol = name.
Proof.
  intros H. unfold lookup_name. rewrite filter_first; [done| |].
  - eapply Forall_impl; [exact H|]. cbn. intros r Hr. by apply String.eqb_neq.
  - cbn. apply String.eqb_refl.
Qed.

(** X20.  The catalog decides the title of the chart and nothing else.
    The title carries the name of the first catalog row whose code is the
    normalized symbol, and the placeholder name when there is no catalog or
    no such row; with another catalog, or none, the chart callback returns
    the same figure under the other title and the same text. *)
Theorem X20_catalog_title
    (py : pandas) (st : store) (cf cf' : option (list (string * string)))
    (symbol period : string) :
  update_chart py st cf' symbol period
  = (with_name (lookup_name cf' (normalize symbol))
       <$> fst (update_chart py st cf symbol period),
     snd (update_chart py st cf symbol period)) /\
  (forall fig info,
      update_chart py st cf symbol period = (Some fig, info) ->
      fig_name fig = lookup_name cf (normalize symbol)) /\
  lookup_name None (normalize symbol) = default_name /\
  (forall codes,
      Forall (fun r => fst r <> normalize symbol) codes ->
      lookup_name (Some codes) (normalize symbol) = default_name) /\
  (forall before name after,
      Forall (fun r => fst r <> normalize symbol) before ->
      lookup_name (Some (before ++ (normalize symbol, name) :: after)%list)
                  (normalize symbol) = name).
Proof.
  split; [|split; [|split; [done|split]]].
  - unfold update_chart. destruct (String.eqb symbol ""); [done|].
    destruct (load_local_stock_data py st (normalize symbol)) as [[df0 fname]|e];
      cbn [bind fst snd]; [|done].
    destruct (resample_k_data df0 period) as [df|e]; cbn [bind]; [|done].
    unfold create_kline_ma_figure.
    destruct (date_col (add_ma py df MA_WINDOWS)); [|done]. cbn [negb].
    by destruct (forallb _ _).
  - intros fig info H. apply update_chart_ok in H as (_ & df & _ & H).
    unfold create_kline_ma_figure in H.
    destruct (date_col df); cbn [negb] in H; [|discriminate].
    destruct (forallb _ _); cbn [negb] in H; [|discriminate].
    by injection H as <-.
  - intros codes. apply lookup_name_missing.
  - intros before name after. apply lookup_name_first.
Qed.

Lemma X20_catalog_title_witness :
  lookup_name (Some [("000001", "PAYH"); ("000007", "QXGF")]) "000007"
  = "QXGF".
Proof.
  destruct (X20_catalog_title sample_py [] None None "7" "daily")
    as (_ & _ & _ & _ & H).
  apply (H [("000001", "PAYH")] "QXGF" []).
  constructor; [|constructor]. intros E. vm_compute in E. discriminate.
Defined.
